(** * README regeneration scripts: [scripts/update_readme.py] and
      [scripts/generate_diagrams.py]

    A shallow embedding of the two documentation scripts of the repository
    and the properties of their extraction, rendering and section
    replacement steps.

    Python values are embedded as follows.
    - [str] is a list of Unicode code points ([pystr]).
    - parsed HCL / YAML data is the tagged union [pyval]; a [dict] is an
      association list in insertion order, because the scripts iterate over
      [items()] and take [list(d.keys())[0]].
    - an exception is an outcome [Raise e]; [print] appends to a log that is
      threaded along with the outcome (the monad [M]).
    - what a run reads from outside (directory listings, what loading each
      file gives, the README, the clock, the diagram tool) is a [project]
      record; [update_readme] returns the text it passes to [f.write],
      and the write itself is taken to succeed. *)

From Stdlib Require Import String Ascii.
From Stdlib Require Import List NArith ZArith Bool Lia.
From Stdlib Require DecimalString.
Import ListNotations.
Local Open Scope list_scope.

(* ===================================================================== *)
(** ** Python strings *)
(* ===================================================================== *)

Module Py.

(** A Python [str]: its code points, in order. *)
Definition pystr := list N.

(** An ASCII literal of the source, as code points. *)
Definition lit (s : String.string) : pystr :=
  map N_of_ascii (list_ascii_of_string s).

Definition NL : N := 10%N.
Definition SLASH : N := 47%N.

Definition char_eqb : N -> N -> bool := N.eqb.

Fixpoint str_eqb (a b : pystr) : bool :=
  match a, b with
  | [], [] => true
  | x :: a', y :: b' => char_eqb x y && str_eqb a' b'
  | _, _ => false
  end.

(** [str.isspace] on one code point: the characters that [str.rstrip()]
    with no argument removes (CPython's [_PyUnicode_IsWhitespace]). *)
Definition isspace (c : N) : bool :=
  (((9 <=? c) && (c <=? 13)) || ((28 <=? c) && (c <=? 32))
   || (c =? 133) || (c =? 160) || (c =? 5760)
   || ((8192 <=? c) && (c <=? 8202))
   || (c =? 8232) || (c =? 8233) || (c =? 8239) || (c =? 8287)
   || (c =? 12288))%N.

(** [s.rstrip()]: drop the maximal run of whitespace at the end. *)
Fixpoint rstrip (s : pystr) : pystr :=
  match s with
  | [] => []
  | c :: s' =>
      match rstrip s' with
      | [] => if isspace c then [] else [c]
      | r => c :: r
      end
  end.

(** [s.startswith(p)]. *)
Fixpoint startswith (s p : pystr) {struct p} : bool :=
  match p, s with
  | [], _ => true
  | x :: p', y :: s' => char_eqb x y && startswith s' p'
  | _ :: _, [] => false
  end.

(** [s.endswith(p)]. *)
Definition endswith (s p : pystr) : bool :=
  startswith (rev s) (rev p).

(** [s.find(sep)]: index of the first occurrence, [None] for Python's -1. *)
Fixpoint find (s sep : pystr) : option nat :=
  if startswith s sep then Some 0%nat
  else match s with
       | [] => None
       | _ :: s' => option_map S (find s' sep)
       end.

(** [sep in s]. *)
Definition contains (s sep : pystr) : bool :=
  match find s sep with Some _ => true | None => false end.

(** [s.split(sep)[0]] for a non-empty [sep]: the text before the first
    occurrence of [sep], the whole of [s] when there is none. *)
Definition split_head (s sep : pystr) : pystr :=
  match find s sep with
  | Some i => firstn i s
  | None => s
  end.

(** [s.replace(old, new)] for one-character [old] and [new]. *)
Definition replace (s : pystr) (old new : N) : pystr :=
  map (fun c => if char_eqb c old then new else c) s.

(** [sep.join(parts)]. *)
Fixpoint join (sep : pystr) (parts : list pystr) : pystr :=
  match parts with
  | [] => []
  | [p] => p
  | p :: rest => p ++ sep ++ join sep rest
  end.

(** [str(n)] for an [int]. *)
Definition str_of_int (z : Z) : pystr :=
  lit (DecimalString.NilZero.string_of_int (Z.to_int z)).

(** *** posixpath *)

(** [p.rfind('/') + 1]: length of the part of [p] up to and including the
    last slash, 0 when there is none. *)
Fixpoint after_last_slash (p : pystr) : nat :=
  match p with
  | [] => 0%nat
  | c :: p' =>
      match after_last_slash p' with
      | O => if char_eqb c SLASH then 1%nat else 0%nat
      | S k => S (S k)
      end
  end.

(** [os.path.basename]. *)
Definition basename (p : pystr) : pystr := skipn (after_last_slash p) p.

Fixpoint rstrip_slash (s : pystr) : pystr :=
  match s with
  | [] => []
  | c :: s' =>
      match rstrip_slash s' with
      | [] => if char_eqb c SLASH then [] else [c]
      | r => c :: r
      end
  end.

(** [os.path.dirname]: the head up to the last slash, with trailing slashes
    removed unless the head consists of slashes only. *)
Definition dirname (p : pystr) : pystr :=
  let head := firstn (after_last_slash p) p in
  if forallb (fun c => char_eqb c SLASH) head then head
  else rstrip_slash head.

(** [os.path.join(a, b)]. *)
Definition path_join (a b : pystr) : pystr :=
  if startswith b [SLASH] then b
  else match a with
       | [] => b
       | _ => if endswith a [SLASH] then a ++ b else a ++ SLASH :: b
       end.

End Py.

(* ===================================================================== *)
(** ** Python values, exceptions and the run monad *)
(* ===================================================================== *)

Module Data.
Import Py.

(** What [hcl2.loads] and [yaml.safe_load_all] hand to the scripts.  A
    [dict] keeps its entries in insertion order; keys are strings.  Scalars
    other than [None], [bool], [int] and [str] are left out. *)
#[warnings="-register-all"]
Inductive pyval : Type :=
| VNone
| VBool (b : bool)
| VInt (z : Z)
| VStr (s : pystr)
| VList (l : list pyval)
| VDict (d : list (pystr * pyval)).

Definition dict := list (pystr * pyval).

(** [d.get(k)], [None] when the key is absent ([k in d] is [Some]). *)
Fixpoint dict_get {V : Type} (d : list (pystr * V)) (k : pystr) : option V :=
  match d with
  | [] => None
  | (k', v) :: d' => if str_eqb k' k then Some v else dict_get d' k
  end.

(** [d.get(k, default)]. *)
Definition dict_get_default {V : Type} (d : list (pystr * V)) (k : pystr)
    (default : V) : V :=
  match dict_get d k with Some v => v | None => default end.

(** [d[k] = v]: an existing key keeps its place, a new one goes last. *)
Fixpoint dict_set {V : Type} (d : list (pystr * V)) (k : pystr) (v : V)
    : list (pystr * V) :=
  match d with
  | [] => [(k, v)]
  | (k', v') :: d' =>
      if str_eqb k' k then (k', v) :: d' else (k', v') :: dict_set d' k v
  end.

(** [str(v)], as an f-string field formats it.  The [repr] of a list or a
    dict is taken as given. *)
Definition py_str (repr : pyval -> pystr) (v : pyval) : pystr :=
  match v with
  | VStr s => s
  | VNone => lit "None"
  | VBool true => lit "True"
  | VBool false => lit "False"
  | VInt z => str_of_int z
  | VList _ | VDict _ => repr v
  end.

Inductive exn : Type :=
| AttributeError | IndexError | KeyError | TypeError
| FileNotFoundError | PermissionError | IsADirectoryError
| UnicodeDecodeError.

Inductive outcome (A : Type) : Type :=
| Ok (a : A)
| Raise (e : exn).
Arguments Ok {A} a.
Arguments Raise {A} e.

Definition obind {A B : Type} (c : outcome A) (k : A -> outcome B)
    : outcome B :=
  match c with Ok a => k a | Raise e => Raise e end.

(** [for x in xs: body], threading the accumulated state, stopping at the
    first exception. *)
Fixpoint for_each {A S : Type} (xs : list A) (body : A -> S -> outcome S)
    (s : S) : outcome S :=
  match xs with
  | [] => Ok s
  | x :: xs' => obind (body x s) (for_each xs' body)
  end.

(** [for x in v] on a value: a list yields its elements, a dict its keys,
    a str its characters; anything else is not iterable. *)
Definition iterate (v : pyval) : outcome (list pyval) :=
  match v with
  | VList l => Ok l
  | VDict d => Ok (map (fun kv => VStr (fst kv)) d)
  | VStr s => Ok (map (fun c => VStr [c]) s)
  | VNone | VBool _ | VInt _ => Raise TypeError
  end.

(** [list(v.keys())[0]]. *)
Definition first_key (v : pyval) : outcome pystr :=
  match v with
  | VDict [] => Raise IndexError
  | VDict ((k, _) :: _) => Ok k
  | _ => Raise AttributeError
  end.

(** What the scripts print. *)
Inductive cause : Type :=
| Message (text : pystr)
| Exception (e : exn).

Inductive event : Type :=
| Warning_terraform (file_path : pystr) (e : pystr)
| Warning_kubernetes (file : pystr) (e : cause)
| Warning_diagram (e : pystr)
| Readme_updated.

(** A run: what was printed, and the value or the exception it ends with. *)
Definition M (A : Type) : Type := (list event * outcome A)%type.

Definition ret {A : Type} (a : A) : M A := ([], Ok a).
Definition raise {A : Type} (e : exn) : M A := ([], Raise e).
Definition print (ev : event) : M unit := ([ev], Ok tt).
Definition lift {A : Type} (c : outcome A) : M A := ([], c).

Definition bind {A B : Type} (c : M A) (k : A -> M B) : M B :=
  match c with
  | (log, Ok a) => let (log', r) := k a in (log ++ log', r)
  | (log, Raise e) => (log, Raise e)
  end.

Fixpoint for_eachM {A S : Type} (xs : list A) (body : A -> S -> M S)
    (s : S) : M S :=
  match xs with
  | [] => ret s
  | x :: xs' => bind (body x s) (for_eachM xs' body)
  end.

Definition result {A : Type} (c : M A) : outcome A := snd c.
Definition printed {A : Type} (c : M A) : list event := fst c.

(** *** The files a run sees *)

(** Opening a [.tf] file and [hcl2.loads] of its text: a dict, or an
    exception with the given text. *)
Inductive hcl_load : Type :=
| Parsed (config : dict)
| ParseFails (e : pystr).

(** A manifest file: [open] fails, or [yaml.safe_load_all] fails, or the
    file's documents. *)
Inductive yaml_load : Type :=
| Docs (docs : list pyval)
| LoadFails (e : pystr)
| OpenFails (e : exn) (text : pystr).

(** Opening and reading [README.md]. *)
Inductive read_result : Type :=
| ReadOk (content : pystr)
| ReadFails (e : exn).

(** Running the [terraform-visual] executable (with [check=True]). *)
Inductive tool_result : Type :=
| ToolOk
| ToolFails (e : pystr).

End Data.

Declare Scope outcome_scope.
Declare Scope run_scope.
Notation "x <- c ;; k" := (Data.obind c (fun x => k))
  (at level 61, c at next level, right associativity) : outcome_scope.
Notation "x <~ c ;; k" := (Data.bind c (fun x => k))
  (at level 61, c at next level, right associativity) : run_scope.
Notation "c ;;; k" := (Data.bind c (fun _ => k))
  (at level 61, right associativity) : run_scope.

(* ===================================================================== *)
(** ** The section replacer, shared by both scripts *)
(* ===================================================================== *)

Module Readme.
Import Py Data.

Definition MARKER : pystr := Eval cbv in lit "<!-- BEGIN AUTO-GENERATED -->".

Definition DEFAULT_TITLE : pystr :=
  Eval cbv in lit "# GKE Cluster with Terraform" ++ [NL; NL].

(** [try: content = f.read() / except FileNotFoundError: content = ...] *)
Definition read_existing (readme : read_result) : outcome pystr :=
  match readme with
  | ReadOk content => Ok content
  | ReadFails FileNotFoundError => Ok DEFAULT_TITLE
  | ReadFails e => Raise e
  end.

(** [if MARKER in content: content = content.split(MARKER)[0]] *)
Definition preserved (content : pystr) : pystr :=
  if contains content MARKER then split_head content MARKER else content.

Definition marker_line : pystr := MARKER ++ [NL].

Definition warning_line : pystr :=
  Eval cbv in
    lit "> " ++ [9888%N; 65039%N]
    ++ lit " This section is automatically generated. Do not modify manually."
    ++ [NL].

Definition last_updated : pystr := Eval cbv in lit "> Last updated: ".

(** The timestamp line and the blank line after it. *)
Definition timestamp_line (now : pystr) : pystr :=
  last_updated ++ now ++ [NL; NL].

(** What is written before the timestamp line. *)
Definition before_timestamp (content : pystr) : pystr :=
  rstrip (preserved content) ++ [NL; NL] ++ marker_line ++ warning_line.

Definition header (now : pystr) : pystr :=
  marker_line ++ warning_line ++ timestamp_line now.

(** [new_content] up to and including the header: the five statements both
    scripts share. *)
Definition new_content_head (content now : pystr) : pystr :=
  rstrip (preserved content) ++ [NL; NL] ++ header now.

(** The whole replacement, for given rendered sections. *)
Definition replace_section (content now sections : pystr) : pystr :=
  new_content_head content now ++ sections.

End Readme.

(* ===================================================================== *)
(** ** [generate_diagrams.py]: class [InfrastructureDiagramGenerator] *)
(* ===================================================================== *)

Module InfrastructureDiagramGenerator.
Import Py Data Readme.
Local Open Scope outcome_scope.
Local Open Scope run_scope.

(** [self.terraform_modules[module]]. *)
Record module_details : Type := {
  resources : list pystr;
  variables : list pystr;
  outputs : list pystr
}.

(** An entry of [self.kubernetes_resources[file]]. *)
Record k8s_resource : Type := {
  kind : pyval;
  name : pyval
}.

(** An entry of [os.listdir(modules_dir)]: a plain file, or a directory
    with its own listing and what loading each file gives. *)
Inductive dir_entry : Type :=
| IsFile
| IsDir (files : list (pystr * hcl_load)).

(** Everything a run reads from outside. *)
Record project : Type := {
  project_root : pystr;
  (** [os.listdir(modules_dir)], [None] when the directory is missing *)
  modules_dir : option (list (pystr * dir_entry));
  (** [os.listdir(k8s_dir)], [None] when [os.path.exists] is false *)
  k8s_dir : option (list (pystr * yaml_load));
  readme : read_result;
  terraform_visual : tool_result;
  (** [datetime.now().strftime('%Y-%m-%d %H:%M:%S')] *)
  now : pystr
}.

Definition with_readme (p : project) (r : read_result) : project :=
  {| project_root := project_root p;
     modules_dir := modules_dir p;
     k8s_dir := k8s_dir p;
     readme := r;
     terraform_visual := terraform_visual p;
     now := now p |}.

Definition with_now (p : project) (later : pystr) : project :=
  {| project_root := project_root p;
     modules_dir := modules_dir p;
     k8s_dir := k8s_dir p;
     readme := readme p;
     terraform_visual := terraform_visual p;
     now := later |}.

(** The project as the next run finds it when nothing but the README and
    the clock has changed: the README holds what the previous run wrote. *)
Definition next_run (p : project) (written later : pystr) : project :=
  with_now (with_readme p (ReadOk written)) later.

(** Whether [generate_terraform_visual_diagram] returns [True]. *)
Definition generated (p : project) : bool :=
  match terraform_visual p with ToolOk => true | ToolFails _ => false end.

Definition parse_terraform_file (file_path : pystr) (f : hcl_load) : M dict :=
  match f with
  | Parsed config => ret config
  | ParseFails e => print (Warning_terraform file_path e) ;;; ret []
  end.

(** [f"{resource_type}.{instance_name}"] *)
Definition resource_id (resource_type instance_name : pystr) : pystr :=
  resource_type ++ lit "." ++ instance_name.

(** The block under [# Extract resources]. *)
Definition extract_resources (config : dict) (acc : list pystr)
    : outcome (list pystr) :=
  match dict_get config (lit "resource") with
  | None => Ok acc
  | Some (VDict d) =>
      for_each d (fun '(resource_type, instances) acc =>
        insts <- iterate instances ;;
        for_each insts (fun instance acc =>
          instance_name <- first_key instance ;;
          Ok (acc ++ [resource_id resource_type instance_name])) acc) acc
  | Some (VList l) =>
      for_each l (fun resource_item acc =>
        match resource_item with
        | VDict d =>
            resource_type <- first_key resource_item ;;
            match dict_get d resource_type with
            | None => Raise KeyError
            | Some (VList insts) =>
                for_each insts (fun instance acc =>
                  match instance with
                  | VDict _ =>
                      instance_name <- first_key instance ;;
                      Ok (acc ++ [resource_id resource_type instance_name])
                  | _ => Ok acc
                  end) acc
            | Some _ => Ok acc
            end
        | _ => Ok acc
        end) acc
  | Some _ => Ok acc
  end.

(** The keys of one top-level block, in either shape: the blocks under
    [# Extract variables] and [# Extract outputs] read only names. *)
Definition extract_names (key : pystr) (config : dict) (acc : list pystr)
    : outcome (list pystr) :=
  match dict_get config key with
  | None => Ok acc
  | Some (VDict d) =>
      for_each d (fun '(item_name, _) acc => Ok (acc ++ [item_name])) acc
  | Some (VList l) =>
      for_each l (fun item acc =>
        match item with
        | VDict _ => item_name <- first_key item ;; Ok (acc ++ [item_name])
        | _ => Ok acc
        end) acc
  | Some _ => Ok acc
  end.

Definition extract_variables := extract_names (lit "variable").
Definition extract_outputs := extract_names (lit "output").

(** What one parsed file adds to the module's record. *)
Definition extract (config : dict) (details : module_details)
    : outcome module_details :=
  rs <- extract_resources config (resources details) ;;
  vs <- extract_variables config (variables details) ;;
  os <- extract_outputs config (outputs details) ;;
  Ok {| resources := rs; variables := vs; outputs := os |}.

(** The body of [for file in os.listdir(module_path)]. *)
Definition analyze_file (module_path : pystr) (entry : pystr * hcl_load)
    (details : module_details) : M module_details :=
  let (file, load) := entry in
  if endswith file (lit ".tf") then
    config <~ parse_terraform_file (path_join module_path file) load ;;
    lift (extract config details)
  else ret details.

Definition empty_details : module_details :=
  {| resources := []; variables := []; outputs := [] |}.

(** The record of one module directory.  The script stores the empty record
    under the module's key and then fills it in place; the key is touched
    by no other iteration, so the record is computed here and stored by
    [analyze_terraform_modules]. *)
Definition analyze_module (module_path : pystr)
    (files : list (pystr * hcl_load)) : M module_details :=
  for_eachM files (analyze_file module_path) empty_details.

Definition analyze_terraform_modules (p : project)
    : M (list (pystr * module_details)) :=
  let modules_path := path_join (project_root p) (lit "modules") in
  match modules_dir p with
  | None => raise FileNotFoundError
  | Some listing =>
      for_eachM listing (fun '(module, entry) terraform_modules =>
        match entry with
        | IsFile => ret terraform_modules
        | IsDir files =>
            details <~ analyze_module (path_join modules_path module) files ;;
            ret (dict_set terraform_modules module details)
        end) []
  end.

(** One element of the list comprehension of [analyze_kubernetes_resources]. *)
Definition manifest_record (r : dict) : outcome k8s_resource :=
  let k := dict_get_default r (lit "kind") (VStr (lit "Unknown")) in
  match dict_get_default r (lit "metadata") (VDict []) with
  | VDict metadata =>
      Ok {| kind := k;
            name := dict_get_default metadata (lit "name")
                      (VStr (lit "unnamed")) |}
  | _ => Raise AttributeError
  end.

(** [[{...} for r in resources if isinstance(r, dict)]] *)
Definition manifest_records (docs : list pyval)
    : outcome (list k8s_resource) :=
  for_each docs (fun r acc =>
    match r with
    | VDict d => rec <- manifest_record d ;; Ok (acc ++ [rec])
    | _ => Ok acc
    end) [].

Definition is_manifest_name (file : pystr) : bool :=
  endswith file (lit ".yaml") || endswith file (lit ".yml").

Definition analyze_kubernetes_resources (p : project)
    : M (list (pystr * list k8s_resource)) :=
  match k8s_dir p with
  | None => ret []
  | Some listing =>
      for_eachM listing (fun '(file, load) kubernetes_resources =>
        if is_manifest_name file then
          match load with
          | OpenFails e _ => raise e
          | LoadFails e =>
              print (Warning_kubernetes file (Message e)) ;;;
              ret kubernetes_resources
          | Docs docs =>
              match manifest_records docs with
              | Ok records => ret (dict_set kubernetes_resources file records)
              | Raise e =>
                  print (Warning_kubernetes file (Exception e)) ;;;
                  ret kubernetes_resources
              end
          end
        else ret kubernetes_resources) []
  end.

Section Rendering.

(** [repr] of lists and dicts, for values formatted into f-strings. *)
Variable repr : pyval -> pystr.

Let fmt := py_str repr.

(** [f"{module}_{resource}".replace('.', '_').replace('-', '_')] *)
Definition terraform_node_id (module resource : pystr) : pystr :=
  replace (replace (module ++ lit "_" ++ resource) 46%N 95%N) 45%N 95%N.

(** [f"k8s_{resource['kind']}_{resource['name']}".replace('-', '_')] *)
Definition k8s_node_id (resource : k8s_resource) : pystr :=
  replace (lit "k8s_" ++ fmt (kind resource) ++ lit "_" ++ fmt (name resource))
    45%N 95%N.

(** A node line: eight spaces, the identifier, the label in brackets. *)
Definition node_line (node_id label : pystr) : pystr :=
  lit "        " ++ node_id ++ lit "[" ++ label ++ lit "]".

Definition terraform_node (module resource : pystr) : pystr :=
  node_line (terraform_node_id module resource) resource.

Definition k8s_node (resource : k8s_resource) : pystr :=
  node_line (k8s_node_id resource)
    (fmt (kind resource) ++ lit "/" ++ fmt (name resource)).

Definition mermaid_preamble : list pystr :=
  [ lit "```mermaid";
    lit "graph TB";
    lit "    subgraph Infrastructure";
    lit "    A[GKE Cluster] --> B[VPC Network]" ].

Definition mermaid_modules (terraform_modules : list (pystr * module_details))
    : list pystr :=
  flat_map (fun '(module, details) =>
    [lit "    subgraph " ++ module]
    ++ map (terraform_node module) (resources details)
    ++ [lit "    end"]) terraform_modules.

Definition mermaid_kubernetes
    (kubernetes_resources : list (pystr * list k8s_resource)) : list pystr :=
  match kubernetes_resources with
  | [] => []
  | _ =>
      [lit "    subgraph Kubernetes"]
      ++ flat_map (fun '(_, resources) => map k8s_node resources)
           kubernetes_resources
      ++ [lit "    end"]
  end.

Definition mermaid_lines (terraform_modules : list (pystr * module_details))
    (kubernetes_resources : list (pystr * list k8s_resource)) : list pystr :=
  mermaid_preamble
  ++ mermaid_modules terraform_modules
  ++ mermaid_kubernetes kubernetes_resources
  ++ [lit "end"; lit "```"].

Definition generate_mermaid_diagram
    (terraform_modules : list (pystr * module_details))
    (kubernetes_resources : list (pystr * list k8s_resource)) : pystr :=
  join [NL] (mermaid_lines terraform_modules kubernetes_resources).

Definition generate_terraform_visual_diagram (p : project) : M bool :=
  match terraform_visual p with
  | ToolOk => ret true
  | ToolFails e => print (Warning_diagram e) ;;; ret false
  end.

(** [- `item`\n] *)
Definition bullet (item : pystr) : pystr :=
  lit "- `" ++ item ++ lit "`" ++ [NL].

(** A bullet group of the module section, omitted when empty. *)
Definition bullet_group (title : pystr) (items : list pystr) : pystr :=
  match items with
  | [] => []
  | _ => title ++ [NL] ++ concat (map bullet items) ++ [NL]
  end.

Definition modules_header : pystr :=
  Eval cbv in lit "## " ++ [127959%N] ++ lit " Terraform Modules" ++ [NL; NL].

Definition kubernetes_header : pystr :=
  Eval cbv in lit "## " ++ [128674%N] ++ lit " Kubernetes Resources" ++ [NL; NL].

Definition diagrams_header : pystr :=
  Eval cbv in
    lit "## " ++ [128202%N] ++ lit " Infrastructure Diagrams" ++ [NL; NL].

Definition module_section (entry : pystr * module_details) : pystr :=
  let (module, details) := entry in
  lit "### " ++ module ++ [NL; NL]
  ++ bullet_group (lit "**Resources:**") (resources details)
  ++ bullet_group (lit "**Variables:**") (variables details)
  ++ bullet_group (lit "**Outputs:**") (outputs details).

Definition modules_documentation
    (terraform_modules : list (pystr * module_details)) : pystr :=
  modules_header ++ concat (map module_section terraform_modules).

(** [- `kind/name`\n] *)
Definition k8s_bullet (resource : k8s_resource) : pystr :=
  bullet (fmt (kind resource) ++ lit "/" ++ fmt (name resource)).

Definition kubernetes_file_section (entry : pystr * list k8s_resource)
    : pystr :=
  let (file, resources) := entry in
  lit "### " ++ file ++ [NL; NL]
  ++ concat (map k8s_bullet resources) ++ [NL].

(** The part under [# Add Kubernetes documentation]. *)
Definition kubernetes_documentation
    (kubernetes_resources : list (pystr * list k8s_resource)) : pystr :=
  match kubernetes_resources with
  | [] => []
  | _ => kubernetes_header
         ++ concat (map kubernetes_file_section kubernetes_resources)
  end.

Definition detailed_view (generated : bool) : pystr :=
  if generated then
    lit "### Detailed Infrastructure View" ++ [NL]
    ++ lit "![Infrastructure Diagram](docs/diagrams/infrastructure.png)"
    ++ [NL; NL]
  else [].

(** Everything appended to [new_content] after the header. *)
Definition sections (terraform_modules : list (pystr * module_details))
    (kubernetes_resources : list (pystr * list k8s_resource))
    (generated : bool) : pystr :=
  diagrams_header
  ++ lit "### Infrastructure Overview" ++ [NL]
  ++ generate_mermaid_diagram terraform_modules kubernetes_resources
  ++ [NL; NL]
  ++ detailed_view generated
  ++ modules_documentation terraform_modules
  ++ kubernetes_documentation kubernetes_resources.

(** [update_readme]: the content written to [README.md]. *)
Definition update_readme (p : project) : M pystr :=
  terraform_modules <~ analyze_terraform_modules p ;;
  kubernetes_resources <~ analyze_kubernetes_resources p ;;
  content <~ lift (read_existing (readme p)) ;;
  generated <~ generate_terraform_visual_diagram p ;;
  let new_content :=
    replace_section content (now p)
      (sections terraform_modules kubernetes_resources generated) in
  print Readme_updated ;;; ret new_content.

End Rendering.

End InfrastructureDiagramGenerator.

(* ===================================================================== *)
(** ** [update_readme.py]: class [ProjectAnalyzer] *)
(* ===================================================================== *)

Module ProjectAnalyzer.
Import Py Data Readme.
Local Open Scope outcome_scope.
Local Open Scope run_scope.

(** Everything a run reads from outside. *)
Record project : Type := {
  project_root : pystr;
  (** [os.walk] of the modules directory: each directory path with its
      files and what loading each gives; empty when the directory is
      missing *)
  modules_walk : list (pystr * list (pystr * hcl_load));
  (** [os.listdir(k8s_dir)], [None] when [os.path.exists] is false *)
  k8s_dir : option (list (pystr * yaml_load));
  readme : read_result;
  terraform_visual : tool_result;
  (** [datetime.now().strftime('%Y-%m-%d %H:%M:%S')] *)
  now : pystr
}.

Definition with_readme (p : project) (r : read_result) : project :=
  {| project_root := project_root p;
     modules_walk := modules_walk p;
     k8s_dir := k8s_dir p;
     readme := r;
     terraform_visual := terraform_visual p;
     now := now p |}.

Definition with_now (p : project) (later : pystr) : project :=
  {| project_root := project_root p;
     modules_walk := modules_walk p;
     k8s_dir := k8s_dir p;
     readme := readme p;
     terraform_visual := terraform_visual p;
     now := later |}.

(** The project as the next run finds it when nothing but the README and
    the clock has changed: the README holds what the previous run wrote. *)
Definition next_run (p : project) (written later : pystr) : project :=
  with_now (with_readme p (ReadOk written)) later.

Definition analyze_terraform_file (file_path : pystr) (f : hcl_load)
    : M dict :=
  match f with
  | Parsed parsed => ret parsed
  | ParseFails e => print (Warning_terraform file_path e) ;;; ret []
  end.

(** The documents of a manifest file; on any failure a warning and [{}],
    which iterates like the empty list. *)
Definition analyze_kubernetes_manifests (file_path : pystr) (f : yaml_load)
    : M (list pyval) :=
  match f with
  | Docs docs => ret docs
  | LoadFails e | OpenFails _ e =>
      print (Warning_kubernetes file_path (Message e)) ;;; ret []
  end.

(** [if module_name not in d: d[module_name] = [] / d[module_name].append(c)] *)
Definition dict_append (d : list (pystr * list dict)) (module_name : pystr)
    (c : dict) : list (pystr * list dict) :=
  match dict_get d module_name with
  | None => dict_set d module_name [c]
  | Some configs => dict_set d module_name (configs ++ [c])
  end.

Definition analyze_modules (p : project) : M (list (pystr * list dict)) :=
  for_eachM (modules_walk p) (fun '(root, files) terraform_modules =>
    for_eachM files (fun '(file, load) terraform_modules =>
      if endswith file (lit ".tf") then
        let file_path := path_join root file in
        let module_name := basename (dirname file_path) in
        parsed <~ analyze_terraform_file file_path load ;;
        ret (dict_append terraform_modules module_name parsed)
      else ret terraform_modules) terraform_modules) [].

Definition is_manifest_name (file : pystr) : bool :=
  endswith file (lit ".yaml") || endswith file (lit ".yml").

Definition analyze_manifests (p : project)
    : M (list (pystr * list pyval)) :=
  match k8s_dir p with
  | None => ret []
  | Some listing =>
      let k8s_path := path_join (project_root p) (lit "kubernetes/manifests") in
      for_eachM listing (fun '(file, load) kubernetes_resources =>
        if is_manifest_name file then
          docs <~ analyze_kubernetes_manifests (path_join k8s_path file) load ;;
          ret (dict_set kubernetes_resources file docs)
        else ret kubernetes_resources) []
  end.

(** [analyze_project]: the two accumulator fields after the scan. *)
Definition analyze_project (p : project)
    : M (list (pystr * list dict) * list (pystr * list pyval)) :=
  terraform_modules <~ analyze_modules p ;;
  kubernetes_resources <~ analyze_manifests p ;;
  ret (terraform_modules, kubernetes_resources).

Section Rendering.

(** [repr] of lists and dicts, for values formatted into f-strings. *)
Variable repr : pyval -> pystr.

Let fmt := py_str repr.

(** [f"- `{name}`"] *)
Definition bullet (item : pystr) : pystr :=
  lit "- `" ++ item ++ lit "`".

(** [f"- `{resource_type}.{instance_name}`"] *)
Definition resource_bullet (resource_type instance_name : pystr) : pystr :=
  bullet (resource_type ++ lit "." ++ instance_name).

(** [f"- `{var_name}` ({var_type})"] *)
Definition variable_bullet (var_name : pystr) (var_type : pyval) : pystr :=
  bullet var_name ++ lit " (" ++ fmt var_type ++ lit ")".

(** The resource block of [generate_module_documentation]. *)
Definition extract_resources (config : dict) (acc : list pystr)
    : outcome (list pystr) :=
  match dict_get config (lit "resource") with
  | None => Ok acc
  | Some (VDict d) =>
      for_each d (fun '(resource_type, instances) acc =>
        insts <- iterate instances ;;
        for_each insts (fun instance acc =>
          instance_name <- first_key instance ;;
          Ok (acc ++ [resource_bullet resource_type instance_name])) acc) acc
  | Some (VList l) =>
      for_each l (fun resource_item acc =>
        match resource_item with
        | VDict d =>
            resource_type <- first_key resource_item ;;
            match dict_get d resource_type with
            | None => Raise KeyError
            | Some (VList insts) =>
                for_each insts (fun instance acc =>
                  match instance with
                  | VDict _ =>
                      instance_name <- first_key instance ;;
                      Ok (acc ++ [resource_bullet resource_type instance_name])
                  | _ => Ok acc
                  end) acc
            | Some _ => Ok acc
            end
        | _ => Ok acc
        end) acc
  | Some _ => Ok acc
  end.

(** [var_config.get('type', 'any')] *)
Definition variable_type (var_config : pyval) : outcome pyval :=
  match var_config with
  | VDict c => Ok (dict_get_default c (lit "type") (VStr (lit "any")))
  | _ => Raise AttributeError
  end.

(** The variable block. *)
Definition extract_variables (config : dict) (acc : list pystr)
    : outcome (list pystr) :=
  match dict_get config (lit "variable") with
  | None => Ok acc
  | Some (VDict d) =>
      for_each d (fun '(var_name, var_config) acc =>
        var_type <- variable_type var_config ;;
        Ok (acc ++ [variable_bullet var_name var_type])) acc
  | Some (VList l) =>
      for_each l (fun var_item acc =>
        match var_item with
        | VDict d =>
            var_name <- first_key var_item ;;
            match dict_get d var_name with
            | None => Raise KeyError
            | Some var_config =>
                var_type <- variable_type var_config ;;
                Ok (acc ++ [variable_bullet var_name var_type])
            end
        | _ => Ok acc
        end) acc
  | Some _ => Ok acc
  end.

(** The output block. *)
Definition extract_outputs (config : dict) (acc : list pystr)
    : outcome (list pystr) :=
  match dict_get config (lit "output") with
  | None => Ok acc
  | Some (VDict d) =>
      for_each d (fun '(output_name, _) acc =>
        Ok (acc ++ [bullet output_name])) acc
  | Some (VList l) =>
      for_each l (fun output_item acc =>
        match output_item with
        | VDict _ =>
            output_name <- first_key output_item ;;
            Ok (acc ++ [bullet output_name])
        | _ => Ok acc
        end) acc
  | Some _ => Ok acc
  end.

(** The three local lists [resources], [variables], [outputs]. *)
Record module_lists : Type := {
  resources : list pystr;
  variables : list pystr;
  outputs : list pystr
}.

Definition empty_lists : module_lists :=
  {| resources := []; variables := []; outputs := [] |}.

(** The body of [for config in configs]. *)
Definition extract (config : dict) (lists : module_lists)
    : outcome module_lists :=
  rs <- extract_resources config (resources lists) ;;
  vs <- extract_variables config (variables lists) ;;
  os <- extract_outputs config (outputs lists) ;;
  Ok {| resources := rs; variables := vs; outputs := os |}.

Definition module_extract (configs : list dict) : outcome module_lists :=
  for_each configs extract empty_lists.

(** [title + "\n" + "\n".join(items) + "\n\n"], omitted when empty. *)
Definition bullet_group (title : pystr) (items : list pystr) : pystr :=
  match items with
  | [] => []
  | _ => title ++ [NL] ++ join [NL] items ++ [NL; NL]
  end.

Definition modules_header : pystr :=
  Eval cbv in lit "## " ++ [127959%N] ++ lit " Terraform Modules" ++ [NL; NL].

Definition kubernetes_header : pystr :=
  Eval cbv in lit "## " ++ [128674%N] ++ lit " Kubernetes Resources" ++ [NL; NL].

Definition module_section (module : pystr) (lists : module_lists) : pystr :=
  lit "### " ++ module ++ [NL; NL]
  ++ bullet_group (lit "**Resources:**") (resources lists)
  ++ bullet_group (lit "**Variables:**") (variables lists)
  ++ bullet_group (lit "**Outputs:**") (outputs lists).

Definition generate_module_documentation
    (terraform_modules : list (pystr * list dict)) : outcome pystr :=
  for_each terraform_modules (fun '(module, configs) doc =>
    lists <- module_extract configs ;;
    Ok (doc ++ module_section module lists)) modules_header.

(** [resource.get('kind', 'Unknown')] and
    [resource.get('metadata', {}).get('name', 'unnamed')] *)
Definition manifest_kind (resource : dict) : pyval :=
  dict_get_default resource (lit "kind") (VStr (lit "Unknown")).

Definition manifest_name (resource : dict) : outcome pyval :=
  match dict_get_default resource (lit "metadata") (VDict []) with
  | VDict metadata =>
      Ok (dict_get_default metadata (lit "name") (VStr (lit "unnamed")))
  | _ => Raise AttributeError
  end.

(** [f"- `{kind}/{name}`\n"] *)
Definition k8s_bullet (k n : pyval) : pystr :=
  bullet (fmt k ++ lit "/" ++ fmt n) ++ [NL].

(** The body of [for resource in resources]. *)
Definition document_resource (resource : pyval) (doc : pystr)
    : outcome pystr :=
  match resource with
  | VDict d =>
      let k := manifest_kind d in
      n <- manifest_name d ;;
      Ok (doc ++ k8s_bullet k n)
  | _ => Ok doc
  end.

Definition generate_kubernetes_documentation
    (kubernetes_resources : list (pystr * list pyval)) : outcome pystr :=
  for_each kubernetes_resources (fun '(file, resources) doc =>
    doc <- for_each resources document_resource
             (doc ++ lit "### " ++ file ++ [NL; NL]) ;;
    Ok (doc ++ [NL])) kubernetes_header.

Definition diagram_section : pystr :=
  Eval cbv in
    lit "## " ++ [128202%N] ++ lit " Infrastructure Diagram" ++ [NL; NL]
    ++ lit "![Infrastructure Diagram](docs/diagrams/infrastructure.png)"
    ++ [NL; NL].

(** The text [generate_infrastructure_diagram] returns. *)
Definition diagram_text (p : project) : pystr :=
  match terraform_visual p with
  | ToolOk => diagram_section
  | ToolFails _ => []
  end.

Definition generate_infrastructure_diagram (p : project) : M pystr :=
  match terraform_visual p with
  | ToolOk => ret diagram_section
  | ToolFails e => print (Warning_diagram e) ;;; ret []
  end.

(** [update_readme]: the content written to [README.md]. *)
Definition update_readme (p : project) : M pystr :=
  content <~ lift (read_existing (readme p)) ;;
  analyzed <~ analyze_project p ;;
  let (terraform_modules, kubernetes_resources) := analyzed in
  let new_content := new_content_head content (now p) in
  diagram <~ generate_infrastructure_diagram p ;;
  modules_doc <~ lift (generate_module_documentation terraform_modules) ;;
  kubernetes_doc <~
    lift (generate_kubernetes_documentation kubernetes_resources) ;;
  ret (new_content ++ diagram ++ modules_doc ++ kubernetes_doc).

End Rendering.

End ProjectAnalyzer.

(* ===================================================================== *)
(** ** The properties, in the words of the specification *)
(* ===================================================================== *)

Module Spec.
Import Py Data Readme.

(** [sep] occurs in [s] starting at index [i]. *)
Definition occurs_at (sep s : pystr) (i : nat) : Prop :=
  exists before after, s = before ++ sep ++ after /\ length before = i.

(** [pre] is the part of [content] before the first occurrence of the
    sentinel marker, the whole of [content] when the marker is absent. *)
Definition prefix_before_marker (content pre : pystr) : Prop :=
  (exists after,
      content = pre ++ MARKER ++ after
      /\ forall j, (j < length pre)%nat -> ~ occurs_at MARKER content j)
  \/ (pre = content /\ forall j, ~ occurs_at MARKER content j).

(** [t] is [s] trimmed of trailing whitespace: a whitespace suffix is
    removed and what remains does not end with whitespace. *)
Definition trimmed (s t : pystr) : Prop :=
  (exists ws, s = t ++ ws /\ Forall (fun c => isspace c = true) ws)
  /\ forall r c, t = r ++ [c] -> isspace c = false.

(** The sentinel header block: marker line, warning line, timestamp line,
    blank line. *)
Definition header_block (now : pystr) : pystr :=
  lit "<!-- BEGIN AUTO-GENERATED -->" ++ [NL]
  ++ (lit "> " ++ [9888%N; 65039%N]
      ++ lit " This section is automatically generated. Do not modify manually."
      ++ [NL])
  ++ (lit "> Last updated: " ++ now ++ [NL])
  ++ [NL].

(** *** The two shapes of a top-level block

    A block list, as the grammar has it: each declared name (a resource
    type, a variable name) with its bodies, every body a mapping. *)
Definition blocks := list (pystr * list dict).

(** A single mapping: [{name: [body, ...], ...}]. *)
Definition as_mapping (bs : blocks) : pyval :=
  VDict (map (fun b => (fst b, VList (map VDict (snd b)))) bs).

(** A sequence of single-key mappings: [[{name: [body, ...]}, ...]]. *)
Definition as_sequence (bs : blocks) : pyval :=
  VList (map (fun b => VDict [(fst b, VList (map VDict (snd b)))]) bs).

(** The first key of an instance body. *)
Definition instance_key (body : dict) : pystr :=
  match body with
  | [] => []
  | (k, _) :: _ => k
  end.

(** Every instance body has a first key. *)
Definition keyed (bs : blocks) : Prop :=
  Forall (fun b => Forall (fun body : dict => body <> []) (snd b)) bs.

(** ["<type>.<instance_name>"], one per instance, in the order met. *)
Definition identifiers (bs : blocks) : list pystr :=
  flat_map (fun b =>
    map (fun body => fst b ++ lit "." ++ instance_key body) (snd b)) bs.

(** A variable list: each declared name with its attributes. *)
Definition declarations := list (pystr * dict).

(** A single mapping [{name: attributes, ...}]. *)
Definition declared_mapping (vs : declarations) : pyval :=
  VDict (map (fun v => (fst v, VDict (snd v))) vs).

(** A sequence of single-key mappings [[{name: attributes}, ...]]. *)
Definition declared_sequence (vs : declarations) : pyval :=
  VList (map (fun v => VDict [(fst v, VDict (snd v))]) vs).

(** The declared [type] attribute, ["any"] when there is none. *)
Definition declared_type (attributes : dict) : pyval :=
  match dict_get attributes (lit "type") with
  | Some t => t
  | None => VStr (lit "any")
  end.

(** The bullet of a variable with its type annotation:
    [- `name` (type)]. *)
Definition annotated (repr : pyval -> pystr) (v : pystr * dict) : pystr :=
  lit "- `" ++ fst v ++ lit "` (" ++ py_str repr (declared_type (snd v))
  ++ lit ")".

(** Configs other than the empty mapping. *)
Definition nonempty_config (c : dict) : bool :=
  match c with [] => false | _ :: _ => true end.

(** Files whose load succeeded. *)
Definition loaded (f : pystr * hcl_load) : bool :=
  match snd f with Parsed _ => true | ParseFails _ => false end.

End Spec.

(* ===================================================================== *)
(** ** Example projects *)
(* ===================================================================== *)

Module IDG := InfrastructureDiagramGenerator.
Module PA := ProjectAnalyzer.

Module Examples.
Import Py Data Readme.

(** The examples format no list and no dict, so their [repr] is never
    consulted. *)
Definition no_repr (v : pyval) : pystr := [].

(** [resource "vpc_network" "main" {}], [variable "region" { type = string }]
    and [output "network_id" {}], with blocks as one mapping per kind. *)
Definition network_tf : dict :=
  [ (lit "resource",
      VDict [(lit "vpc_network", VList [VDict [(lit "main", VDict [])]])]);
    (lit "variable",
      VDict [(lit "region", VDict [(lit "type", VStr (lit "string"))])]);
    (lit "output", VDict [(lit "network_id", VDict [])]) ].

(** A README with hand-written text, trailing blanks and an old generated
    section. *)
Definition old_readme : pystr :=
  lit "# My project" ++ [NL; NL] ++ lit "Notes.  " ++ [NL; NL; NL]
  ++ MARKER ++ [NL] ++ lit "stale text" ++ [NL].

Definition stamp1 : pystr := lit "2024-01-01 10:00:00".
Definition stamp2 : pystr := lit "2024-01-02 11:30:00".

Definition idg_network : IDG.project :=
  {| IDG.project_root := lit "/repo";
     IDG.modules_dir :=
       Some [(lit "network", IDG.IsDir [(lit "main.tf", Parsed network_tf)])];
     IDG.k8s_dir := None;
     IDG.readme := ReadOk old_readme;
     IDG.terraform_visual := ToolFails (lit "terraform-visual: not found");
     IDG.now := stamp1 |}.

Definition pa_network : PA.project :=
  {| PA.project_root := lit "/repo";
     PA.modules_walk :=
       [ (lit "/repo/modules", []);
         (lit "/repo/modules/network", [(lit "main.tf", Parsed network_tf)]) ];
     PA.k8s_dir := None;
     PA.readme := ReadOk old_readme;
     PA.terraform_visual := ToolFails (lit "terraform-visual: not found");
     PA.now := stamp1 |}.

Definition idg_broken : IDG.project :=
  {| IDG.project_root := lit "/repo";
     IDG.modules_dir :=
       Some [(lit "network",
              IDG.IsDir [ (lit "broken.tf", ParseFails (lit "unexpected token"));
                          (lit "main.tf", Parsed network_tf) ])];
     IDG.k8s_dir := None;
     IDG.readme := ReadOk old_readme;
     IDG.terraform_visual := ToolFails (lit "terraform-visual: not found");
     IDG.now := stamp1 |}.

(** A module directory with one well-formed and one malformed file. *)
Definition pa_broken : PA.project :=
  {| PA.project_root := lit "/repo";
     PA.modules_walk :=
       [ (lit "/repo/modules/network",
          [ (lit "main.tf", Parsed network_tf);
            (lit "broken.tf", ParseFails (lit "unexpected token")) ]) ];
     PA.k8s_dir := None;
     PA.readme := ReadOk old_readme;
     PA.terraform_visual := ToolFails (lit "terraform-visual: not found");
     PA.now := stamp1 |}.

(** A manifest document with [kind] and [metadata.name]. *)
Definition pod_doc : dict :=
  [ (lit "kind", VStr (lit "Pod"));
    (lit "metadata", VDict [(lit "name", VStr (lit "web"))]) ].

(** The document [kind: Pod / metadata:], whose [metadata] is null. *)
Definition null_metadata_doc : dict :=
  [ (lit "kind", VStr (lit "Pod")); (lit "metadata", VNone) ].

(** A manifest with a name that has a dot: [kind: ConfigMap],
    [metadata.name: app.config]. *)
Definition dotted_doc : dict :=
  [ (lit "kind", VStr (lit "ConfigMap"));
    (lit "metadata", VDict [(lit "name", VStr (lit "app.config"))]) ].

Definition idg_with_manifest (docs : list pyval) : IDG.project :=
  {| IDG.project_root := lit "/repo";
     IDG.modules_dir := Some [];
     IDG.k8s_dir := Some [(lit "app.yaml", Docs docs)];
     IDG.readme := ReadOk old_readme;
     IDG.terraform_visual := ToolFails (lit "terraform-visual: not found");
     IDG.now := stamp1 |}.

Definition pa_with_manifest (docs : list pyval) : PA.project :=
  {| PA.project_root := lit "/repo";
     PA.modules_walk := [];
     PA.k8s_dir := Some [(lit "app.yaml", Docs docs)];
     PA.readme := ReadOk old_readme;
     PA.terraform_visual := ToolFails (lit "terraform-visual: not found");
     PA.now := stamp1 |}.

(** A resource block of type [t] with instances keyed [a] then [b]. *)
Definition two_instances : Spec.blocks :=
  [(lit "t", [[(lit "a", VDict [])]; [(lit "b", VDict [])]])].

(** [variable "region" { type = string }] and [variable "zone" {}]. *)
Definition two_variables : Spec.declarations :=
  [(lit "region", [(lit "type", VStr (lit "string"))]); (lit "zone", [])].

End Examples.

(* ===================================================================== *)
(** ** Further vocabulary for the behaviour of the scripts *)
(* ===================================================================== *)

Module Behaviour.
Import Py Data Readme.

(** The files of a listing whose name ends in [.tf]. *)
Definition tf_only (files : list (pystr * hcl_load))
    : list (pystr * hcl_load) :=
  filter (fun f => endswith (fst f) (lit ".tf")) files.

(** The same walk with the other files left out. *)
Definition walk_tf_only (walk : list (pystr * list (pystr * hcl_load)))
    : list (pystr * list (pystr * hcl_load)) :=
  map (fun d => (fst d, tf_only (snd d))) walk.

Definition pa_with_walk (p : PA.project)
    (walk : list (pystr * list (pystr * hcl_load))) : PA.project :=
  {| PA.project_root := PA.project_root p;
     PA.modules_walk := walk;
     PA.k8s_dir := PA.k8s_dir p;
     PA.readme := PA.readme p;
     PA.terraform_visual := PA.terraform_visual p;
     PA.now := PA.now p |}.

(** Two records of [generate_diagrams.py], list by list. *)
Definition details_app (a b : IDG.module_details) : IDG.module_details :=
  {| IDG.resources := IDG.resources a ++ IDG.resources b;
     IDG.variables := IDG.variables a ++ IDG.variables b;
     IDG.outputs := IDG.outputs a ++ IDG.outputs b |}.

(** Two triples of lists of [update_readme.py], list by list. *)
Definition lists_app (a b : PA.module_lists) : PA.module_lists :=
  {| PA.resources := PA.resources a ++ PA.resources b;
     PA.variables := PA.variables a ++ PA.variables b;
     PA.outputs := PA.outputs a ++ PA.outputs b |}.

(** The first key of every item that is a mapping with a key. *)
Definition first_keys (items : list pyval) : list pystr :=
  flat_map (fun v => match v with
                     | VDict ((k, _) :: _) => [k]
                     | _ => []
                     end) items.

(** What [analyze_terraform_file] returns for a file. *)
Definition config_of (f : pystr * hcl_load) : dict :=
  match snd f with Parsed c => c | ParseFails _ => [] end.

(** The accumulator that holds one module, when it has configs at all. *)
Definition grouped (module : pystr) (configs : list dict)
    : list (pystr * list dict) :=
  match configs with [] => [] | _ :: _ => [(module, configs)] end.

(** A project of [update_readme.py] whose [.tf] files lie in the modules
    directory itself. *)
Definition pa_top_level : PA.project :=
  {| PA.project_root := lit "/repo";
     PA.modules_walk :=
       [ (lit "/repo/modules",
          [ (lit "main.tf", Parsed Examples.network_tf);
            (lit "notes.md", ParseFails (lit "not HCL"));
            (lit "broken.tf", ParseFails (lit "unexpected token")) ]) ];
     PA.k8s_dir := None;
     PA.readme := ReadOk Examples.old_readme;
     PA.terraform_visual := ToolOk;
     PA.now := Examples.stamp1 |}.

(** The documents [analyze_kubernetes_manifests] returns for a file. *)
Definition docs_of (load : yaml_load) : list pyval :=
  match load with Docs docs => docs | LoadFails _ | OpenFails _ _ => [] end.

(** The entry a listed file gets in [kubernetes_resources] of
    [update_readme.py]. *)
Definition pa_manifest_entry (f : pystr * yaml_load)
    : list (pystr * list pyval) :=
  if PA.is_manifest_name (fst f) then [(fst f, docs_of (snd f))] else [].

(** The entry a listed file gets in [kubernetes_resources] of
    [generate_diagrams.py]. *)
Definition idg_manifest_entry (f : pystr * yaml_load)
    : list (pystr * list IDG.k8s_resource) :=
  if IDG.is_manifest_name (fst f) then
    match snd f with
    | Docs docs =>
        match IDG.manifest_records docs with
        | Ok records => [(fst f, records)]
        | Raise _ => []
        end
    | LoadFails _ | OpenFails _ _ => []
    end
  else [].

(** The file is no manifest that fails to open. *)
Definition opens (f : pystr * yaml_load) : Prop :=
  match snd f with
  | OpenFails _ _ => IDG.is_manifest_name (fst f) = false
  | Docs _ | LoadFails _ => True
  end.

(** The entry a listed name gets in [terraform_modules] of
    [generate_diagrams.py]. *)
Definition idg_module_entry (modules_path : pystr)
    (e : pystr * IDG.dir_entry) : list (pystr * IDG.module_details) :=
  match snd e with
  | IDG.IsFile => []
  | IDG.IsDir files =>
      match result (IDG.analyze_module (path_join modules_path (fst e)) files)
      with
      | Ok details => [(fst e, details)]
      | Raise _ => []
      end
  end.

(** Extraction raises in no file of the directory. *)
Definition module_extracts (modules_path : pystr)
    (e : pystr * IDG.dir_entry) : Prop :=
  match snd e with
  | IDG.IsFile => True
  | IDG.IsDir files =>
      exists details,
        result (IDG.analyze_module (path_join modules_path (fst e)) files)
        = Ok details
  end.

(** A document that is a mapping whose [metadata] is there and is not a
    mapping. *)
Definition bad_metadata (doc : pyval) : bool :=
  match doc with
  | VDict d =>
      match dict_get d (lit "metadata") with
      | None | Some (VDict _) => false
      | Some _ => true
      end
  | _ => false
  end.

(** The documents that are mappings. *)
Definition mapping_docs (docs : list pyval) : list dict :=
  flat_map (fun v => match v with VDict d => [d] | _ => [] end) docs.

(** [kind] and [metadata.name] of a document, with their defaults. *)
Definition kind_of (d : dict) : pyval :=
  dict_get_default d (lit "kind") (VStr (lit "Unknown")).

Definition name_of (d : dict) : pyval :=
  match dict_get d (lit "metadata") with
  | Some (VDict metadata) =>
      dict_get_default metadata (lit "name") (VStr (lit "unnamed"))
  | _ => VStr (lit "unnamed")
  end.

Definition record_of (d : dict) : IDG.k8s_resource :=
  {| IDG.kind := kind_of d; IDG.name := name_of d |}.

(** A manifests directory with a file that is no manifest, a manifest that
    does not parse and two that do. *)
Definition mixed_manifests : list (pystr * yaml_load) :=
  [ (lit "README.md", OpenFails PermissionError (lit "denied"));
    (lit "bad.yaml", LoadFails (lit "mapping values are not allowed here"));
    (lit "web.yml", Docs [VNone; VDict Examples.pod_doc; VDict []]);
    (lit "null.yaml", Docs [VDict Examples.null_metadata_doc]) ].

Definition idg_mixed : IDG.project :=
  {| IDG.project_root := lit "/repo";
     IDG.modules_dir :=
       Some [ (lit "README.md", IDG.IsFile);
              (lit "network",
               IDG.IsDir [(lit "main.tf", Parsed Examples.network_tf)]);
              (lit "empty", IDG.IsDir []) ];
     IDG.k8s_dir := Some mixed_manifests;
     IDG.readme := ReadOk Examples.old_readme;
     IDG.terraform_visual := ToolOk;
     IDG.now := Examples.stamp1 |}.

Definition pa_mixed : PA.project :=
  {| PA.project_root := lit "/repo";
     PA.modules_walk := [];
     PA.k8s_dir := Some mixed_manifests;
     PA.readme := ReadOk Examples.old_readme;
     PA.terraform_visual := ToolOk;
     PA.now := Examples.stamp1 |}.

(** The exceptions that ill-shaped parsed data can cause. *)
Definition shape_error (e : exn) : Prop :=
  e = AttributeError \/ e = IndexError \/ e = TypeError.

(** The number of lines of the Mermaid diagram. *)
Definition mermaid_line_count (tm : list (pystr * IDG.module_details))
    (kr : list (pystr * list IDG.k8s_resource)) : nat :=
  6 + 2 * length tm
  + list_sum (map (fun m => length (IDG.resources (snd m))) tm)
  + match kr with
    | [] => 0
    | _ :: _ => 2 + list_sum (map (fun f => length (snd f)) kr)
    end.

(** A listing of the modules directory in which every module directory
    holds only its files that parsed. *)
Definition loaded_entry (entry : pystr * IDG.dir_entry)
    : pystr * IDG.dir_entry :=
  match entry with
  | (name, IDG.IsFile) => (name, IDG.IsFile)
  | (name, IDG.IsDir files) => (name, IDG.IsDir (filter Spec.loaded files))
  end.

Definition idg_with_modules (p : IDG.project)
    (listing : option (list (pystr * IDG.dir_entry))) : IDG.project :=
  {| IDG.project_root := IDG.project_root p;
     IDG.modules_dir := listing;
     IDG.k8s_dir := IDG.k8s_dir p;
     IDG.readme := IDG.readme p;
     IDG.terraform_visual := IDG.terraform_visual p;
     IDG.now := IDG.now p |}.

(** The project without its [.tf] files that fail to parse. *)
Definition idg_loaded_only (p : IDG.project) : IDG.project :=
  idg_with_modules p (option_map (map loaded_entry) (IDG.modules_dir p)).

(** A file that fails to parse, taken as a file that parses to [{}]. *)
Definition as_empty_file (f : pystr * hcl_load) : pystr * hcl_load :=
  (fst f, Parsed (config_of f)).

(** The project in which every [.tf] file that fails to parse is an empty
    file instead. *)
Definition pa_failed_as_empty (p : PA.project) : PA.project :=
  pa_with_walk p
    (map (fun d => (fst d, map as_empty_file (snd d))) (PA.modules_walk p)).

(** What [generate_terraform_visual_diagram] and
    [generate_infrastructure_diagram] print. *)
Definition tool_log (tool : tool_result) : list event :=
  match tool with
  | ToolOk => []
  | ToolFails e => [Warning_diagram e]
  end.

(** The newlines of a text, and its number of lines:
    [len(text.split('\n'))]. *)
Definition newlines (s : pystr) : nat := length (filter (char_eqb NL) s).

Definition line_count (text : pystr) : nat := S (newlines text).

Definition one_line (s : pystr) : bool := Nat.eqb (newlines s) 0.

(** A module whose name and resource identifiers hold no newline. *)
Definition one_line_module (m : pystr * IDG.module_details) : bool :=
  one_line (fst m) && forallb one_line (IDG.resources (snd m)).

(** A record whose kind and name, as formatted, hold no newline. *)
Definition one_line_record (repr : pyval -> pystr) (r : IDG.k8s_resource)
    : bool :=
  one_line (py_str repr (IDG.kind r)) && one_line (py_str repr (IDG.name r)).

(** The cases of an extractor that add nothing. *)
Ltac appends_case :=
  simpl; rewrite ?app_nil_r; reflexivity.

End Behaviour.

(* ===================================================================== *)
(** ** Facts about the string operations *)
(* ===================================================================== *)

Module PyFacts.
Import Py.

Lemma str_eqb_eq (a b : pystr) : str_eqb a b = true <-> a = b.
Proof.
  revert b; induction a as [|x a IH]; intros [|y b]; simpl;
    try (split; [discriminate | congruence]); try tauto.
  unfold char_eqb. rewrite andb_true_iff, N.eqb_eq, IH.
  split; [intros [-> ->]; reflexivity | intros H; inversion H; auto].
Qed.

Lemma str_eqb_refl (a : pystr) : str_eqb a a = true.
Proof. apply str_eqb_eq; reflexivity. Qed.

(** *** [startswith] *)

Lemma startswith_app (p s : pystr) : startswith (p ++ s) p = true.
Proof.
  induction p as [|x p IH]; simpl; [reflexivity|].
  unfold char_eqb; rewrite N.eqb_refl; exact IH.
Qed.

Lemma startswith_spec (s p : pystr) :
  startswith s p = true <-> exists r, s = p ++ r.
Proof.
  split.
  - revert s; induction p as [|x p IH]; intros s H.
    + exists s; reflexivity.
    + destruct s as [|y s]; simpl in H; [discriminate|].
      apply andb_true_iff in H as [Hxy H].
      apply N.eqb_eq in Hxy; subst y.
      destruct (IH _ H) as [r ->]. exists r; reflexivity.
  - intros [r ->]. apply startswith_app.
Qed.

Lemma startswith_app_l (s p u : pystr) :
  startswith s p = true -> startswith (s ++ u) p = true.
Proof.
  intros H. apply startswith_spec in H as [r ->].
  rewrite <- app_assoc. apply startswith_app.
Qed.

(** A separator that does not contain [c] cannot straddle an occurrence
    of [c]: matching against [t ++ c :: u] is matching against [t]. *)
Lemma startswith_barrier (p t u : pystr) (c : N) :
  ~ In c p -> startswith (t ++ c :: u) p = startswith t p.
Proof.
  revert t; induction p as [|x p IH]; intros t Hc.
  - destruct t; reflexivity.
  - destruct t as [|y t]; simpl.
    + unfold char_eqb. destruct (N.eqb_spec x c) as [->|_]; [|reflexivity].
      exfalso; apply Hc; left; reflexivity.
    + rewrite IH; [reflexivity|]. intros H; apply Hc; right; exact H.
Qed.

(** *** [find] *)

Lemma find_unfold (s sep : pystr) :
  find s sep =
  if startswith s sep then Some 0%nat
  else match s with
       | [] => None
       | _ :: s' => option_map S (find s' sep)
       end.
Proof. destruct s; reflexivity. Qed.

(** [find] returns a position where the separator occurs. *)
Lemma find_some_split (s sep : pystr) (i : nat) :
  find s sep = Some i ->
  exists rest, s = firstn i s ++ sep ++ rest /\ length (firstn i s) = i.
Proof.
  revert i; induction s as [|c s IH]; intros i H; rewrite find_unfold in H.
  - destruct (startswith [] sep) eqn:E; [|discriminate].
    inversion H; subst i. apply startswith_spec in E as [r E].
    exists r; simpl; split; [exact E | reflexivity].
  - destruct (startswith (c :: s) sep) eqn:E.
    + inversion H; subst i. apply startswith_spec in E as [r E].
      exists r; simpl; split; [exact E | reflexivity].
    + destruct (find s sep) as [j|] eqn:F; [|discriminate].
      simpl in H; inversion H; subst i.
      destruct (IH j eq_refl) as [r [E1 E2]].
      exists r; simpl; split; [f_equal; exact E1 | f_equal; exact E2].
Qed.

(** ... and it is the first one: the separator starts at no smaller index. *)
Lemma find_some_first (s sep : pystr) (i : nat) :
  find s sep = Some i ->
  forall j, (j < i)%nat -> startswith (skipn j s) sep = false.
Proof.
  revert i; induction s as [|c s IH]; intros i H j Hj; rewrite find_unfold in H.
  - destruct (startswith [] sep); [inversion H; lia | discriminate].
  - destruct (startswith (c :: s) sep) eqn:E; [inversion H; lia|].
    destruct (find s sep) as [k|] eqn:F; [|discriminate].
    simpl in H; inversion H; subst i.
    destruct j as [|j]; [exact E|].
    simpl. apply (IH k eq_refl). lia.
Qed.

(** [find] fails exactly when the separator starts nowhere. *)
Lemma find_none_nowhere (s sep : pystr) :
  find s sep = None -> forall j, startswith (skipn j s) sep = false.
Proof.
  induction s as [|c s IH]; intros H j; rewrite find_unfold in H.
  - destruct (startswith [] sep) eqn:E; [discriminate|].
    destruct j; exact E.
  - destruct (startswith (c :: s) sep) eqn:E; [discriminate|].
    destruct (find s sep) eqn:F; [discriminate|].
    destruct j as [|j]; [exact E | simpl; apply IH; reflexivity].
Qed.

Lemma find_none_app_l (t u sep : pystr) :
  find (t ++ u) sep = None -> find t sep = None.
Proof.
  induction t as [|c t IH]; intros H.
  - simpl in H. rewrite find_unfold in H. rewrite find_unfold.
    destruct (startswith [] sep) eqn:E; [|reflexivity].
    apply (startswith_app_l _ _ u) in E. simpl in E.
    rewrite E in H; discriminate.
  - rewrite find_unfold in H. rewrite find_unfold.
    destruct (startswith (c :: t) sep) eqn:E.
    + apply (startswith_app_l _ _ u) in E. rewrite E in H; discriminate.
    + destruct (startswith ((c :: t) ++ u) sep); [discriminate|].
      simpl in H. destruct (find (t ++ u) sep) eqn:F; [discriminate|].
      rewrite (IH eq_refl); reflexivity.
Qed.

(** The text before the first occurrence does not contain the separator
    (for a separator that is not empty). *)
Lemma find_firstn_none (s sep : pystr) (i : nat) :
  sep <> [] -> find s sep = Some i -> find (firstn i s) sep = None.
Proof.
  intros Hsep. revert i; induction s as [|c s IH]; intros i H;
    rewrite find_unfold in H.
  - destruct sep; [contradiction|]. simpl in H. discriminate.
  - destruct (startswith (c :: s) sep) eqn:E.
    + inversion H; subst i. simpl. destruct sep; [contradiction|reflexivity].
    + destruct (find s sep) as [k|] eqn:F; [|discriminate].
      simpl in H; inversion H; subst i. simpl firstn.
      rewrite find_unfold.
      destruct (startswith (c :: firstn k s) sep) eqn:E'.
      * rewrite <- (firstn_skipn k s) in E.
        change (c :: firstn k s ++ skipn k s)
          with ((c :: firstn k s) ++ skipn k s) in E.
        rewrite (startswith_app_l _ _ _ E') in E; discriminate.
      * rewrite (IH k eq_refl); reflexivity.
Qed.

(** Searching across a character the separator does not contain. *)
Lemma find_barrier (t u sep : pystr) (c : N) :
  sep <> [] -> ~ In c sep ->
  find (t ++ c :: u) sep =
  match find t sep with
  | Some i => Some i
  | None => option_map (fun k => (length t + 1 + k)%nat) (find u sep)
  end.
Proof.
  intros Hne Hc. induction t as [|y t IH].
  - simpl app. rewrite (find_unfold (c :: u)).
    assert (E : startswith (c :: u) sep = false).
    { destruct sep as [|x sep]; [contradiction|]. simpl.
      unfold char_eqb. destruct (N.eqb_spec x c) as [->|_]; [|reflexivity].
      exfalso; apply Hc; left; reflexivity. }
    rewrite E. destruct sep as [|x sep]; [contradiction|].
    simpl (find [] _). destruct (find u (x :: sep)); reflexivity.
  - change ((y :: t) ++ c :: u) with (y :: (t ++ c :: u)).
    rewrite (find_unfold (y :: _)), (find_unfold (y :: t)).
    change (y :: t ++ c :: u) with ((y :: t) ++ c :: u).
    rewrite startswith_barrier by exact Hc.
    destruct (startswith (y :: t) sep); [reflexivity|].
    rewrite IH. destruct (find t sep); [reflexivity|].
    destruct (find u sep); reflexivity.
Qed.

(** [find] succeeds wherever the separator occurs. *)
Lemma find_app_some (a sep b : pystr) : find (a ++ sep ++ b) sep <> None.
Proof.
  induction a as [|c a IH].
  - simpl app. rewrite find_unfold, startswith_app. discriminate.
  - change ((c :: a) ++ sep ++ b) with (c :: (a ++ sep ++ b)).
    rewrite find_unfold. destruct (startswith _ sep); [discriminate|].
    destruct (find (a ++ sep ++ b) sep); [discriminate | contradiction].
Qed.

Lemma contains_app (a sep b : pystr) : contains (a ++ sep ++ b) sep = true.
Proof.
  unfold contains. pose proof (find_app_some a sep b) as H.
  destruct (find (a ++ sep ++ b) sep); [reflexivity | contradiction].
Qed.

(** *** [rstrip] *)

Lemma rstrip_unfold (c : N) (s : pystr) :
  rstrip (c :: s) =
  match rstrip s with
  | [] => if isspace c then [] else [c]
  | r => c :: r
  end.
Proof. reflexivity. Qed.

(** [rstrip] only removes a suffix made of whitespace. *)
Lemma rstrip_decompose (s : pystr) :
  exists ws, s = rstrip s ++ ws /\ forallb isspace ws = true.
Proof.
  induction s as [|c s [ws [E W]]].
  - exists []; split; reflexivity.
  - rewrite rstrip_unfold. destruct (rstrip s) as [|r0 r] eqn:R.
    + destruct (isspace c) eqn:C.
      * exists (c :: ws). simpl in *. rewrite C, W. subst s. auto.
      * exists ws. simpl in *. subst s. auto.
    + exists ws. split; [|exact W]. simpl. f_equal. exact E.
Qed.

(** What is left does not end with whitespace. *)
Lemma rstrip_last (s : pystr) (c : N) (r : pystr) :
  rstrip s = r ++ [c] -> isspace c = false.
Proof.
  revert r; induction s as [|x s IH]; intros r H.
  - destruct r; discriminate.
  - rewrite rstrip_unfold in H. destruct (rstrip s) as [|r0 r'] eqn:R.
    + destruct (isspace x) eqn:X; [destruct r; discriminate|].
      destruct r as [|? [|? ?]]; inversion H; subst; exact X.
    + destruct r as [|y r].
      * inversion H.
      * inversion H; subst. apply (IH r). assumption.
Qed.

Lemma rstrip_all_space (ws : pystr) :
  forallb isspace ws = true -> rstrip ws = [].
Proof.
  induction ws as [|c ws IH]; intros H; [reflexivity|].
  simpl in H. apply andb_true_iff in H as [C W].
  rewrite rstrip_unfold, (IH W), C. reflexivity.
Qed.

Lemma rstrip_app_space (s ws : pystr) :
  forallb isspace ws = true -> rstrip (s ++ ws) = rstrip s.
Proof.
  intros W. induction s as [|c s IH].
  - simpl. apply rstrip_all_space; exact W.
  - simpl app. rewrite !rstrip_unfold, IH. reflexivity.
Qed.

Lemma rstrip_idem (s : pystr) : rstrip (rstrip s) = rstrip s.
Proof.
  induction s as [|c s IH]; [reflexivity|].
  rewrite rstrip_unfold. destruct (rstrip s) as [|r0 r] eqn:R.
  - destruct (isspace c) eqn:C; [reflexivity|].
    rewrite rstrip_unfold. simpl (rstrip []). rewrite C. reflexivity.
  - rewrite rstrip_unfold, IH. reflexivity.
Qed.

End PyFacts.

(* ===================================================================== *)
(** ** The run monad *)
(* ===================================================================== *)

Module RunFacts.
Import Py Data.

Lemma result_bind {A B : Type} (c : M A) (k : A -> M B) :
  result (bind c k) = obind (result c) (fun a => result (k a)).
Proof.
  destruct c as [log [a|e]]; simpl; [|reflexivity].
  destruct (k a); reflexivity.
Qed.

Lemma result_lift {A : Type} (c : outcome A) : result (lift c) = c.
Proof. reflexivity. Qed.

Lemma result_ret {A : Type} (a : A) : result (ret a) = Ok a.
Proof. reflexivity. Qed.

End RunFacts.

(* ===================================================================== *)
(** ** The section replacer *)
(* ===================================================================== *)

Module ReplacerFacts.
Import Py Data Readme Spec PyFacts.

Lemma skipn_length_app {A : Type} (a l : list A) :
  skipn (length a) (a ++ l) = l.
Proof. induction a; simpl; auto. Qed.

Lemma firstn_length_app {A : Type} (a l : list A) :
  firstn (length a) (a ++ l) = a.
Proof. induction a; simpl; [destruct l|]; congruence. Qed.

Lemma occurs_at_startswith (sep s : pystr) (j : nat) :
  occurs_at sep s j -> startswith (skipn j s) sep = true.
Proof.
  intros (a & b & -> & <-). rewrite skipn_length_app. apply startswith_app.
Qed.

Lemma MARKER_nonempty : MARKER <> [].
Proof. discriminate. Qed.

Lemma MARKER_no_newline : ~ In NL MARKER.
Proof.
  unfold MARKER, NL. simpl.
  repeat (intros [H|H]; [discriminate H | revert H]). intros [].
Qed.

(** [preserved] computes the prefix before the first marker. *)
Lemma preserved_is_prefix (content : pystr) :
  prefix_before_marker content (preserved content).
Proof.
  unfold preserved, contains, split_head.
  destruct (find content MARKER) as [i|] eqn:F.
  - left. destruct (find_some_split _ _ _ F) as (rest & E & L).
    exists rest. split; [exact E|].
    intros j Hj Hocc. rewrite L in Hj.
    apply occurs_at_startswith in Hocc.
    rewrite (find_some_first _ _ _ F j Hj) in Hocc. discriminate.
  - right. split; [reflexivity|]. intros j Hocc.
    apply occurs_at_startswith in Hocc.
    rewrite (find_none_nowhere _ _ F j) in Hocc. discriminate.
Qed.

(** ... and nothing else is that prefix. *)
Lemma prefix_before_marker_unique (content pre : pystr) :
  prefix_before_marker content pre -> pre = preserved content.
Proof.
  unfold preserved, contains, split_head.
  intros [(after & E & Hfirst) | (-> & Hnone)].
  - assert (Hocc : occurs_at MARKER content (length pre))
      by (exists pre, after; auto).
    destruct (find content MARKER) as [i|] eqn:F.
    + destruct (find_some_split _ _ _ F) as (rest & E' & L).
      assert (Hi : occurs_at MARKER content i)
        by (exists (firstn i content), rest; auto).
      assert (i = length pre).
      { destruct (Nat.lt_trichotomy i (length pre)) as [Hlt|[Heq|Hgt]].
        - exfalso. exact (Hfirst i Hlt Hi).
        - exact Heq.
        - exfalso. apply occurs_at_startswith in Hocc.
          rewrite (find_some_first _ _ _ F _ Hgt) in Hocc. discriminate. }
      subst i. rewrite E at 1. symmetry. apply firstn_length_app.
    + exfalso. pose proof (find_app_some pre MARKER after) as Hs.
      rewrite <- E in Hs. contradiction.
  - destruct (find content MARKER) as [i|] eqn:F; [|reflexivity].
    exfalso. destruct (find_some_split _ _ _ F) as (rest & E' & L).
    apply (Hnone i). exists (firstn i content), rest; auto.
Qed.

(** [rstrip] computes the trimmed text. *)
Lemma rstrip_is_trimmed (s : pystr) : trimmed s (rstrip s).
Proof.
  split.
  - destruct (rstrip_decompose s) as (ws & E & W). exists ws.
    split; [exact E|]. apply Forall_forall. intros c Hc.
    rewrite forallb_forall in W. apply W; exact Hc.
  - intros r c. apply rstrip_last.
Qed.

(** The trimmed text is determined by the text. *)
Lemma trimmed_unique (s t : pystr) : trimmed s t -> t = rstrip s.
Proof.
  intros [(ws & -> & W) Hlast].
  assert (Wb : forallb isspace ws = true).
  { apply forallb_forall. rewrite Forall_forall in W. exact W. }
  rewrite rstrip_app_space by exact Wb.
  clear ws W Wb. induction t as [|c t IH]; [reflexivity|].
  rewrite rstrip_unfold. rewrite <- IH.
  - destruct t as [|d t]; [|reflexivity].
    rewrite (Hlast [] c eq_refl). reflexivity.
  - intros r d E. apply (Hlast (c :: r) d). rewrite E. reflexivity.
Qed.

Lemma header_is_block (now : pystr) : header now = header_block now.
Proof.
  unfold header, header_block, marker_line, timestamp_line.
  change (lit "<!-- BEGIN AUTO-GENERATED -->") with MARKER.
  change (lit "> " ++ [9888%N; 65039%N]
      ++ lit " This section is automatically generated. Do not modify manually."
      ++ [NL]) with warning_line.
  change (lit "> Last updated: ") with last_updated.
  rewrite <- !app_assoc. reflexivity.
Qed.

(** The preserved prefix holds no marker, trimmed or not. *)
Lemma preserved_no_marker (content : pystr) :
  find (preserved content) MARKER = None.
Proof.
  unfold preserved, contains, split_head.
  destruct (find content MARKER) as [i|] eqn:F; [|exact F].
  apply find_firstn_none; [exact MARKER_nonempty | exact F].
Qed.

Lemma rstrip_preserved_no_marker (content : pystr) :
  find (rstrip (preserved content)) MARKER = None.
Proof.
  destruct (rstrip_decompose (preserved content)) as (ws & E & _).
  apply (find_none_app_l _ ws). rewrite <- E. apply preserved_no_marker.
Qed.

(** In freshly written content the first marker is the one the script
    wrote: what is preserved from it is the old prefix and the two
    newlines. *)
Lemma preserved_of_written (t rest : pystr) :
  find t MARKER = None ->
  preserved (t ++ [NL; NL] ++ MARKER ++ rest) = t ++ [NL; NL].
Proof.
  intros F.
  assert (E : find (t ++ [NL; NL] ++ MARKER ++ rest) MARKER
              = Some (length (t ++ [NL; NL]))).
  { change (t ++ [NL; NL] ++ MARKER ++ rest)
      with (t ++ NL :: ([] ++ NL :: (MARKER ++ rest))).
    rewrite find_barrier by (exact MARKER_nonempty || exact MARKER_no_newline).
    rewrite F.
    rewrite find_barrier by (exact MARKER_nonempty || exact MARKER_no_newline).
    rewrite (find_unfold (MARKER ++ rest)), startswith_app.
    simpl. rewrite length_app. simpl. f_equal. lia. }
  unfold preserved, contains, split_head. rewrite E.
  change (t ++ [NL; NL] ++ MARKER ++ rest)
    with (t ++ ([NL; NL] ++ MARKER ++ rest)).
  rewrite app_assoc. apply firstn_length_app.
Qed.

Lemma replace_section_unfold (content now sections : pystr) :
  replace_section content now sections
  = rstrip (preserved content) ++ [NL; NL] ++ MARKER
    ++ ([NL] ++ warning_line ++ timestamp_line now ++ sections).
Proof.
  unfold replace_section, new_content_head, header, marker_line.
  rewrite <- !app_assoc. reflexivity.
Qed.

(** Replacing again keeps the prefix that the first replacement kept. *)
Lemma preserved_replace_section (content now sections : pystr) :
  rstrip (preserved (replace_section content now sections))
  = rstrip (preserved content).
Proof.
  rewrite replace_section_unfold.
  rewrite preserved_of_written by apply rstrip_preserved_no_marker.
  rewrite rstrip_app_space by reflexivity.
  apply rstrip_idem.
Qed.

Lemma replace_section_twice (content now1 now2 s1 s2 : pystr) :
  replace_section (replace_section content now1 s1) now2 s2
  = replace_section content now2 s2.
Proof.
  unfold replace_section at 1 3. unfold new_content_head.
  rewrite preserved_replace_section. reflexivity.
Qed.

End ReplacerFacts.

(* ===================================================================== *)
(** ** What each script writes *)
(* ===================================================================== *)

Module PipelineFacts.
Import Py Data Readme RunFacts.

Lemma for_eachM_total {A S : Type} (body : A -> S -> M S) :
  (forall x s, exists s', result (body x s) = Ok s') ->
  forall xs s, exists s', result (for_eachM xs body s) = Ok s'.
Proof.
  intros Hbody xs. induction xs as [|x xs IH]; intros s; simpl.
  - exists s; reflexivity.
  - rewrite result_bind. destruct (Hbody x s) as [s1 ->]. simpl. apply IH.
Qed.

Lemma replace_section_timestamp (content now sections : pystr) :
  replace_section content now sections
  = before_timestamp content ++ timestamp_line now ++ sections.
Proof.
  unfold replace_section, new_content_head, before_timestamp, header.
  rewrite <- !app_assoc. reflexivity.
Qed.

Lemma before_timestamp_replace_section (content now sections : pystr) :
  before_timestamp (replace_section content now sections)
  = before_timestamp content.
Proof.
  unfold before_timestamp.
  rewrite ReplacerFacts.preserved_replace_section. reflexivity.
Qed.

(** *** [generate_diagrams.py] *)

(** The content [generate_diagrams.py] writes: the replacer applied to the
    README read, with the sections rendered from the analysis. *)
Lemma idg_update_readme_result (repr : pyval -> pystr) (p : IDG.project) :
  result (IDG.update_readme repr p)
  = obind (result (IDG.analyze_terraform_modules p)) (fun tm =>
    obind (result (IDG.analyze_kubernetes_resources p)) (fun kr =>
    obind (read_existing (IDG.readme p)) (fun content =>
    Ok (replace_section content (IDG.now p)
          (IDG.sections repr tm kr (IDG.generated p)))))).
Proof.
  unfold IDG.update_readme, IDG.generated, IDG.generate_terraform_visual_diagram.
  destruct (IDG.analyze_terraform_modules p) as [l1 [tm|e]]; [|reflexivity].
  destruct (IDG.analyze_kubernetes_resources p) as [l2 [kr|e]]; [|reflexivity].
  destruct (read_existing (IDG.readme p)) as [content|e]; [|reflexivity].
  destruct (IDG.terraform_visual p); reflexivity.
Qed.

(** *** [update_readme.py] *)

Lemma pa_analyze_modules_total (p : PA.project) :
  exists tm, result (PA.analyze_modules p) = Ok tm.
Proof.
  unfold PA.analyze_modules. apply for_eachM_total.
  intros [root files] s. apply for_eachM_total.
  intros [file load] s'. destruct (endswith file (lit ".tf")).
  - rewrite result_bind. destruct load; simpl; eexists; reflexivity.
  - eexists; reflexivity.
Qed.

Lemma pa_analyze_manifests_total (p : PA.project) :
  exists kr, result (PA.analyze_manifests p) = Ok kr.
Proof.
  unfold PA.analyze_manifests. destruct (PA.k8s_dir p) as [listing|].
  - apply for_eachM_total. intros [file load] s.
    destruct (PA.is_manifest_name file).
    + rewrite result_bind. destruct load; simpl; eexists; reflexivity.
    + eexists; reflexivity.
  - eexists; reflexivity.
Qed.

(** Given the walk of the modules directory and the listing of the
    manifests directory, the scan of [update_readme.py] raises nothing:
    every failure to load a file is caught inside it. *)
Lemma pa_analyze_project_total (p : PA.project) :
  exists tm kr, result (PA.analyze_project p) = Ok (tm, kr)
    /\ result (PA.analyze_modules p) = Ok tm
    /\ result (PA.analyze_manifests p) = Ok kr.
Proof.
  destruct (pa_analyze_modules_total p) as [tm Htm].
  destruct (pa_analyze_manifests_total p) as [kr Hkr].
  exists tm, kr. unfold PA.analyze_project.
  rewrite result_bind, Htm. simpl. rewrite result_bind, Hkr. auto.
Qed.

(** The content [update_readme.py] writes. *)
Lemma pa_update_readme_result (repr : pyval -> pystr) (p : PA.project)
    (tm : list (pystr * list dict)) (kr : list (pystr * list pyval)) :
  result (PA.analyze_project p) = Ok (tm, kr) ->
  result (PA.update_readme repr p)
  = obind (read_existing (PA.readme p)) (fun content =>
    obind (PA.generate_module_documentation repr tm) (fun modules_doc =>
    obind (PA.generate_kubernetes_documentation repr kr) (fun kubernetes_doc =>
    Ok (replace_section content (PA.now p)
          (PA.diagram_text p ++ modules_doc ++ kubernetes_doc))))).
Proof.
  intros Han. unfold PA.update_readme, PA.diagram_text,
    PA.generate_infrastructure_diagram.
  destruct (read_existing (PA.readme p)) as [content|e]; [|reflexivity].
  destruct (PA.analyze_project p) as [l [[tm' kr']|e]]; [|discriminate].
  injection Han as -> ->.
  cbv beta iota delta [bind lift ret print result obind snd].
  destruct (PA.terraform_visual p);
    destruct (PA.generate_module_documentation repr tm) as [md|e1];
    destruct (PA.generate_kubernetes_documentation repr kr) as [kd|e2];
    reflexivity.
Qed.

End PipelineFacts.

(* ===================================================================== *)
(** ** Properties of the section replacer *)
(* ===================================================================== *)

Module Replacer.
Import Py Data Readme Spec PyFacts RunFacts ReplacerFacts PipelineFacts.
Import Examples.

(** C1. For every prior README content, what the section replacer writes is
    the prefix of the prior content before the first sentinel marker (the
    whole content when there is no marker), trimmed of trailing whitespace,
    then exactly two newlines, then the sentinel header block (marker line,
    warning line, timestamp line, blank line), then the rendered sections;
    so the output starts with the trimmed prefix and the two newlines.
    Both scripts write the replacer's result for the content they read. *)
Theorem prefix_preservation :
  (forall content now sections : pystr,
      exists pre t,
        prefix_before_marker content pre
        /\ trimmed pre t
        /\ replace_section content now sections
           = t ++ [NL; NL] ++ header_block now ++ sections
        /\ startswith (replace_section content now sections) (t ++ [NL; NL])
           = true)
  /\ (forall repr p written,
        result (IDG.update_readme repr p) = Ok written ->
        exists content sections,
          read_existing (IDG.readme p) = Ok content
          /\ written = replace_section content (IDG.now p) sections)
  /\ (forall repr p written,
        result (PA.update_readme repr p) = Ok written ->
        exists content sections,
          read_existing (PA.readme p) = Ok content
          /\ written = replace_section content (PA.now p) sections).
Proof.
  split; [|split].
  - intros content now sections.
    exists (preserved content), (rstrip (preserved content)).
    split; [apply preserved_is_prefix|].
    split; [apply rstrip_is_trimmed|].
    assert (E : replace_section content now sections
                = rstrip (preserved content) ++ [NL; NL]
                  ++ header_block now ++ sections).
    { unfold replace_section, new_content_head.
      rewrite header_is_block, <- !app_assoc. reflexivity. }
    split; [exact E|].
    rewrite E.
    change (rstrip (preserved content) ++ [NL; NL] ++ header_block now ++ sections)
      with (rstrip (preserved content)
            ++ ([NL; NL] ++ header_block now ++ sections)).
    rewrite (app_assoc _ [NL; NL]). apply startswith_app.
  - intros repr p written H. rewrite idg_update_readme_result in H.
    destruct (result (IDG.analyze_terraform_modules p)) as [tm|]; [|discriminate].
    destruct (result (IDG.analyze_kubernetes_resources p)) as [kr|];
      [|discriminate].
    simpl in H. destruct (read_existing (IDG.readme p)) as [content|];
      [|discriminate].
    simpl in H. injection H as <-. eauto.
  - intros repr p written H.
    destruct (pa_analyze_project_total p) as (tm & kr & Han & _).
    rewrite (pa_update_readme_result repr p tm kr Han) in H.
    destruct (read_existing (PA.readme p)) as [content|]; [|discriminate].
    simpl in H.
    destruct (PA.generate_module_documentation repr tm); [|discriminate].
    destruct (PA.generate_kubernetes_documentation repr kr); [|discriminate].
    simpl in H. injection H as <-. eauto.
Qed.

(** Both scripts on the [network] project, whose README has hand-written
    text before an old generated section. *)
Lemma prefix_preservation_witness :
  (exists written,
      result (IDG.update_readme no_repr idg_network) = Ok written
      /\ exists content sections,
           read_existing (IDG.readme idg_network) = Ok content
           /\ written = replace_section content (IDG.now idg_network) sections)
  /\ (exists written,
      result (PA.update_readme no_repr pa_network) = Ok written
      /\ exists content sections,
           read_existing (PA.readme pa_network) = Ok content
           /\ written = replace_section content (PA.now pa_network) sections).
Proof.
  split.
  - eexists. split; [vm_compute; reflexivity|].
    apply (proj1 (proj2 prefix_preservation) no_repr idg_network).
    vm_compute; reflexivity.
  - eexists. split; [vm_compute; reflexivity|].
    apply (proj2 (proj2 prefix_preservation) no_repr pa_network).
    vm_compute; reflexivity.
Defined.

(** C2. Running a script again on the README it has just written, with the
    source files unchanged, writes the same content except for the
    timestamp line: the replacer applied to its own output with the same
    sections gives the previous content with only the text after
    [> Last updated: ] exchanged. *)
Theorem regeneration_idempotent :
  (forall content now1 now2 sections : pystr,
      replace_section content now1 sections
        = before_timestamp content ++ timestamp_line now1 ++ sections
      /\ replace_section (replace_section content now1 sections) now2 sections
        = before_timestamp content ++ timestamp_line now2 ++ sections)
  /\ (forall repr p written later,
        result (IDG.update_readme repr p) = Ok written ->
        exists sections,
          written = before_timestamp written
                    ++ timestamp_line (IDG.now p) ++ sections
          /\ result (IDG.update_readme repr (IDG.next_run p written later))
             = Ok (before_timestamp written
                   ++ timestamp_line later ++ sections))
  /\ (forall repr p written later,
        result (PA.update_readme repr p) = Ok written ->
        exists sections,
          written = before_timestamp written
                    ++ timestamp_line (PA.now p) ++ sections
          /\ result (PA.update_readme repr (PA.next_run p written later))
             = Ok (before_timestamp written
                   ++ timestamp_line later ++ sections)).
Proof.
  split; [|split].
  - intros content now1 now2 sections. split.
    + apply replace_section_timestamp.
    + rewrite replace_section_twice. apply replace_section_timestamp.
  - intros repr p written later H.
    rewrite idg_update_readme_result in H.
    rewrite idg_update_readme_result.
    change (IDG.analyze_terraform_modules (IDG.next_run p written later))
      with (IDG.analyze_terraform_modules p).
    change (IDG.analyze_kubernetes_resources (IDG.next_run p written later))
      with (IDG.analyze_kubernetes_resources p).
    destruct (result (IDG.analyze_terraform_modules p)) as [tm|]; [|discriminate].
    destruct (result (IDG.analyze_kubernetes_resources p)) as [kr|];
      [|discriminate].
    simpl in H. destruct (read_existing (IDG.readme p)) as [content|];
      [|discriminate].
    simpl in H. injection H as <-.
    exists (IDG.sections repr tm kr (IDG.generated p)).
    rewrite before_timestamp_replace_section. split.
    + apply replace_section_timestamp.
    + simpl. f_equal.
      change (IDG.generated (IDG.next_run p _ later)) with (IDG.generated p).
      rewrite replace_section_twice. apply replace_section_timestamp.
  - intros repr p written later H.
    destruct (pa_analyze_project_total p) as (tm & kr & Han & _).
    assert (Han' : result (PA.analyze_project (PA.next_run p written later))
                   = Ok (tm, kr)) by exact Han.
    rewrite (pa_update_readme_result repr p tm kr Han) in H.
    rewrite (pa_update_readme_result repr _ tm kr Han').
    destruct (read_existing (PA.readme p)) as [content|]; [|discriminate].
    simpl in H.
    destruct (PA.generate_module_documentation repr tm) as [md|];
      [|discriminate].
    destruct (PA.generate_kubernetes_documentation repr kr) as [kd|];
      [|discriminate].
    simpl in H. injection H as <-.
    exists (PA.diagram_text p ++ md ++ kd).
    rewrite before_timestamp_replace_section. split.
    + apply replace_section_timestamp.
    + simpl. f_equal.
      change (PA.diagram_text (PA.next_run p _ later)) with (PA.diagram_text p).
      rewrite replace_section_twice. apply replace_section_timestamp.
Qed.

(** Both scripts run twice on the [network] project, the clock moving from
    [stamp1] to [stamp2]. *)
Lemma regeneration_idempotent_witness :
  (exists written,
      result (IDG.update_readme no_repr idg_network) = Ok written
      /\ exists sections,
           written = before_timestamp written
                     ++ timestamp_line stamp1 ++ sections
           /\ result (IDG.update_readme no_repr
                        (IDG.next_run idg_network written stamp2))
              = Ok (before_timestamp written
                    ++ timestamp_line stamp2 ++ sections))
  /\ (exists written,
      result (PA.update_readme no_repr pa_network) = Ok written
      /\ exists sections,
           written = before_timestamp written
                     ++ timestamp_line stamp1 ++ sections
           /\ result (PA.update_readme no_repr
                        (PA.next_run pa_network written stamp2))
              = Ok (before_timestamp written
                    ++ timestamp_line stamp2 ++ sections)).
Proof.
  split.
  - eexists. split; [vm_compute; reflexivity|].
    apply (proj1 (proj2 regeneration_idempotent) no_repr idg_network).
    vm_compute; reflexivity.
  - eexists. split; [vm_compute; reflexivity|].
    apply (proj2 (proj2 regeneration_idempotent) no_repr pa_network).
    vm_compute; reflexivity.
Defined.

End Replacer.

(* ===================================================================== *)
(** ** Extraction of resources, variables and outputs *)
(* ===================================================================== *)

Module Extractor.
Import Py Data Readme Spec PyFacts RunFacts.
Import Examples.

(** A loop whose body appends [f x] to the accumulator collects the
    [flat_map]. *)
Lemma for_each_collect {A B : Type} (f : A -> list B)
    (body : A -> list B -> outcome (list B)) (P : A -> Prop) (xs : list A) :
  (forall x acc, P x -> body x acc = Ok (acc ++ f x)) ->
  Forall P xs ->
  forall acc, for_each xs body acc = Ok (acc ++ flat_map f xs).
Proof.
  intros Hbody HP. induction HP as [|x xs Hx _ IH]; intros acc; simpl.
  - rewrite app_nil_r. reflexivity.
  - rewrite (Hbody x acc Hx). simpl. rewrite IH, app_assoc. reflexivity.
Qed.

Lemma flat_map_singleton {A B : Type} (g : A -> B) (xs : list A) :
  flat_map (fun x => [g x]) xs = map g xs.
Proof. induction xs; simpl; congruence. Qed.

Lemma flat_map_map {A B C : Type} (g : A -> B) (f : B -> list C)
    (xs : list A) :
  flat_map f (map g xs) = flat_map (fun x => f (g x)) xs.
Proof. induction xs; simpl; congruence. Qed.

Lemma Forall_map_iff {A B : Type} (g : A -> B) (P : B -> Prop) (xs : list A) :
  Forall P (map g xs) <-> Forall (fun x => P (g x)) xs.
Proof.
  induction xs as [|x xs IH]; simpl.
  - split; constructor.
  - split; intros H; inversion H; subst; constructor; tauto.
Qed.

(** The instances of one resource type, as either script walks them:
    [mk] makes the list entry from the type and the instance name. *)
Lemma instances_collect (mk : pystr -> pystr -> pystr) (t : pystr)
    (bodies : list dict) (acc : list pystr) :
  Forall (fun body : dict => body <> []) bodies ->
  for_each (map VDict bodies)
    (fun instance acc =>
       obind (first_key instance) (fun instance_name =>
         Ok (acc ++ [mk t instance_name]))) acc
  = Ok (acc ++ map (fun body => mk t (instance_key body)) bodies).
Proof.
  intros H.
  rewrite (for_each_collect
             (fun v => match v with
                       | VDict body => [mk t (instance_key body)]
                       | _ => []
                       end)
             _ (fun v => exists body, v = VDict body /\ body <> [])).
  - rewrite flat_map_map, flat_map_singleton. reflexivity.
  - intros x acc' (body & -> & Hne).
    destruct body as [|[k v] body]; [contradiction|reflexivity].
  - apply Forall_map_iff. eapply Forall_impl; [|exact H].
    intros body Hne. exists body; auto.
Qed.

(** The same instances under the guards of the sequence branch. *)
Lemma instances_collect_guarded (mk : pystr -> pystr -> pystr) (t : pystr)
    (bodies : list dict) (acc : list pystr) :
  Forall (fun body : dict => body <> []) bodies ->
  for_each (map VDict bodies)
    (fun instance acc =>
       match instance with
       | VDict _ =>
           obind (first_key instance) (fun instance_name =>
             Ok (acc ++ [mk t instance_name]))
       | _ => Ok acc
       end) acc
  = Ok (acc ++ map (fun body => mk t (instance_key body)) bodies).
Proof.
  intros H.
  rewrite (for_each_collect
             (fun v => match v with
                       | VDict body => [mk t (instance_key body)]
                       | _ => []
                       end)
             _ (fun v => exists body, v = VDict body /\ body <> [])).
  - rewrite flat_map_map, flat_map_singleton. reflexivity.
  - intros x acc' (body & -> & Hne).
    destruct body as [|[k v] body]; [contradiction|reflexivity].
  - apply Forall_map_iff. eapply Forall_impl; [|exact H].
    intros body Hne. exists body; auto.
Qed.

(** The mapping branch of a resource extractor. *)
Lemma mapping_collect (mk : pystr -> pystr -> pystr) (bs : blocks)
    (acc : list pystr) :
  keyed bs ->
  for_each (map (fun b => (fst b, VList (map VDict (snd b)))) bs)
    (fun '(resource_type, instances) acc =>
       obind (iterate instances) (fun insts =>
         for_each insts (fun instance acc =>
           obind (first_key instance) (fun instance_name =>
             Ok (acc ++ [mk resource_type instance_name]))) acc)) acc
  = Ok (acc ++ flat_map (fun b =>
          map (fun body => mk (fst b) (instance_key body)) (snd b)) bs).
Proof.
  intros H.
  rewrite (for_each_collect
             (fun e : pystr * pyval =>
                match snd e with
                | VList l =>
                    flat_map (fun v => match v with
                                       | VDict body => [mk (fst e) (instance_key body)]
                                       | _ => []
                                       end) l
                | _ => []
                end)
             _ (fun e => exists bodies,
                    snd e = VList (map VDict bodies)
                    /\ Forall (fun body : dict => body <> []) bodies)).
  - rewrite flat_map_map. simpl. f_equal. f_equal.
    clear. induction bs as [|b bs IH]; simpl; [reflexivity|].
    rewrite flat_map_map, flat_map_singleton, IH. reflexivity.
  - intros [t v] acc' (bodies & E & Hne). simpl in E; subst v. simpl.
    rewrite instances_collect by exact Hne.
    rewrite flat_map_map, flat_map_singleton. reflexivity.
  - apply Forall_map_iff. eapply Forall_impl; [|exact H].
    intros [t bodies] Hne. exists bodies; auto.
Qed.

(** The sequence branch of a resource extractor. *)
Lemma sequence_collect (mk : pystr -> pystr -> pystr) (bs : blocks)
    (acc : list pystr) :
  keyed bs ->
  for_each (map (fun b => VDict [(fst b, VList (map VDict (snd b)))]) bs)
    (fun resource_item acc =>
       match resource_item with
       | VDict d =>
           obind (first_key resource_item) (fun resource_type =>
             match dict_get d resource_type with
             | None => Raise KeyError
             | Some (VList insts) =>
                 for_each insts (fun instance acc =>
                   match instance with
                   | VDict _ =>
                       obind (first_key instance) (fun instance_name =>
                         Ok (acc ++ [mk resource_type instance_name]))
                   | _ => Ok acc
                   end) acc
             | Some _ => Ok acc
             end)
       | _ => Ok acc
       end) acc
  = Ok (acc ++ flat_map (fun b =>
          map (fun body => mk (fst b) (instance_key body)) (snd b)) bs).
Proof.
  intros H.
  rewrite (for_each_collect
             (fun v : pyval =>
                match v with
                | VDict [(t, VList l)] =>
                    flat_map (fun v => match v with
                                       | VDict body => [mk t (instance_key body)]
                                       | _ => []
                                       end) l
                | _ => []
                end)
             _ (fun v => exists t bodies,
                    v = VDict [(t, VList (map VDict bodies))]
                    /\ Forall (fun body : dict => body <> []) bodies)).
  - rewrite flat_map_map. simpl. f_equal. f_equal.
    clear. induction bs as [|b bs IH]; simpl; [reflexivity|].
    rewrite flat_map_map, flat_map_singleton, IH. reflexivity.
  - intros v acc' (t & bodies & -> & Hne). simpl.
    rewrite str_eqb_refl.
    rewrite instances_collect_guarded by exact Hne.
    rewrite flat_map_map, flat_map_singleton. reflexivity.
  - apply Forall_map_iff. eapply Forall_impl; [|exact H].
    intros [t bodies] Hne. exists t, bodies; auto.
Qed.

Lemma map_flat_map {A B C : Type} (f : B -> C) (g : A -> list B)
    (xs : list A) :
  map f (flat_map g xs) = flat_map (fun x => map f (g x)) xs.
Proof.
  induction xs as [|x xs IH]; simpl; [reflexivity|].
  rewrite map_app, IH. reflexivity.
Qed.




(** Outside the two shapes: a resource type mapped to a bare mapping of
    instances, not to a list of them. The mapping branch iterates the keys
    of that mapping and raises; the sequence branch passes it over. *)
Lemma bare_instance_mapping (t a : pystr) (body : pyval) :
  IDG.extract_resources [(lit "resource", VDict [(t, VDict [(a, body)])])] []
    = Raise AttributeError
  /\ IDG.extract_resources
       [(lit "resource", VList [VDict [(t, VDict [(a, body)])]])] []
     = Ok [].
Proof.
  split.
  - reflexivity.
  - unfold IDG.extract_resources. simpl. rewrite str_eqb_refl. reflexivity.
Qed.

(** *** Variables *)

Lemma join_unfold (sep p : pystr) (q : pystr) (rest : list pystr) :
  join sep (p :: q :: rest) = p ++ sep ++ join sep (q :: rest).
Proof. reflexivity. Qed.

Lemma join_In (sep item : pystr) (items : list pystr) :
  In item items -> exists x y, join sep items = x ++ item ++ y.
Proof.
  induction items as [|p items IH]; intros H; [contradiction|].
  destruct H as [->|H].
  - destruct items as [|q items].
    + exists [], []. simpl. rewrite app_nil_r. reflexivity.
    + exists [], (sep ++ join sep (q :: items)). reflexivity.
  - destruct items as [|q items]; [contradiction|].
    destruct (IH H) as (x & y & E).
    exists (p ++ sep ++ x), y. rewrite join_unfold, E, <- !app_assoc.
    reflexivity.
Qed.

Lemma concat_In (item : pystr) (items : list pystr) :
  In item items -> exists x y, concat items = x ++ item ++ y.
Proof.
  induction items as [|p items IH]; intros H; [contradiction|].
  destruct H as [->|H].
  - exists [], (concat items). reflexivity.
  - destruct (IH H) as (x & y & E). exists (p ++ x), y.
    simpl. rewrite E, <- app_assoc. reflexivity.
Qed.

(** A bullet group of [update_readme.py] shows each of its items. *)
Lemma pa_bullet_group_In (title item : pystr) (items : list pystr) :
  In item items ->
  exists x y, PA.bullet_group title items = x ++ item ++ y.
Proof.
  intros H. destruct (join_In [NL] item items H) as (x & y & E).
  unfold PA.bullet_group. destruct items as [|p items]; [contradiction|].
  exists (title ++ [NL] ++ x), (y ++ [NL; NL]).
  rewrite E, <- !app_assoc. reflexivity.
Qed.

(** A bullet group of [generate_diagrams.py] shows the bullet of each of
    its items. *)
Lemma idg_bullet_group_In (title item : pystr) (items : list pystr) :
  In item items ->
  exists x y, IDG.bullet_group title items = x ++ IDG.bullet item ++ y.
Proof.
  intros H.
  destruct (concat_In (IDG.bullet item) (map IDG.bullet items)
              (in_map _ _ _ H)) as (x & y & E).
  unfold IDG.bullet_group. destruct items as [|p items]; [contradiction|].
  exists (title ++ [NL] ++ x), (y ++ [NL]).
  rewrite E, <- !app_assoc. reflexivity.
Qed.

Lemma variable_bullet_annotated (repr : pyval -> pystr) (v : pystr * dict) :
  PA.variable_bullet repr (fst v) (declared_type (snd v)) = annotated repr v.
Proof.
  unfold PA.variable_bullet, PA.bullet, annotated.
  rewrite <- !app_assoc. reflexivity.
Qed.

(** X24. What each script does with variables. In [update_readme.py]
    every variable whose attributes are a mapping is recorded as the
    bullet [`name` (type)], with the declared [type] attribute when
    present and ["any"] otherwise, in either shape of the [variable] key,
    and every recorded bullet is in the module section; a variable
    [region] of type [string] gives [`region` (string)].
    [generate_diagrams.py] records the variable's name alone and lists it
    as the bullet [`name`]. *)
Theorem variable_annotations :
  (forall repr (config : dict) (vs : declarations) (acc : list pystr),
      dict_get config (lit "variable") = Some (declared_mapping vs)
      \/ dict_get config (lit "variable") = Some (declared_sequence vs) ->
      PA.extract_variables repr config acc
        = Ok (acc ++ map (annotated repr) vs)
      /\ IDG.extract_variables config acc = Ok (acc ++ map fst vs))
  /\ (forall module lists item,
        In item (PA.variables lists) ->
        contains (PA.module_section module lists) item = true)
  /\ (forall module details item,
        In item (IDG.variables details) ->
        contains (IDG.module_section (module, details)) (IDG.bullet item)
        = true)
  /\ (forall repr,
        annotated repr (lit "region", [(lit "type", VStr (lit "string"))])
        = lit "- `region` (string)")
  /\ (forall repr, annotated repr (lit "zone", []) = lit "- `zone` (any)").
Proof.
  split; [|split; [|split; [|split]]].
  - intros repr config vs acc [H|H];
      unfold PA.extract_variables, IDG.extract_variables, IDG.extract_names;
      rewrite H; unfold declared_mapping, declared_sequence; split.
    + rewrite (for_each_collect
                 (fun e : pystr * pyval =>
                    match snd e with
                    | VDict body => [annotated repr (fst e, body)]
                    | _ => []
                    end)
                 _ (fun e => exists body, snd e = VDict body)).
      * rewrite flat_map_map. simpl.
        rewrite flat_map_singleton.
        rewrite (map_ext _ (annotated repr));
          [reflexivity | intros [n body]; reflexivity].
      * intros [n v] acc' (body & E). simpl in E; subst v. simpl.
        rewrite <- (variable_bullet_annotated repr (n, body)). reflexivity.
      * apply Forall_map_iff, Forall_forall. intros [n body] _.
        exists body. reflexivity.
    + rewrite (for_each_collect (fun e : pystr * pyval => [fst e])
                 _ (fun _ => True)).
      * rewrite flat_map_map. simpl. rewrite flat_map_singleton. reflexivity.
      * intros [n v] acc' _. reflexivity.
      * apply Forall_forall. intros; exact I.
    + rewrite (for_each_collect
                 (fun v : pyval =>
                    match v with
                    | VDict [(n, VDict body)] => [annotated repr (n, body)]
                    | _ => []
                    end)
                 _ (fun v => exists n body, v = VDict [(n, VDict body)])).
      * rewrite flat_map_map. simpl.
        rewrite flat_map_singleton.
        rewrite (map_ext _ (annotated repr));
          [reflexivity | intros [n body]; reflexivity].
      * intros v acc' (n & body & ->). simpl. rewrite str_eqb_refl. simpl.
        rewrite <- (variable_bullet_annotated repr (n, body)). reflexivity.
      * apply Forall_map_iff, Forall_forall. intros [n body] _.
        exists n, body. reflexivity.
    + rewrite (for_each_collect
                 (fun v : pyval =>
                    match v with
                    | VDict ((n, _) :: _) => [n]
                    | _ => []
                    end)
                 _ (fun v => exists n body, v = VDict [(n, VDict body)])).
      * rewrite flat_map_map. simpl. rewrite flat_map_singleton. reflexivity.
      * intros v acc' (n & body & ->). reflexivity.
      * apply Forall_map_iff, Forall_forall. intros [n body] _.
        exists n, body. reflexivity.
  - intros module lists item H.
    destruct (pa_bullet_group_In (lit "**Variables:**") item _ H)
      as (x & y & E).
    unfold PA.module_section. rewrite E.
    rewrite <- !app_assoc.
    rewrite (app_assoc (lit "### ")), (app_assoc _ [NL; NL]),
      (app_assoc _ (PA.bullet_group _ _)), (app_assoc _ x).
    apply contains_app.
  - intros module details item H.
    destruct (idg_bullet_group_In (lit "**Variables:**") item _ H)
      as (x & y & E).
    unfold IDG.module_section. rewrite E.
    rewrite <- !app_assoc.
    rewrite (app_assoc (lit "### ")), (app_assoc _ [NL; NL]),
      (app_assoc _ (IDG.bullet_group _ _)), (app_assoc _ x).
    apply contains_app.
  - intros repr. reflexivity.
  - intros repr. reflexivity.
Qed.

(** The variables [region] (of type [string]) and [zone] (no type). *)
Lemma variable_annotations_witness :
  (PA.extract_variables no_repr
     [(lit "variable", declared_mapping two_variables)] []
   = Ok [lit "- `region` (string)"; lit "- `zone` (any)"]
   /\ IDG.extract_variables
        [(lit "variable", declared_mapping two_variables)] []
      = Ok [lit "region"; lit "zone"])
  /\ contains
       (PA.module_section (lit "network")
          {| PA.resources := []; PA.outputs := [];
             PA.variables := [lit "- `region` (string)"] |})
       (lit "- `region` (string)") = true
  /\ contains
       (IDG.module_section
          (lit "network",
           {| IDG.resources := []; IDG.outputs := [];
              IDG.variables := [lit "region"] |}))
       (IDG.bullet (lit "region")) = true.
Proof.
  destruct variable_annotations as (H1 & H2 & H3 & _).
  split; [|split].
  - apply (H1 no_repr [(lit "variable", declared_mapping two_variables)]
             two_variables []).
    left; reflexivity.
  - apply H2. simpl. left; reflexivity.
  - apply H3. simpl. left; reflexivity.
Defined.

(** C8 at the variable [region] of type [string]. [update_readme.py]
    extracts and lists it as [- `region` (string)]; [generate_diagrams.py]
    records the name alone and lists [- `region`], and the text
    [`region` (string)] is nowhere in the README it writes. *)
Theorem variable_without_annotation :
  PA.extract_variables no_repr network_tf [] = Ok [lit "- `region` (string)"]
  /\ IDG.extract_variables network_tf [] = Ok [lit "region"]
  /\ (exists written,
        result (PA.update_readme no_repr pa_network) = Ok written
        /\ contains written (lit "- `region` (string)" ++ [NL]) = true)
  /\ (exists written,
        result (IDG.update_readme no_repr idg_network) = Ok written
        /\ contains written (lit "- `region`" ++ [NL]) = true
        /\ contains written (lit "`region` (string)") = false).
Proof.
  split; [reflexivity|]. split; [reflexivity|]. split.
  - eexists. split; vm_compute; reflexivity.
  - eexists. split; [vm_compute; reflexivity|].
    split; vm_compute; reflexivity.
Qed.

End Extractor.

(* ===================================================================== *)
(** ** Files that fail to parse *)
(* ===================================================================== *)

Module Tolerance.
Import Py Data Readme Spec Behaviour PyFacts RunFacts PipelineFacts.
Import Examples.

Lemma idg_extract_empty (d : IDG.module_details) : IDG.extract [] d = Ok d.
Proof. destruct d; reflexivity. Qed.

Lemma pa_extract_empty (repr : pyval -> pystr) (l : PA.module_lists) :
  PA.extract repr [] l = Ok l.
Proof. destruct l; reflexivity. Qed.

Lemma idg_analyze_file_failed (path file e : pystr)
    (d : IDG.module_details) :
  result (IDG.analyze_file path (file, ParseFails e) d) = Ok d.
Proof.
  unfold IDG.analyze_file. destruct (endswith file (lit ".tf")).
  - rewrite result_bind. simpl. apply idg_extract_empty.
  - reflexivity.
Qed.

(** The record of a module is the record of its files that loaded. *)
Lemma idg_analyze_loaded (path : pystr) (files : list (pystr * hcl_load))
    (d : IDG.module_details) :
  result (for_eachM files (IDG.analyze_file path) d)
  = result (for_eachM (filter loaded files) (IDG.analyze_file path) d).
Proof.
  revert d. induction files as [|[file load] files IH]; intros d;
    [reflexivity|].
  destruct load as [config|e]; cbn [filter loaded snd for_eachM].
  - rewrite !result_bind.
    destruct (result (IDG.analyze_file path (file, Parsed config) d));
      simpl; [apply IH | reflexivity].
  - rewrite result_bind, idg_analyze_file_failed. simpl. apply IH.
Qed.

(** The lists of a module are those of its configs other than [{}]. *)
Lemma pa_extract_nonempty (repr : pyval -> pystr) (configs : list dict)
    (l : PA.module_lists) :
  for_each configs (PA.extract repr) l
  = for_each (filter nonempty_config configs) (PA.extract repr) l.
Proof.
  revert l. induction configs as [|c configs IH]; intros l; [reflexivity|].
  destruct c as [|kv c]; cbn [filter nonempty_config for_each].
  - rewrite pa_extract_empty. simpl. apply IH.
  - destruct (PA.extract repr (kv :: c) l); simpl; [apply IH | reflexivity].
Qed.

(** The result of a loop depends on the results of its body alone. *)
Lemma result_for_eachM_map {A B S : Type} (f : A -> B)
    (body1 : B -> S -> M S) (body2 : A -> S -> M S) :
  (forall x s, result (body1 (f x) s) = result (body2 x s)) ->
  forall xs s,
    result (for_eachM (map f xs) body1 s) = result (for_eachM xs body2 s).
Proof.
  intros Hbody xs. induction xs as [|x xs IH]; intros s; [reflexivity|].
  cbn [map for_eachM]. rewrite !result_bind, Hbody.
  destruct (result (body2 x s)); simpl; [apply IH | reflexivity].
Qed.

(** The scan of [generate_diagrams.py] gives what it gives without the
    files that fail to parse. *)
Lemma idg_scan_loaded (p : IDG.project) :
  result (IDG.analyze_terraform_modules p)
  = result (IDG.analyze_terraform_modules (idg_loaded_only p)).
Proof.
  unfold IDG.analyze_terraform_modules, idg_loaded_only, idg_with_modules.
  cbn [IDG.modules_dir IDG.project_root].
  destruct (IDG.modules_dir p) as [listing|]; [|reflexivity].
  cbn [option_map]. symmetry. apply result_for_eachM_map.
  intros [module [|files]] tm; cbn [loaded_entry]; [reflexivity|].
  rewrite !result_bind. unfold IDG.analyze_module.
  rewrite <- idg_analyze_loaded. reflexivity.
Qed.

(** The scan of [update_readme.py] gives what it gives when the files that
    fail to parse are empty files. *)
Lemma pa_scan_as_empty (p : PA.project) :
  result (PA.analyze_modules p)
  = result (PA.analyze_modules (pa_failed_as_empty p)).
Proof.
  unfold PA.analyze_modules, pa_failed_as_empty, pa_with_walk.
  cbn [PA.modules_walk]. symmetry.
  apply (result_for_eachM_map (fun d => (fst d, map as_empty_file (snd d)))).
  intros [root files] tm. cbn [fst snd].
  apply (result_for_eachM_map as_empty_file).
  intros [file load] tm'. unfold as_empty_file, config_of. cbn [fst snd].
  destruct (endswith file (lit ".tf")); [|reflexivity].
  rewrite !result_bind. destruct load; reflexivity.
Qed.

(** The resource list of a record extracted from one config. *)
Lemma idg_extract_resources_of (config : dict) (details : IDG.module_details) :
  IDG.extract config IDG.empty_details = Ok details ->
  IDG.extract_resources config [] = Ok (IDG.resources details).
Proof.
  unfold IDG.extract. cbn [IDG.resources IDG.variables IDG.outputs
                           IDG.empty_details].
  destruct (IDG.extract_resources config []) as [rs|]; [|discriminate].
  cbn [obind].
  destruct (IDG.extract_variables config []) as [vs|]; [|discriminate].
  cbn [obind].
  destruct (IDG.extract_outputs config []) as [os|]; [|discriminate].
  cbn [obind]. intros H. injection H as <-. reflexivity.
Qed.

(** The log and content of a run of [generate_diagrams.py] whose scans
    complete. *)
Lemma idg_update_readme_run (repr : pyval -> pystr) (p : IDG.project)
    (logt logk : list event) (tm : list (pystr * IDG.module_details))
    (kr : list (pystr * list IDG.k8s_resource)) (content : pystr) :
  IDG.analyze_terraform_modules p = (logt, Ok tm) ->
  IDG.analyze_kubernetes_resources p = (logk, Ok kr) ->
  read_existing (IDG.readme p) = Ok content ->
  IDG.update_readme repr p
  = (logt ++ logk ++ tool_log (IDG.terraform_visual p) ++ [Readme_updated],
     Ok (replace_section content (IDG.now p)
           (IDG.sections repr tm kr (IDG.generated p)))).
Proof.
  intros Ht Hk Hc.
  unfold IDG.update_readme, IDG.generated,
    IDG.generate_terraform_visual_diagram, tool_log.
  rewrite Ht, Hk, Hc.
  destruct (IDG.terraform_visual p);
    cbv beta iota delta [bind lift ret print];
    rewrite ?app_nil_r; cbn [app]; reflexivity.
Qed.

(** The log and content of a run of [update_readme.py] whose scans
    complete. *)
Lemma pa_update_readme_run (repr : pyval -> pystr) (p : PA.project)
    (logt logk : list event) (tm : list (pystr * list dict))
    (kr : list (pystr * list pyval)) (content md kd : pystr) :
  PA.analyze_modules p = (logt, Ok tm) ->
  PA.analyze_manifests p = (logk, Ok kr) ->
  read_existing (PA.readme p) = Ok content ->
  PA.generate_module_documentation repr tm = Ok md ->
  PA.generate_kubernetes_documentation repr kr = Ok kd ->
  PA.update_readme repr p
  = (logt ++ logk ++ tool_log (PA.terraform_visual p),
     Ok (replace_section content (PA.now p)
           (PA.diagram_text p ++ md ++ kd))).
Proof.
  intros Ht Hk Hc Hm Hd.
  unfold PA.update_readme, PA.analyze_project, PA.diagram_text,
    PA.generate_infrastructure_diagram, tool_log, replace_section.
  rewrite Ht, Hk, Hc.
  cbv beta iota delta [bind lift ret print]. rewrite Hm, Hd.
  destruct (PA.terraform_visual p);
    rewrite ?app_nil_r; cbn [app]; rewrite ?app_nil_r, <- ?app_assoc;
    reflexivity.
Qed.

(** C6. A file whose parse raises contributes the empty mapping and a
    logged warning, the empty mapping adds nothing, and extraction goes on
    with the other files: the module scan and the whole run of either
    script give what they give without the malformed files
    ([generate_diagrams.py]) or with empty files in their place
    ([update_readme.py]), so a malformed file makes no run raise.  With
    one well-formed and one malformed file in a module, in either order,
    the scan logs the one warning and holds for the module exactly the
    resources, variables and outputs of the well-formed file; and, the
    manifest scan and the read of the README going through, the run
    completes without raising: its log is that warning followed by what
    the rest of the run prints, and the content of the README is rendered
    from the well-formed file alone. *)
Theorem malformed_file_tolerance :
  (forall path e,
      IDG.parse_terraform_file path (ParseFails e)
        = ([Warning_terraform path e], Ok [])
      /\ PA.analyze_terraform_file path (ParseFails e)
        = ([Warning_terraform path e], Ok []))
  /\ (forall repr d l,
        IDG.extract [] d = Ok d /\ PA.extract repr [] l = Ok l)
  /\ (forall path files,
        result (IDG.analyze_module path files)
        = result (IDG.analyze_module path (filter loaded files)))
  /\ (forall repr configs,
        PA.module_extract repr configs
        = PA.module_extract repr (filter nonempty_config configs))
  /\ (forall path good bad config e details,
        endswith good (lit ".tf") = true ->
        endswith bad (lit ".tf") = true ->
        IDG.extract config IDG.empty_details = Ok details ->
        IDG.analyze_module path [(good, Parsed config); (bad, ParseFails e)]
          = ([Warning_terraform (path_join path bad) e], Ok details)
        /\ IDG.analyze_module path [(bad, ParseFails e); (good, Parsed config)]
          = ([Warning_terraform (path_join path bad) e], Ok details))
  /\ (forall repr p root good bad config e module lists,
        PA.modules_walk p
          = [(root, [(good, Parsed config); (bad, ParseFails e)])] ->
        endswith good (lit ".tf") = true ->
        endswith bad (lit ".tf") = true ->
        basename (dirname (path_join root good)) = module ->
        basename (dirname (path_join root bad)) = module ->
        PA.module_extract repr [config] = Ok lists ->
        PA.analyze_modules p
          = ([Warning_terraform (path_join root bad) e],
             Ok [(module, [config; []])])
        /\ PA.module_extract repr [config; []] = Ok lists)
  /\ (forall repr p,
        result (IDG.analyze_terraform_modules p)
          = result (IDG.analyze_terraform_modules (idg_loaded_only p))
        /\ result (IDG.update_readme repr p)
          = result (IDG.update_readme repr (idg_loaded_only p)))
  /\ (forall repr p,
        result (PA.analyze_modules p)
          = result (PA.analyze_modules (pa_failed_as_empty p))
        /\ result (PA.update_readme repr p)
          = result (PA.update_readme repr (pa_failed_as_empty p)))
  /\ (forall repr p module good bad config e details logk kr content,
        IDG.modules_dir p
          = Some [(module,
                   IDG.IsDir [(good, Parsed config); (bad, ParseFails e)])]
        \/ IDG.modules_dir p
          = Some [(module,
                   IDG.IsDir [(bad, ParseFails e); (good, Parsed config)])] ->
        endswith good (lit ".tf") = true ->
        endswith bad (lit ".tf") = true ->
        IDG.extract config IDG.empty_details = Ok details ->
        IDG.analyze_kubernetes_resources p = (logk, Ok kr) ->
        read_existing (IDG.readme p) = Ok content ->
        IDG.extract_resources config [] = Ok (IDG.resources details)
        /\ IDG.analyze_terraform_modules p
          = ([Warning_terraform
                (path_join
                   (path_join (path_join (IDG.project_root p) (lit "modules"))
                      module) bad) e],
             Ok [(module, details)])
        /\ IDG.update_readme repr p
          = ([Warning_terraform
                (path_join
                   (path_join (path_join (IDG.project_root p) (lit "modules"))
                      module) bad) e]
             ++ logk ++ tool_log (IDG.terraform_visual p) ++ [Readme_updated],
             Ok (replace_section content (IDG.now p)
                   (IDG.sections repr [(module, details)] kr
                      (IDG.generated p)))))
  /\ (forall repr p root good bad config e module lists logk kr kd content,
        PA.modules_walk p
          = [(root, [(good, Parsed config); (bad, ParseFails e)])]
        \/ PA.modules_walk p
          = [(root, [(bad, ParseFails e); (good, Parsed config)])] ->
        endswith good (lit ".tf") = true ->
        endswith bad (lit ".tf") = true ->
        basename (dirname (path_join root good)) = module ->
        basename (dirname (path_join root bad)) = module ->
        PA.module_extract repr [config] = Ok lists ->
        PA.analyze_manifests p = (logk, Ok kr) ->
        PA.generate_kubernetes_documentation repr kr = Ok kd ->
        read_existing (PA.readme p) = Ok content ->
        PA.extract_resources config [] = Ok (PA.resources lists)
        /\ (exists configs,
              PA.analyze_modules p
                = ([Warning_terraform (path_join root bad) e],
                   Ok [(module, configs)])
              /\ PA.module_extract repr configs = Ok lists
              /\ PA.generate_module_documentation repr [(module, configs)]
                 = Ok (PA.modules_header ++ PA.module_section module lists))
        /\ PA.update_readme repr p
          = ([Warning_terraform (path_join root bad) e]
             ++ logk ++ tool_log (PA.terraform_visual p),
             Ok (replace_section content (PA.now p)
                   (PA.diagram_text p ++
                    (PA.modules_header ++ PA.module_section module lists)
                    ++ kd)))).
Proof.
  assert (H5 : forall path good bad config e details,
        endswith good (lit ".tf") = true ->
        endswith bad (lit ".tf") = true ->
        IDG.extract config IDG.empty_details = Ok details ->
        IDG.analyze_module path [(good, Parsed config); (bad, ParseFails e)]
          = ([Warning_terraform (path_join path bad) e], Ok details)
        /\ IDG.analyze_module path [(bad, ParseFails e); (good, Parsed config)]
          = ([Warning_terraform (path_join path bad) e], Ok details)).
  { intros path good bad config e details Hg Hb Hd.
    unfold IDG.analyze_module. cbn [for_eachM].
    unfold IDG.analyze_file. rewrite Hg, Hb.
    unfold IDG.parse_terraform_file.
    cbv beta iota delta [bind ret lift print].
    rewrite idg_extract_empty, Hd, idg_extract_empty. split; reflexivity. }
  assert (Hempty : forall repr config lists,
        PA.module_extract repr [config] = Ok lists ->
        PA.module_extract repr [config; []] = Ok lists
        /\ PA.module_extract repr [[]; config] = Ok lists).
  { intros repr config lists Hl. unfold PA.module_extract in *.
    rewrite (pa_extract_nonempty repr [config; []]).
    rewrite (pa_extract_nonempty repr [[]; config]).
    rewrite pa_extract_nonempty in Hl. destruct config; split; exact Hl. }
  split; [|split; [|split; [|split; [|split; [|split;
    [|split; [|split; [|split]]]]]]]].
  - intros path e. split; reflexivity.
  - intros repr d l. split;
      [apply idg_extract_empty | apply pa_extract_empty].
  - intros path files. apply idg_analyze_loaded.
  - intros repr configs. apply pa_extract_nonempty.
  - exact H5.
  - intros repr p root good bad config e module lists Hw Hg Hb Hmg Hmb Hl.
    split.
    + unfold PA.analyze_modules. rewrite Hw. cbn [for_eachM].
      rewrite Hg, Hb, Hmg, Hmb.
      unfold PA.analyze_terraform_file, PA.dict_append.
      cbv beta iota delta [bind ret lift print dict_get dict_set].
      rewrite str_eqb_refl. reflexivity.
    + apply (Hempty repr config lists Hl).
  - intros repr p. split; [apply idg_scan_loaded|].
    rewrite !idg_update_readme_result, <- idg_scan_loaded.
    destruct p; reflexivity.
  - intros repr p. split; [apply pa_scan_as_empty|].
    destruct (pa_analyze_project_total p) as (tm & kr & Hp & Htm & Hkr).
    assert (Hq : result (PA.analyze_project (pa_failed_as_empty p))
                 = Ok (tm, kr)).
    { unfold PA.analyze_project. rewrite result_bind, <- pa_scan_as_empty, Htm.
      cbn [obind]. rewrite result_bind.
      replace (PA.analyze_manifests (pa_failed_as_empty p))
        with (PA.analyze_manifests p) by (destruct p; reflexivity).
      rewrite Hkr. reflexivity. }
    rewrite (pa_update_readme_result repr p tm kr Hp).
    rewrite (pa_update_readme_result repr _ tm kr Hq).
    destruct p; reflexivity.
  - intros repr p module good bad config e details logk kr content
      Hdir Hg Hb Hd Hk Hc.
    destruct (H5 (path_join (path_join (IDG.project_root p) (lit "modules"))
                    module) good bad config e details Hg Hb Hd) as [Ha Hb'].
    assert (Hscan : IDG.analyze_terraform_modules p
          = ([Warning_terraform
                (path_join
                   (path_join (path_join (IDG.project_root p) (lit "modules"))
                      module) bad) e],
             Ok [(module, details)])).
    { unfold IDG.analyze_terraform_modules.
      destruct Hdir as [-> | ->]; cbn [for_eachM];
        [rewrite Ha | rewrite Hb']; reflexivity. }
    split; [apply idg_extract_resources_of; exact Hd|].
    split; [exact Hscan|].
    rewrite (idg_update_readme_run repr p _ logk _ kr content Hscan Hk Hc).
    reflexivity.
  - intros repr p root good bad config e module lists logk kr kd content
      Hw Hg Hb Hmg Hmb Hl Hk Hkd Hc.
    pose proof (Hempty repr config lists Hl) as [Hl1 Hl2].
    assert (Hscan : exists configs,
        PA.analyze_modules p
          = ([Warning_terraform (path_join root bad) e],
             Ok [(module, configs)])
        /\ PA.module_extract repr configs = Ok lists).
    { destruct Hw as [Hw | Hw].
      - exists [config; []]. split; [|exact Hl1].
        unfold PA.analyze_modules. rewrite Hw. cbn [for_eachM].
        rewrite Hg, Hb, Hmg, Hmb.
        unfold PA.analyze_terraform_file, PA.dict_append.
        cbv beta iota delta [bind ret lift print dict_get dict_set].
        rewrite str_eqb_refl. reflexivity.
      - exists [[]; config]. split; [|exact Hl2].
        unfold PA.analyze_modules. rewrite Hw. cbn [for_eachM].
        rewrite Hg, Hb, Hmg, Hmb.
        unfold PA.analyze_terraform_file, PA.dict_append.
        cbv beta iota delta [bind ret lift print dict_get dict_set].
        rewrite str_eqb_refl. reflexivity. }
    destruct Hscan as (configs & Hscan & Hx).
    assert (Hmd : PA.generate_module_documentation repr [(module, configs)]
                  = Ok (PA.modules_header ++ PA.module_section module lists)).
    { unfold PA.generate_module_documentation. cbn [for_each].
      rewrite Hx. reflexivity. }
    split; [|split].
    + revert Hl. unfold PA.module_extract, PA.extract. cbn [for_each].
      cbn [PA.resources PA.variables PA.outputs PA.empty_lists].
      destruct (PA.extract_resources config []) as [rs|];
        [|discriminate]. cbn [obind].
      destruct (PA.extract_variables repr config []) as [vs|];
        [|discriminate]. cbn [obind].
      destruct (PA.extract_outputs config []) as [os|];
        [|discriminate]. cbn [obind]. intros H. injection H as <-.
      reflexivity.
    + exists configs. split; [exact Hscan | split; [exact Hx | exact Hmd]].
    + apply (pa_update_readme_run repr p _ logk _ kr content _ kd
               Hscan Hk Hc Hmd Hkd).
Qed.

(** The [network] module with [main.tf] well-formed and [broken.tf]
    malformed: the scans hold the lists of [main.tf] alone, and both runs
    complete with the one parse warning. *)
Lemma malformed_file_tolerance_witness :
  (IDG.analyze_module (lit "/repo/modules/network")
     [(lit "main.tf", Parsed network_tf);
      (lit "broken.tf", ParseFails (lit "unexpected token"))]
   = ([Warning_terraform (lit "/repo/modules/network/broken.tf")
         (lit "unexpected token")],
      Ok {| IDG.resources := [lit "vpc_network.main"];
            IDG.variables := [lit "region"];
            IDG.outputs := [lit "network_id"] |}))
  /\ (PA.analyze_modules pa_broken
      = ([Warning_terraform (lit "/repo/modules/network/broken.tf")
            (lit "unexpected token")],
         Ok [(lit "network", [network_tf; []])])
      /\ PA.module_extract no_repr [network_tf; []]
         = Ok {| PA.resources := [lit "- `vpc_network.main`"];
                 PA.variables := [lit "- `region` (string)"];
                 PA.outputs := [lit "- `network_id`"] |})
  /\ (IDG.analyze_terraform_modules idg_broken
      = ([Warning_terraform (lit "/repo/modules/network/broken.tf")
            (lit "unexpected token")],
         Ok [(lit "network",
              {| IDG.resources := [lit "vpc_network.main"];
                 IDG.variables := [lit "region"];
                 IDG.outputs := [lit "network_id"] |})])
      /\ IDG.update_readme no_repr idg_broken
         = ([Warning_terraform (lit "/repo/modules/network/broken.tf")
               (lit "unexpected token");
             Warning_diagram (lit "terraform-visual: not found");
             Readme_updated],
            Ok (replace_section old_readme stamp1
                  (IDG.sections no_repr
                     [(lit "network",
                       {| IDG.resources := [lit "vpc_network.main"];
                          IDG.variables := [lit "region"];
                          IDG.outputs := [lit "network_id"] |})]
                     [] false))))
  /\ (PA.update_readme no_repr pa_broken
      = ([Warning_terraform (lit "/repo/modules/network/broken.tf")
            (lit "unexpected token");
          Warning_diagram (lit "terraform-visual: not found")],
         Ok (replace_section old_readme stamp1
               (PA.modules_header
                ++ PA.module_section (lit "network")
                     {| PA.resources := [lit "- `vpc_network.main`"];
                        PA.variables := [lit "- `region` (string)"];
                        PA.outputs := [lit "- `network_id`"] |}
                ++ PA.kubernetes_header)))).
Proof.
  destruct malformed_file_tolerance
    as (_ & _ & _ & _ & H5 & H6 & _ & _ & H9 & H10).
  split; [|split; [|split]].
  - apply (H5 (lit "/repo/modules/network") (lit "main.tf") (lit "broken.tf")
              network_tf (lit "unexpected token")); reflexivity.
  - apply (H6 no_repr pa_broken (lit "/repo/modules/network")
              (lit "main.tf") (lit "broken.tf") network_tf
              (lit "unexpected token") (lit "network")); reflexivity.
  - destruct (H9 no_repr idg_broken (lit "network") (lit "main.tf")
                (lit "broken.tf") network_tf (lit "unexpected token")
                {| IDG.resources := [lit "vpc_network.main"];
                   IDG.variables := [lit "region"];
                   IDG.outputs := [lit "network_id"] |}
                [] [] old_readme
                (or_intror eq_refl) eq_refl eq_refl eq_refl eq_refl eq_refl)
      as (_ & Hscan & Hrun).
    split; [exact Hscan | exact Hrun].
  - destruct (H10 no_repr pa_broken (lit "/repo/modules/network")
                (lit "main.tf") (lit "broken.tf") network_tf
                (lit "unexpected token") (lit "network")
                {| PA.resources := [lit "- `vpc_network.main`"];
                   PA.variables := [lit "- `region` (string)"];
                   PA.outputs := [lit "- `network_id`"] |}
                [] [] PA.kubernetes_header old_readme
                (or_introl eq_refl) eq_refl eq_refl eq_refl eq_refl eq_refl
                eq_refl eq_refl eq_refl)
      as (_ & _ & Hrun).
    rewrite Hrun. reflexivity.
Defined.

(** The whole run with the malformed file beside the well-formed one
    raises nothing and writes what it writes without the malformed file. *)
Example broken_file_run_completes :
  (exists written,
      result (IDG.update_readme no_repr idg_broken) = Ok written
      /\ result (IDG.update_readme no_repr idg_network) = Ok written)
  /\ (exists written,
      result (PA.update_readme no_repr pa_broken) = Ok written
      /\ result (PA.update_readme no_repr pa_network) = Ok written).
Proof.
  split; eexists; split; vm_compute; reflexivity.
Qed.

End Tolerance.

(* ===================================================================== *)
(** ** An unreadable README *)
(* ===================================================================== *)

Module ReadFailure.
Import Py Data Readme Spec PyFacts RunFacts.
Import Examples.

(** C7 as stated fails: a README that exists but cannot be read (here a
    [PermissionError]) makes the read step raise, in both scripts. *)
Lemma unreadable_readme_propagates :
  read_existing (ReadFails PermissionError) = Raise PermissionError
  /\ result (PA.update_readme no_repr
               (PA.with_readme pa_network (ReadFails PermissionError)))
     = Raise PermissionError
  /\ result (IDG.update_readme no_repr
               (IDG.with_readme idg_network (ReadFails PermissionError)))
     = Raise PermissionError.
Proof. split; [|split]; vm_compute; reflexivity. Qed.

(** C7, as the code has it. When the prior README does not exist
    ([FileNotFoundError]) the read step raises nothing and the run goes on
    as if the README held the default title ["# GKE Cluster with
    Terraform"] and a blank line, which is then the preserved prefix; any
    other failure to read is raised again. *)
Theorem missing_readme_default :
  read_existing (ReadFails FileNotFoundError)
    = Ok (lit "# GKE Cluster with Terraform" ++ [NL; NL])
  /\ (forall now sections,
        replace_section (lit "# GKE Cluster with Terraform" ++ [NL; NL])
          now sections
        = lit "# GKE Cluster with Terraform" ++ [NL; NL]
          ++ header now ++ sections)
  /\ (forall repr p,
        IDG.readme p = ReadFails FileNotFoundError ->
        IDG.update_readme repr p
        = IDG.update_readme repr (IDG.with_readme p (ReadOk DEFAULT_TITLE)))
  /\ (forall repr p,
        PA.readme p = ReadFails FileNotFoundError ->
        PA.update_readme repr p
        = PA.update_readme repr (PA.with_readme p (ReadOk DEFAULT_TITLE)))
  /\ (forall e,
        e <> FileNotFoundError -> read_existing (ReadFails e) = Raise e)
  /\ (forall repr p e,
        PA.readme p = ReadFails e -> e <> FileNotFoundError ->
        PA.update_readme repr p = ([], Raise e)).
Proof.
  split; [|split; [|split; [|split; [|split]]]].
  - reflexivity.
  - intros now sections. reflexivity.
  - intros repr p H. unfold IDG.update_readme. rewrite H. reflexivity.
  - intros repr p H. unfold PA.update_readme. rewrite H. reflexivity.
  - intros e H. destruct e; try reflexivity. contradiction.
  - intros repr p e H Hne. unfold PA.update_readme. rewrite H.
    destruct e; try reflexivity. contradiction.
Qed.

(** The [network] project with its README missing, and with other read
    failures. *)
Lemma missing_readme_default_witness :
  IDG.update_readme no_repr
    (IDG.with_readme idg_network (ReadFails FileNotFoundError))
  = IDG.update_readme no_repr
      (IDG.with_readme
         (IDG.with_readme idg_network (ReadFails FileNotFoundError))
         (ReadOk DEFAULT_TITLE))
  /\ PA.update_readme no_repr
       (PA.with_readme pa_network (ReadFails FileNotFoundError))
     = PA.update_readme no_repr
         (PA.with_readme
            (PA.with_readme pa_network (ReadFails FileNotFoundError))
            (ReadOk DEFAULT_TITLE))
  /\ read_existing (ReadFails IsADirectoryError) = Raise IsADirectoryError
  /\ PA.update_readme no_repr
       (PA.with_readme pa_network (ReadFails UnicodeDecodeError))
     = ([], Raise UnicodeDecodeError).
Proof.
  destruct missing_readme_default as (_ & _ & H3 & H4 & H5 & H6).
  split; [|split; [|split]].
  - apply H3. reflexivity.
  - apply H4. reflexivity.
  - apply H5. discriminate.
  - apply H6; [reflexivity | discriminate].
Defined.

End ReadFailure.

(* ===================================================================== *)
(** ** Kubernetes manifests *)
(* ===================================================================== *)

Module Manifests.
Import Py Data Readme Spec PyFacts RunFacts.
Import Examples.

(** C4 at a project without manifest files. [generate_diagrams.py] writes
    no Kubernetes section; [update_readme.py] writes the Kubernetes header
    all the same. *)
Theorem kubernetes_header_without_manifests :
  (forall repr, PA.generate_kubernetes_documentation repr [] = Ok PA.kubernetes_header)
  /\ result (PA.analyze_manifests pa_network) = Ok []
  /\ (exists written,
        result (PA.update_readme no_repr pa_network) = Ok written
        /\ contains written PA.kubernetes_header = true)
  /\ (forall repr, IDG.kubernetes_documentation repr [] = [])
  /\ (exists written,
        result (IDG.update_readme no_repr idg_network) = Ok written
        /\ contains written IDG.kubernetes_header = false).
Proof.
  split; [|split; [|split; [|split]]].
  - intros repr. reflexivity.
  - reflexivity.
  - eexists. split; vm_compute; reflexivity.
  - intros repr. reflexivity.
  - eexists. split; vm_compute; reflexivity.
Qed.

(** Where [metadata] is absent or a mapping, both scripts take [kind]
    (default ["Unknown"]) and [metadata.name] (default ["unnamed"]) and
    render [- `kind/name`]; a document that is not a mapping adds
    nothing. *)
Lemma manifest_defaults (repr : pyval -> pystr) (doc : dict) :
  let kind := dict_get_default doc (lit "kind") (VStr (lit "Unknown")) in
  (dict_get doc (lit "metadata") = None ->
   IDG.manifest_record doc
     = Ok {| IDG.kind := kind; IDG.name := VStr (lit "unnamed") |}
   /\ forall acc,
        PA.document_resource repr (VDict doc) acc
        = Ok (acc ++ PA.k8s_bullet repr kind (VStr (lit "unnamed"))))
  /\ (forall metadata,
        dict_get doc (lit "metadata") = Some (VDict metadata) ->
        let name :=
          dict_get_default metadata (lit "name") (VStr (lit "unnamed")) in
        IDG.manifest_record doc = Ok {| IDG.kind := kind; IDG.name := name |}
        /\ forall acc,
             PA.document_resource repr (VDict doc) acc
             = Ok (acc ++ PA.k8s_bullet repr kind name)).
Proof.
  intros kind. split.
  - intros H. unfold IDG.manifest_record, PA.document_resource,
      PA.manifest_name, PA.manifest_kind, dict_get_default.
    rewrite H. split; reflexivity.
  - intros metadata H name.
    unfold IDG.manifest_record, PA.document_resource,
      PA.manifest_name, PA.manifest_kind, dict_get_default.
    rewrite H. split; reflexivity.
Qed.

Lemma manifest_non_mapping_skipped (repr : pyval -> pystr) (v : pyval)
    (acc : pystr) :
  (forall d, v <> VDict d) ->
  PA.document_resource repr v acc = Ok acc
  /\ IDG.manifest_records [v] = Ok [].
Proof.
  intros H. destruct v; try (split; reflexivity).
  exfalso. apply (H d). reflexivity.
Qed.

(** C5 at the document [kind: Pod / metadata:] (a mapping whose [metadata]
    is null, so that [metadata.name] is absent). [update_readme.py] raises
    [AttributeError] and writes nothing; [generate_diagrams.py] catches the
    error, prints a warning and drops every document of the file. *)
Theorem manifest_null_metadata :
  (forall repr acc,
      PA.document_resource repr (VDict null_metadata_doc) acc
      = Raise AttributeError)
  /\ result (PA.update_readme no_repr
               (pa_with_manifest [VDict pod_doc; VDict null_metadata_doc]))
     = Raise AttributeError
  /\ IDG.manifest_record null_metadata_doc = Raise AttributeError
  /\ IDG.analyze_kubernetes_resources
       (idg_with_manifest [VDict pod_doc; VDict null_metadata_doc])
     = ([Warning_kubernetes (lit "app.yaml") (Exception AttributeError)],
        Ok []).
Proof.
  split; [|split; [|split]].
  - intros repr acc. reflexivity.
  - vm_compute; reflexivity.
  - reflexivity.
  - vm_compute; reflexivity.
Qed.

End Manifests.

(* ===================================================================== *)
(** ** The Mermaid diagram *)
(* ===================================================================== *)

Module Mermaid.
Import Py Data Readme Spec PyFacts RunFacts.
Import Examples.

Lemma replace_removes (s : pystr) (old new : N) :
  old <> new -> ~ In old (replace s old new).
Proof.
  intros Hne. unfold replace. rewrite in_map_iff. intros (c & E & _).
  unfold char_eqb in E. destruct (N.eqb_spec c old); congruence.
Qed.

Lemma replace_keeps_absent (s : pystr) (c old new : N) :
  c <> new -> ~ In c s -> ~ In c (replace s old new).
Proof.
  intros Hne Hc. unfold replace. rewrite in_map_iff. intros (x & E & Hx).
  unfold char_eqb in E. destruct (N.eqb_spec x old); [congruence|].
  subst x. contradiction.
Qed.

(** The identifier of a Terraform resource node has no [.] and no [-]. *)
Lemma terraform_node_id_clean (module resource : pystr) :
  ~ In 46%N (IDG.terraform_node_id module resource)
  /\ ~ In 45%N (IDG.terraform_node_id module resource).
Proof.
  unfold IDG.terraform_node_id. split.
  - apply replace_keeps_absent; [discriminate|].
    apply replace_removes; discriminate.
  - apply replace_removes; discriminate.
Qed.

(** The identifier of a Kubernetes node has no [-]. *)
Lemma k8s_node_id_no_dash (repr : pyval -> pystr) (r : IDG.k8s_resource) :
  ~ In 45%N (IDG.k8s_node_id repr r).
Proof. unfold IDG.k8s_node_id. apply replace_removes; discriminate. Qed.

(** C9 at the manifest [kind: ConfigMap], [metadata.name: app.config]: the
    identifier of its node keeps the [.], since only [-] is replaced for
    Kubernetes nodes. *)
Theorem k8s_node_id_keeps_dot :
  IDG.manifest_record dotted_doc
    = Ok {| IDG.kind := VStr (lit "ConfigMap");
            IDG.name := VStr (lit "app.config") |}
  /\ IDG.k8s_node_id no_repr
       {| IDG.kind := VStr (lit "ConfigMap");
          IDG.name := VStr (lit "app.config") |}
     = lit "k8s_ConfigMap_app.config"
  /\ In 46%N (lit "k8s_ConfigMap_app.config")
  /\ (exists written,
        result (IDG.update_readme no_repr
                  (idg_with_manifest [VDict dotted_doc])) = Ok written
        /\ contains written
             (lit "        k8s_ConfigMap_app.config[ConfigMap/app.config]")
           = true).
Proof.
  split; [|split; [|split]].
  - reflexivity.
  - reflexivity.
  - vm_compute. tauto.
  - eexists. split; vm_compute; reflexivity.
Qed.

Lemma join_cons_nonempty (sep p : pystr) (rest : list pystr) :
  rest <> [] -> join sep (p :: rest) = p ++ sep ++ join sep rest.
Proof. destruct rest; [contradiction | reflexivity]. Qed.

(** C10. Whatever was discovered, also with no module and no manifest, the
    Mermaid diagram begins with the fence line, [graph TB], the
    [subgraph Infrastructure] line and the edge
    [A[GKE Cluster] --> B[VPC Network]]. *)
Theorem mermaid_preamble_fixed :
  (forall repr terraform_modules kubernetes_resources,
      exists rest,
        IDG.generate_mermaid_diagram repr terraform_modules
          kubernetes_resources
        = lit "```mermaid" ++ [NL]
          ++ lit "graph TB" ++ [NL]
          ++ lit "    subgraph Infrastructure" ++ [NL]
          ++ lit "    A[GKE Cluster] --> B[VPC Network]" ++ [NL]
          ++ rest)
  /\ (forall repr,
        IDG.generate_mermaid_diagram repr [] []
        = lit "```mermaid" ++ [NL]
          ++ lit "graph TB" ++ [NL]
          ++ lit "    subgraph Infrastructure" ++ [NL]
          ++ lit "    A[GKE Cluster] --> B[VPC Network]" ++ [NL]
          ++ lit "end" ++ [NL] ++ lit "```").
Proof.
  split.
  - intros repr tm kr.
    unfold IDG.generate_mermaid_diagram, IDG.mermaid_lines,
      IDG.mermaid_preamble.
    set (tail := IDG.mermaid_modules tm
                 ++ IDG.mermaid_kubernetes repr kr ++ [lit "end"; lit "```"]).
    assert (Hne : tail <> []).
    { unfold tail. intros E. apply app_eq_nil in E as [_ E].
      apply app_eq_nil in E as [_ E]. discriminate. }
    exists (join [NL] tail).
    cbn [app]. rewrite !join_cons_nonempty by (exact Hne || discriminate).
    reflexivity.
  - intros repr. reflexivity.
Qed.

End Mermaid.

(* ===================================================================== *)
(** ** More on the section replacer *)
(* ===================================================================== *)

Module ReplacerMore.
Import Py Data Readme Spec PyFacts RunFacts ReplacerFacts PipelineFacts.
Import Examples.

(** A separator whose first character does not come back in it cannot
    overlap itself: in front of an occurrence, a match that starts inside
    [t] lies inside [t]. *)
Lemma startswith_no_overlap (c : N) (sep' t x : pystr) :
  ~ In c sep' -> t <> [] ->
  startswith (t ++ (c :: sep') ++ x) (c :: sep') = startswith t (c :: sep').
Proof.
  intros Hc Ht. destruct t as [|y t]; [contradiction|].
  simpl. rewrite startswith_barrier by exact Hc. reflexivity.
Qed.

Lemma find_before_occurrence (c : N) (sep' pre x : pystr) :
  ~ In c sep' ->
  find (pre ++ (c :: sep') ++ x) (c :: sep')
  = match find pre (c :: sep') with
    | Some i => Some i
    | None => Some (length pre)
    end.
Proof.
  intros Hc. induction pre as [|y pre IH].
  - simpl app. rewrite find_unfold.
    change (c :: sep' ++ x) with ((c :: sep') ++ x).
    rewrite startswith_app. reflexivity.
  - rewrite (find_unfold ((y :: pre) ++ _)), (find_unfold (y :: pre)).
    rewrite startswith_no_overlap by (exact Hc || discriminate).
    destruct (startswith (y :: pre) (c :: sep')); [reflexivity|].
    change ((y :: pre) ++ (c :: sep') ++ x)
      with (y :: (pre ++ (c :: sep') ++ x)).
    cbv beta iota. rewrite IH.
    destruct (find pre (c :: sep')); reflexivity.
Qed.

Lemma MARKER_head_unique :
  exists sep', MARKER = 60%N :: sep' /\ ~ In 60%N sep'.
Proof.
  eexists. split; [reflexivity|]. simpl.
  repeat (intros [H|H]; [discriminate H | revert H]). intros [].
Qed.

Lemma find_marker_before (pre x : pystr) :
  find (pre ++ MARKER ++ x) MARKER
  = match find pre MARKER with
    | Some i => Some i
    | None => Some (length pre)
    end.
Proof.
  destruct MARKER_head_unique as (sep' & E & Hc). rewrite E.
  apply find_before_occurrence. exact Hc.
Qed.

Lemma find_some_le (s sep : pystr) (i : nat) :
  find s sep = Some i -> (i <= length s)%nat.
Proof.
  intros F. destruct (find_some_split _ _ _ F) as (rest & _ & L).
  rewrite length_firstn in L. lia.
Qed.

Lemma firstn_app_le {A : Type} (i : nat) (a b : list A) :
  (i <= length a)%nat -> firstn i (a ++ b) = firstn i a.
Proof.
  intros H. rewrite firstn_app.
  replace (i - length a)%nat with 0%nat by lia.
  simpl. apply app_nil_r.
Qed.

(** What follows a marker has no part in what is preserved. *)
Lemma preserved_app_marker (pre old : pystr) :
  preserved (pre ++ MARKER ++ old) = preserved pre.
Proof.
  unfold preserved, contains, split_head. rewrite find_marker_before.
  destruct (find pre MARKER) as [i|] eqn:F.
  - apply firstn_app_le. apply (find_some_le _ _ _ F).
  - apply firstn_length_app.
Qed.

(** X1. The text the replacer preserves is an initial part of the prior
    content, holds no marker, and is preserved as it is when the replacer
    sees it again. *)
Theorem preserved_prefix_clean (content : pystr) :
  startswith content (preserved content) = true
  /\ contains (preserved content) MARKER = false
  /\ preserved (preserved content) = preserved content.
Proof.
  assert (Hno : contains (preserved content) MARKER = false).
  { unfold contains. rewrite preserved_no_marker. reflexivity. }
  split; [|split].
  - unfold preserved, contains, split_head.
    destruct (find content MARKER) as [i|].
    + rewrite <- (firstn_skipn i content) at 1. apply startswith_app.
    + rewrite <- (app_nil_r content) at 1. apply startswith_app.
  - exact Hno.
  - unfold preserved at 1. rewrite Hno. reflexivity.
Qed.

(** X2. In what the replacer writes, the first marker stands right after
    the trimmed prefix and its two newlines: the written content always
    holds a marker, and the text a later run preserves ends before it. *)
Theorem written_marker_position (content now sections : pystr) :
  find (replace_section content now sections) MARKER
  = Some (length (rstrip (preserved content)) + 2)%nat
  /\ contains (replace_section content now sections) MARKER = true.
Proof.
  assert (E : find (replace_section content now sections) MARKER
              = Some (length (rstrip (preserved content)) + 2)%nat).
  { rewrite replace_section_unfold.
    set (t := rstrip (preserved content)).
    set (rest := [NL] ++ warning_line ++ timestamp_line now ++ sections).
    change (t ++ [NL; NL] ++ MARKER ++ rest)
      with (t ++ NL :: ([] ++ NL :: (MARKER ++ rest))).
    rewrite find_barrier by (exact MARKER_nonempty || exact MARKER_no_newline).
    unfold t. rewrite rstrip_preserved_no_marker.
    rewrite find_barrier by (exact MARKER_nonempty || exact MARKER_no_newline).
    rewrite (find_unfold (MARKER ++ rest)), startswith_app.
    simpl. f_equal. lia. }
  split; [exact E|]. unfold contains. rewrite E. reflexivity.
Qed.

(** X3. Whatever stands after a marker in the prior README, the old
    generated section for one, has no effect on what is written: the
    replacer writes what it writes for the text before that marker. *)
Theorem old_section_discarded (pre old now sections : pystr) :
  replace_section (pre ++ MARKER ++ old) now sections
  = replace_section pre now sections.
Proof.
  unfold replace_section, new_content_head.
  rewrite preserved_app_marker. reflexivity.
Qed.

(** X4. A prior README whose preserved part is empty or all whitespace
    (an empty file, a file that begins with the marker) leaves no prefix:
    the written content begins with the two newlines and the marker. *)
Theorem blank_prefix_written (content now sections : pystr) :
  forallb isspace (preserved content) = true ->
  replace_section content now sections
  = [NL; NL] ++ header now ++ sections.
Proof.
  intros H. unfold replace_section, new_content_head.
  rewrite (rstrip_all_space _ H). rewrite <- !app_assoc. reflexivity.
Qed.

Lemma blank_prefix_written_witness :
  replace_section (lit "  " ++ [NL] ++ MARKER ++ lit "old") stamp1 (lit "S")
  = [NL; NL] ++ header stamp1 ++ lit "S"
  /\ replace_section [] stamp1 (lit "S") = [NL; NL] ++ header stamp1 ++ lit "S".
Proof.
  split; apply blank_prefix_written; reflexivity.
Defined.

End ReplacerMore.

(* ===================================================================== *)
(** ** More on extraction *)
(* ===================================================================== *)

Module ExtractorMore.
Import Py Data Readme Spec Behaviour PyFacts RunFacts.
Import Examples.

Lemma for_each_app {A S : Type} (xs ys : list A) (body : A -> S -> outcome S)
    (s : S) :
  for_each (xs ++ ys) body s = obind (for_each xs body s) (for_each ys body).
Proof.
  revert s; induction xs as [|x xs IH]; intros s; simpl; [reflexivity|].
  destruct (body x s); simpl; [apply IH | reflexivity].
Qed.

(** A loop whose body adds to the state something that does not depend on
    the state adds, as a whole, something that does not depend on it. *)
Lemma for_each_adds {A S : Type} (op : S -> S -> S) (e : S)
    (body : A -> S -> outcome S) :
  (forall a b c, op (op a b) c = op a (op b c)) ->
  (forall a, op a e = a) ->
  (forall x s, body x s = obind (body x e) (fun d => Ok (op s d))) ->
  forall xs s,
    for_each xs body s = obind (for_each xs body e) (fun d => Ok (op s d)).
Proof.
  intros Hassoc Hunit Hbody xs. induction xs as [|x xs IH]; intros s.
  - simpl. rewrite Hunit. reflexivity.
  - simpl. rewrite (Hbody x s). destruct (body x e) as [l|err]; simpl.
    + rewrite (IH (op s l)), (IH l).
      destruct (for_each xs body e); simpl; [|reflexivity].
      rewrite Hassoc. reflexivity.
    + reflexivity.
Qed.

Lemma for_each_appends {A B : Type}
    (body : A -> list B -> outcome (list B)) :
  (forall x acc, body x acc = obind (body x []) (fun l => Ok (acc ++ l))) ->
  forall xs acc,
    for_each xs body acc
    = obind (for_each xs body []) (fun l => Ok (acc ++ l)).
Proof.
  intros H. apply (for_each_adds (@app B) []); auto.
  - intros; symmetry; apply app_assoc.
  - intros; apply app_nil_r.
Qed.

Lemma instances_append (mk : pystr -> pystr -> pystr) (t : pystr)
    (insts : list pyval) (acc : list pystr) :
  for_each insts
    (fun instance acc =>
       obind (first_key instance) (fun instance_name =>
         Ok (acc ++ [mk t instance_name]))) acc
  = obind (for_each insts
             (fun instance acc =>
                obind (first_key instance) (fun instance_name =>
                  Ok (acc ++ [mk t instance_name]))) [])
      (fun l => Ok (acc ++ l)).
Proof.
  apply for_each_appends. intros x acc'.
  destruct (first_key x); reflexivity.
Qed.

Lemma instances_guarded_append (mk : pystr -> pystr -> pystr) (t : pystr)
    (insts : list pyval) (acc : list pystr) :
  for_each insts
    (fun instance acc =>
       match instance with
       | VDict _ =>
           obind (first_key instance) (fun instance_name =>
             Ok (acc ++ [mk t instance_name]))
       | _ => Ok acc
       end) acc
  = obind (for_each insts
             (fun instance acc =>
                match instance with
                | VDict _ =>
                    obind (first_key instance) (fun instance_name =>
                      Ok (acc ++ [mk t instance_name]))
                | _ => Ok acc
                end) [])
      (fun l => Ok (acc ++ l)).
Proof.
  apply for_each_appends. intros x acc'.
  destruct x as [| | | | |d]; try appends_case.
  destruct (first_key (VDict d)); reflexivity.
Qed.

(** The resource block of either script ([mk] makes the list entry). *)
Lemma resources_append (mk : pystr -> pystr -> pystr) (v : option pyval)
    (acc : list pystr) :
  let run acc :=
    match v with
    | None => Ok acc
    | Some (VDict d) =>
        for_each d (fun '(resource_type, instances) acc =>
          obind (iterate instances) (fun insts =>
            for_each insts (fun instance acc =>
              obind (first_key instance) (fun instance_name =>
                Ok (acc ++ [mk resource_type instance_name]))) acc)) acc
    | Some (VList l) =>
        for_each l (fun resource_item acc =>
          match resource_item with
          | VDict d =>
              obind (first_key resource_item) (fun resource_type =>
                match dict_get d resource_type with
                | None => Raise KeyError
                | Some (VList insts) =>
                    for_each insts (fun instance acc =>
                      match instance with
                      | VDict _ =>
                          obind (first_key instance) (fun instance_name =>
                            Ok (acc ++ [mk resource_type instance_name]))
                      | _ => Ok acc
                      end) acc
                | Some _ => Ok acc
                end)
          | _ => Ok acc
          end) acc
    | Some _ => Ok acc
    end in
  run acc = obind (run []) (fun l => Ok (acc ++ l)).
Proof.
  intros run. unfold run. destruct v as [[| | | |l|d]|]; try appends_case.
  - apply for_each_appends. intros x acc'.
    destruct x as [| | | | |d]; try appends_case.
    destruct (first_key (VDict d)) as [t|]; [simpl|reflexivity].
    destruct (dict_get d t) as [[| | | |insts|]|]; try appends_case.
    apply instances_guarded_append.
  - apply for_each_appends. intros [t instances] acc'.
    destruct (iterate instances) as [insts|]; [simpl|reflexivity].
    apply instances_append.
Qed.

(** The name-only blocks of [generate_diagrams.py], and the output block
    of [update_readme.py] ([mk] makes the list entry). *)
Lemma names_append (mk : pystr -> pystr) (v : option pyval)
    (acc : list pystr) :
  let run acc :=
    match v with
    | None => Ok acc
    | Some (VDict d) =>
        for_each d (fun '(item_name, _) acc => Ok (acc ++ [mk item_name])) acc
    | Some (VList l) =>
        for_each l (fun item acc =>
          match item with
          | VDict _ =>
              obind (first_key item) (fun item_name =>
                Ok (acc ++ [mk item_name]))
          | _ => Ok acc
          end) acc
    | Some _ => Ok acc
    end in
  run acc = obind (run []) (fun l => Ok (acc ++ l)).
Proof.
  intros run. unfold run. destruct v as [[| | | |l|d]|]; try appends_case.
  - apply for_each_appends. intros x acc'.
    destruct x as [| | | | |d]; try appends_case.
    destruct (first_key (VDict d)); reflexivity.
  - apply for_each_appends. intros [n v] acc'. reflexivity.
Qed.

Lemma pa_variables_append (repr : pyval -> pystr) (config : dict)
    (acc : list pystr) :
  PA.extract_variables repr config acc
  = obind (PA.extract_variables repr config []) (fun l => Ok (acc ++ l)).
Proof.
  unfold PA.extract_variables.
  destruct (dict_get config (lit "variable")) as [[| | | |l|d]|];
    try appends_case.
  - apply for_each_appends. intros x acc'.
    destruct x as [| | | | |d]; try appends_case.
    destruct (first_key (VDict d)) as [n|]; [simpl|reflexivity].
    destruct (dict_get d n) as [c|]; [|reflexivity].
    destruct (PA.variable_type c); reflexivity.
  - apply for_each_appends. intros [n c] acc'.
    destruct (PA.variable_type c); reflexivity.
Qed.

Lemma idg_resources_append (config : dict) (acc : list pystr) :
  IDG.extract_resources config acc
  = obind (IDG.extract_resources config []) (fun l => Ok (acc ++ l)).
Proof. apply (resources_append IDG.resource_id). Qed.

Lemma idg_names_append (key : pystr) (config : dict) (acc : list pystr) :
  IDG.extract_names key config acc
  = obind (IDG.extract_names key config []) (fun l => Ok (acc ++ l)).
Proof. apply (names_append (fun n => n)). Qed.

Lemma pa_resources_append (config : dict) (acc : list pystr) :
  PA.extract_resources config acc
  = obind (PA.extract_resources config []) (fun l => Ok (acc ++ l)).
Proof. apply (resources_append PA.resource_bullet). Qed.

Lemma pa_outputs_append (config : dict) (acc : list pystr) :
  PA.extract_outputs config acc
  = obind (PA.extract_outputs config []) (fun l => Ok (acc ++ l)).
Proof. apply (names_append PA.bullet). Qed.

(** X5. What a parsed file adds to a module's lists does not depend on
    what earlier files added: each extractor either raises, whatever was
    gathered before, or appends a list of its own to it, so earlier
    entries are never dropped, changed or reordered. *)
Theorem extraction_appends (repr : pyval -> pystr) (config : dict)
    (acc : list pystr) :
  IDG.extract_resources config acc
    = obind (IDG.extract_resources config []) (fun l => Ok (acc ++ l))
  /\ IDG.extract_variables config acc
    = obind (IDG.extract_variables config []) (fun l => Ok (acc ++ l))
  /\ IDG.extract_outputs config acc
    = obind (IDG.extract_outputs config []) (fun l => Ok (acc ++ l))
  /\ PA.extract_resources config acc
    = obind (PA.extract_resources config []) (fun l => Ok (acc ++ l))
  /\ PA.extract_variables repr config acc
    = obind (PA.extract_variables repr config []) (fun l => Ok (acc ++ l))
  /\ PA.extract_outputs config acc
    = obind (PA.extract_outputs config []) (fun l => Ok (acc ++ l)).
Proof.
  split; [|split; [|split; [|split; [|split]]]].
  - apply idg_resources_append.
  - apply idg_names_append.
  - apply idg_names_append.
  - apply pa_resources_append.
  - apply pa_variables_append.
  - apply pa_outputs_append.
Qed.

(** *** Names, in both shapes *)

Lemma names_of_mapping (mk : pystr -> pystr) (d : list (pystr * pyval))
    (acc : list pystr) :
  for_each d (fun '(item_name, _) acc => Ok (acc ++ [mk item_name])) acc
  = Ok (acc ++ map (fun kv => mk (fst kv)) d).
Proof.
  revert acc. induction d as [|[k v] d IH]; intros acc; simpl.
  - rewrite app_nil_r. reflexivity.
  - rewrite IH, <- app_assoc. reflexivity.
Qed.

Lemma names_of_sequence (mk : pystr -> pystr) (items : list pyval)
    (acc : list pystr) :
  Forall (fun v => v <> VDict []) items ->
  for_each items (fun item acc =>
    match item with
    | VDict _ =>
        obind (first_key item) (fun item_name => Ok (acc ++ [mk item_name]))
    | _ => Ok acc
    end) acc
  = Ok (acc ++ map mk (first_keys items)).
Proof.
  intros H. revert acc. induction H as [|v items Hv _ IH]; intros acc; simpl.
  - rewrite app_nil_r. reflexivity.
  - destruct v as [| | | | |[|[k b] d]]; simpl; try apply IH.
    + contradiction.
    + rewrite IH, <- app_assoc. reflexivity.
Qed.

Lemma names_of_sequence_empty (mk : pystr -> pystr) (items : list pyval)
    (acc : list pystr) :
  In (VDict []) items ->
  for_each items (fun item acc =>
    match item with
    | VDict _ =>
        obind (first_key item) (fun item_name => Ok (acc ++ [mk item_name]))
    | _ => Ok acc
    end) acc
  = Raise IndexError.
Proof.
  revert acc. induction items as [|v items IH]; intros acc H; [contradiction|].
  simpl. destruct v as [| | | | |[|[k b] d]]; simpl;
    try (apply IH; destruct H as [H|H]; [discriminate H | exact H]).
  reflexivity.
Qed.

(** X6. Variables of [generate_diagrams.py] and outputs of both scripts
    are read by name only. As a single mapping every key is taken in
    order, whatever its value. As a sequence the first key of every item
    that is a mapping is taken and other items are passed over; an item
    that is the empty mapping raises [IndexError]. *)
Theorem names_extracted (key : pystr) (config : dict) (acc : list pystr) :
  (forall d,
      dict_get config key = Some (VDict d) ->
      IDG.extract_names key config acc = Ok (acc ++ map fst d))
  /\ (forall items,
        dict_get config key = Some (VList items) ->
        Forall (fun v => v <> VDict []) items ->
        IDG.extract_names key config acc = Ok (acc ++ first_keys items))
  /\ (forall items,
        dict_get config key = Some (VList items) ->
        In (VDict []) items ->
        IDG.extract_names key config acc = Raise IndexError)
  /\ (dict_get config key = None ->
      IDG.extract_names key config acc = Ok acc)
  /\ (key = lit "output" ->
      (forall d,
          dict_get config key = Some (VDict d) ->
          PA.extract_outputs config acc
          = Ok (acc ++ map (fun kv => PA.bullet (fst kv)) d))
      /\ (forall items,
            dict_get config key = Some (VList items) ->
            Forall (fun v => v <> VDict []) items ->
            PA.extract_outputs config acc
            = Ok (acc ++ map PA.bullet (first_keys items)))
      /\ (forall items,
            dict_get config key = Some (VList items) ->
            In (VDict []) items ->
            PA.extract_outputs config acc = Raise IndexError)).
Proof.
  split; [|split; [|split; [|split]]].
  - intros d H. unfold IDG.extract_names. rewrite H.
    rewrite (names_of_mapping (fun n => n)). reflexivity.
  - intros items H Hne. unfold IDG.extract_names. rewrite H.
    rewrite (names_of_sequence (fun n => n)) by exact Hne.
    rewrite map_id. reflexivity.
  - intros items H Hin. unfold IDG.extract_names. rewrite H.
    apply (names_of_sequence_empty (fun n => n)). exact Hin.
  - intros H. unfold IDG.extract_names. rewrite H. reflexivity.
  - intros ->. split; [|split].
    + intros d H. unfold PA.extract_outputs. rewrite H.
      apply (names_of_mapping PA.bullet).
    + intros items H Hne. unfold PA.extract_outputs. rewrite H.
      apply (names_of_sequence PA.bullet). exact Hne.
    + intros items H Hin. unfold PA.extract_outputs. rewrite H.
      apply (names_of_sequence_empty PA.bullet). exact Hin.
Qed.

(** The outputs [network_id] and [subnet_id] in both shapes, with a stray
    string among the items of the sequence, and an empty item. *)
Lemma names_extracted_witness :
  IDG.extract_outputs
    [(lit "output",
      VDict [(lit "network_id", VNone); (lit "subnet_id", VInt 3)])] []
  = Ok [lit "network_id"; lit "subnet_id"]
  /\ IDG.extract_outputs
       [(lit "output",
         VList [VDict [(lit "network_id", VDict [])]; VStr (lit "stray");
                VDict [(lit "subnet_id", VDict [])]])] []
     = Ok [lit "network_id"; lit "subnet_id"]
  /\ IDG.extract_variables
       [(lit "variable", VList [VDict [(lit "region", VDict [])]; VDict []])]
       []
     = Raise IndexError
  /\ PA.extract_outputs
       [(lit "output",
         VList [VDict [(lit "network_id", VDict [])]; VStr (lit "stray")])] []
     = Ok [lit "- `network_id`"].
Proof.
  split; [|split; [|split]].
  - destruct (names_extracted (lit "output")
                [(lit "output",
                  VDict [(lit "network_id", VNone);
                         (lit "subnet_id", VInt 3)])] []) as (H & _).
    exact (H _ eq_refl).
  - destruct (names_extracted (lit "output")
                [(lit "output",
                  VList [VDict [(lit "network_id", VDict [])];
                         VStr (lit "stray");
                         VDict [(lit "subnet_id", VDict [])]])] [])
      as (_ & H & _).
    refine (H _ eq_refl _). repeat constructor; discriminate.
  - destruct (names_extracted (lit "variable")
                [(lit "variable",
                  VList [VDict [(lit "region", VDict [])]; VDict []])] [])
      as (_ & _ & H & _).
    refine (H _ eq_refl _). right; left; reflexivity.
  - destruct (names_extracted (lit "output")
                [(lit "output",
                  VList [VDict [(lit "network_id", VDict [])];
                         VStr (lit "stray")])] [])
      as (_ & _ & _ & _ & H).
    destruct (H eq_refl) as (_ & H2 & _).
    refine (H2 _ eq_refl _). repeat constructor; discriminate.
Defined.

(** *** A module, file by file *)

Lemma idg_extract_adds (config : dict) (d : IDG.module_details) :
  IDG.extract config d
  = obind (IDG.extract config IDG.empty_details)
      (fun added => Ok (details_app d added)).
Proof.
  unfold IDG.extract, IDG.extract_variables, IDG.extract_outputs.
  rewrite (idg_resources_append config (IDG.resources d)),
    (idg_names_append _ config (IDG.variables d)),
    (idg_names_append _ config (IDG.outputs d)).
  simpl.
  destruct (IDG.extract_resources config []); simpl; [|reflexivity].
  destruct (IDG.extract_names (lit "variable") config []); simpl;
    [|reflexivity].
  destruct (IDG.extract_names (lit "output") config []); reflexivity.
Qed.

Lemma pa_extract_adds (repr : pyval -> pystr) (config : dict)
    (l : PA.module_lists) :
  PA.extract repr config l
  = obind (PA.extract repr config PA.empty_lists)
      (fun added => Ok (lists_app l added)).
Proof.
  unfold PA.extract.
  rewrite (pa_resources_append config (PA.resources l)),
    (pa_variables_append repr config (PA.variables l)),
    (pa_outputs_append config (PA.outputs l)).
  simpl.
  destruct (PA.extract_resources config []); simpl; [|reflexivity].
  destruct (PA.extract_variables repr config []); simpl; [|reflexivity].
  destruct (PA.extract_outputs config []); reflexivity.
Qed.

Lemma details_app_assoc (a b c : IDG.module_details) :
  details_app (details_app a b) c = details_app a (details_app b c).
Proof. unfold details_app. simpl. rewrite <- !app_assoc. reflexivity. Qed.

Lemma details_app_empty (a : IDG.module_details) :
  details_app a IDG.empty_details = a.
Proof. destruct a. unfold details_app. simpl. rewrite !app_nil_r. reflexivity. Qed.

Lemma lists_app_assoc (a b c : PA.module_lists) :
  lists_app (lists_app a b) c = lists_app a (lists_app b c).
Proof. unfold lists_app. simpl. rewrite <- !app_assoc. reflexivity. Qed.

Lemma lists_app_empty (a : PA.module_lists) :
  lists_app a PA.empty_lists = a.
Proof. destruct a. unfold lists_app. simpl. rewrite !app_nil_r. reflexivity. Qed.

Lemma result_for_eachM {A S : Type} (body : A -> S -> M S) (xs : list A)
    (s : S) :
  result (for_eachM xs body s)
  = for_each xs (fun x s => result (body x s)) s.
Proof.
  revert s. induction xs as [|x xs IH]; intros s; [reflexivity|].
  simpl. rewrite result_bind. destruct (result (body x s)); simpl;
    [apply IH | reflexivity].
Qed.

(** What one file of a module directory does to the record. *)
Lemma idg_analyze_file_result (path : pystr) (f : pystr * hcl_load)
    (d : IDG.module_details) :
  result (IDG.analyze_file path f d)
  = if endswith (fst f) (lit ".tf") then IDG.extract (config_of f) d
    else Ok d.
Proof.
  destruct f as [file load]. unfold IDG.analyze_file, config_of. simpl fst.
  destruct (endswith file (lit ".tf")); [|reflexivity].
  rewrite result_bind. destruct load; reflexivity.
Qed.

(** X7. The lists of a module are put together file by file: for a
    listing in two parts, the module's record is the record of the first
    part followed, list by list, by the record of the second part, and it
    raises as soon as either part raises. This holds for the module
    directories of [generate_diagrams.py] and for the configs of a module
    in [update_readme.py]. *)
Theorem module_lists_compose :
  (forall path files1 files2,
      result (IDG.analyze_module path (files1 ++ files2))
      = obind (result (IDG.analyze_module path files1)) (fun d1 =>
        obind (result (IDG.analyze_module path files2)) (fun d2 =>
        Ok (details_app d1 d2))))
  /\ (forall repr configs1 configs2,
        PA.module_extract repr (configs1 ++ configs2)
        = obind (PA.module_extract repr configs1) (fun l1 =>
          obind (PA.module_extract repr configs2) (fun l2 =>
          Ok (lists_app l1 l2)))).
Proof.
  split.
  - intros path files1 files2. unfold IDG.analyze_module.
    rewrite !result_for_eachM, for_each_app.
    destruct (for_each files1 _ IDG.empty_details) as [d1|]; simpl;
      [|reflexivity].
    apply (for_each_adds details_app IDG.empty_details).
    + apply details_app_assoc.
    + apply details_app_empty.
    + intros f d. rewrite !idg_analyze_file_result.
      destruct (endswith (fst f) (lit ".tf")).
      * apply idg_extract_adds.
      * simpl. rewrite details_app_empty. reflexivity.
  - intros repr configs1 configs2. unfold PA.module_extract.
    rewrite for_each_app.
    destruct (for_each configs1 _ PA.empty_lists) as [l1|]; simpl;
      [|reflexivity].
    apply (for_each_adds lists_app PA.empty_lists).
    + apply lists_app_assoc.
    + apply lists_app_empty.
    + intros c l. apply pa_extract_adds.
Qed.

(** *** Files that are not [.tf] files *)

Lemma bind_ret_l {A B : Type} (a : A) (k : A -> M B) : bind (ret a) k = k a.
Proof. unfold bind, ret. destruct (k a). reflexivity. Qed.

Lemma for_eachM_ext {A S : Type} (body1 body2 : A -> S -> M S)
    (xs : list A) (s : S) :
  (forall x s, body1 x s = body2 x s) ->
  for_eachM xs body1 s = for_eachM xs body2 s.
Proof.
  intros H. revert s. induction xs as [|x xs IH]; intros s; [reflexivity|].
  simpl. rewrite H. destruct (body2 x s) as [log [s'|e]]; simpl;
    [rewrite IH|]; reflexivity.
Qed.

Lemma idg_analyze_tf_only (path : pystr) (files : list (pystr * hcl_load))
    (d : IDG.module_details) :
  for_eachM files (IDG.analyze_file path) d
  = for_eachM (tf_only files) (IDG.analyze_file path) d.
Proof.
  revert d. induction files as [|[file load] files IH]; intros d;
    [reflexivity|].
  unfold tf_only. cbn [filter fst].
  destruct (endswith file (lit ".tf")) eqn:E.
  - cbn [for_eachM].
    destruct (IDG.analyze_file path (file, load) d) as [log [d'|e]]; simpl;
      [|reflexivity].
    fold (tf_only files). rewrite IH. reflexivity.
  - cbn [for_eachM]. unfold IDG.analyze_file at 1. rewrite E.
    rewrite bind_ret_l. apply IH.
Qed.

Lemma pa_inner_tf_only (root : pystr) (files : list (pystr * hcl_load))
    (tm : list (pystr * list dict)) :
  let body := fun '(file, load) (terraform_modules : list (pystr * list dict)) =>
    if endswith file (lit ".tf") then
      bind (PA.analyze_terraform_file (path_join root file) load)
        (fun parsed =>
           ret (PA.dict_append terraform_modules
                  (basename (dirname (path_join root file))) parsed))
    else ret terraform_modules in
  for_eachM files body tm = for_eachM (tf_only files) body tm.
Proof.
  intros body. revert tm.
  induction files as [|[file load] files IH]; intros tm; [reflexivity|].
  unfold tf_only. cbn [filter fst].
  destruct (endswith file (lit ".tf")) eqn:E.
  - cbn [for_eachM].
    destruct (body (file, load) tm) as [log [tm'|e]]; simpl; [|reflexivity].
    fold (tf_only files). rewrite IH. reflexivity.
  - cbn [for_eachM]. unfold body at 1. rewrite E.
    rewrite bind_ret_l. apply IH.
Qed.


End ExtractorMore.

(* ===================================================================== *)
(** ** Modules and their names in [update_readme.py] *)
(* ===================================================================== *)

Module Grouping.
Import Py Data Readme Spec Behaviour PyFacts RunFacts.
Import Examples.

Lemma str_eqb_neq (a b : pystr) : a <> b -> str_eqb a b = false.
Proof.
  intros H. destruct (str_eqb a b) eqn:E; [|reflexivity].
  apply str_eqb_eq in E. contradiction.
Qed.

Lemma dict_get_set_same {V : Type} (d : list (pystr * V)) (k : pystr)
    (v : V) :
  dict_get (dict_set d k v) k = Some v.
Proof.
  induction d as [|[k' v'] d IH]; simpl.
  - rewrite str_eqb_refl. reflexivity.
  - destruct (str_eqb k' k) eqn:E; simpl; rewrite E; [reflexivity | exact IH].
Qed.

Lemma dict_get_set_other {V : Type} (d : list (pystr * V)) (k k' : pystr)
    (v : V) :
  k' <> k -> dict_get (dict_set d k v) k' = dict_get d k'.
Proof.
  intros Hne. induction d as [|[k0 v0] d IH]; simpl.
  - rewrite str_eqb_neq by congruence. reflexivity.
  - destruct (str_eqb k0 k) eqn:E; simpl.
    + apply str_eqb_eq in E. subst k0.
      rewrite str_eqb_neq by congruence. reflexivity.
    + destruct (str_eqb k0 k'); [reflexivity | exact IH].
Qed.

Lemma dict_set_keys {V : Type} (d : list (pystr * V)) (k : pystr) (v : V) :
  map fst (dict_set d k v)
  = match dict_get d k with
    | Some _ => map fst d
    | None => map fst d ++ [k]
    end.
Proof.
  induction d as [|[k0 v0] d IH]; simpl; [reflexivity|].
  destruct (str_eqb k0 k) eqn:E; simpl; [reflexivity|].
  rewrite IH. destruct (dict_get d k); reflexivity.
Qed.

(** X9. Filing a config under a module name: afterwards the module holds
    its earlier configs followed by the new one (the new one alone when
    the module is new), every other module holds what it held, and the
    modules keep their order, a new module going last. *)
Theorem dict_append_lookup (d : list (pystr * list dict))
    (module_name : pystr) (c : dict) :
  dict_get (PA.dict_append d module_name c) module_name
    = Some (match dict_get d module_name with
            | Some configs => configs ++ [c]
            | None => [c]
            end)
  /\ (forall other,
        other <> module_name ->
        dict_get (PA.dict_append d module_name c) other = dict_get d other)
  /\ map fst (PA.dict_append d module_name c)
     = match dict_get d module_name with
       | Some _ => map fst d
       | None => map fst d ++ [module_name]
       end.
Proof.
  unfold PA.dict_append. split; [|split].
  - destruct (dict_get d module_name); apply dict_get_set_same.
  - intros other H.
    destruct (dict_get d module_name); apply dict_get_set_other; exact H.
  - destruct (dict_get d module_name) eqn:E; rewrite dict_set_keys, E;
      reflexivity.
Qed.

(** *** The name of a module *)

Lemma after_last_slash_none (f : pystr) :
  ~ In SLASH f -> after_last_slash f = 0%nat.
Proof.
  induction f as [|y f IH]; intros H; [reflexivity|].
  simpl. rewrite IH by (intros H'; apply H; right; exact H').
  unfold char_eqb. destruct (N.eqb_spec y SLASH) as [->|_]; [|reflexivity].
  exfalso. apply H. left; reflexivity.
Qed.

Lemma after_last_slash_app (a f : pystr) :
  ~ In SLASH f ->
  after_last_slash (a ++ SLASH :: f) = (length a + 1)%nat.
Proof.
  intros H. induction a as [|y a IH].
  - simpl. rewrite (after_last_slash_none f H). reflexivity.
  - simpl app. simpl after_last_slash. rewrite IH.
    replace (length a + 1)%nat with (S (length a)) by lia.
    simpl. f_equal. lia.
Qed.

Lemma rstrip_slash_app_slash (s : pystr) :
  rstrip_slash (s ++ [SLASH]) = rstrip_slash s.
Proof.
  induction s as [|y s IH]; [reflexivity|].
  simpl app. simpl rstrip_slash. rewrite IH. reflexivity.
Qed.

Lemma rstrip_slash_keeps (r : pystr) (c : N) :
  c <> SLASH -> rstrip_slash (r ++ [c]) = r ++ [c].
Proof.
  intros H. induction r as [|y r IH].
  - simpl. unfold char_eqb. destruct (N.eqb_spec c SLASH); [contradiction|].
    reflexivity.
  - simpl app. simpl rstrip_slash. rewrite IH.
    destruct (r ++ [c]) eqn:E; [destruct r; discriminate | reflexivity].
Qed.

Lemma not_all_slashes (r u : pystr) (c : N) :
  c <> SLASH -> forallb (fun x => char_eqb x SLASH) (r ++ c :: u) = false.
Proof.
  intros H. rewrite forallb_app. simpl. unfold char_eqb at 2.
  destruct (N.eqb_spec c SLASH); [contradiction|].
  simpl. apply andb_false_r.
Qed.

Lemma path_join_directory (r : pystr) (c : N) (file : pystr) :
  c <> SLASH -> ~ In SLASH file ->
  path_join (r ++ [c]) file = (r ++ [c]) ++ SLASH :: file.
Proof.
  intros Hc Hf. unfold path_join.
  assert (E1 : startswith file [SLASH] = false).
  { destruct file as [|y file]; [reflexivity|].
    cbn [startswith]. unfold char_eqb.
    destruct (N.eqb_spec SLASH y) as [<-|_]; [|reflexivity].
    exfalso. apply Hf. left; reflexivity. }
  assert (E2 : endswith (r ++ [c]) [SLASH] = false).
  { unfold endswith. rewrite rev_unit. cbn [rev app startswith].
    unfold char_eqb.
    destruct (N.eqb_spec SLASH c); [congruence | reflexivity]. }
  rewrite E1, E2. destruct (r ++ [c]) eqn:E; [destruct r; discriminate|].
  reflexivity.
Qed.

Lemma dirname_directory (r : pystr) (c : N) (file : pystr) :
  c <> SLASH -> ~ In SLASH file ->
  dirname ((r ++ [c]) ++ SLASH :: file) = r ++ [c].
Proof.
  intros Hc Hf. unfold dirname.
  rewrite after_last_slash_app by exact Hf.
  change (SLASH :: file) with ([SLASH] ++ file).
  rewrite app_assoc.
  replace (length (r ++ [c]) + 1)%nat with (length ((r ++ [c]) ++ [SLASH]))
    by (rewrite !length_app; simpl; lia).
  rewrite ReplacerFacts.firstn_length_app.
  rewrite <- app_assoc. simpl app at 2.
  rewrite not_all_slashes by exact Hc.
  change (r ++ [c; SLASH]) with (r ++ [c] ++ [SLASH]).
  rewrite app_assoc, rstrip_slash_app_slash.
  apply rstrip_slash_keeps. exact Hc.
Qed.

Lemma module_name_of_file (r : pystr) (c : N) (file : pystr) :
  c <> SLASH -> ~ In SLASH file ->
  basename (dirname (path_join (r ++ [c]) file)) = basename (r ++ [c]).
Proof.
  intros Hc Hf. rewrite path_join_directory, dirname_directory by assumption.
  reflexivity.
Qed.

Lemma dict_append_grouped (m : pystr) (cs : list dict) (c : dict) :
  PA.dict_append (grouped m cs) m c = grouped m (cs ++ [c]).
Proof.
  destruct cs as [|c0 cs]; [reflexivity|].
  unfold PA.dict_append, grouped. simpl. rewrite str_eqb_refl. simpl.
  rewrite ?str_eqb_refl. reflexivity.
Qed.

Lemma pa_directory_grouped (r : pystr) (c : N)
    (files : list (pystr * hcl_load)) (cs : list dict) :
  c <> SLASH ->
  Forall (fun f => ~ In SLASH (fst f)) files ->
  result
    (for_eachM files
       (fun '(file, load) (terraform_modules : list (pystr * list dict)) =>
          if endswith file (lit ".tf") then
            bind (PA.analyze_terraform_file (path_join (r ++ [c]) file) load)
              (fun parsed =>
                 ret (PA.dict_append terraform_modules
                        (basename (dirname (path_join (r ++ [c]) file)))
                        parsed))
          else ret terraform_modules)
       (grouped (basename (r ++ [c])) cs))
  = Ok (grouped (basename (r ++ [c]))
          (cs ++ map config_of (tf_only files))).
Proof.
  intros Hc Hfiles. revert cs.
  induction Hfiles as [|[file load] files Hf _ IH]; intros cs.
  - simpl. rewrite app_nil_r. reflexivity.
  - cbn [for_eachM]. rewrite result_bind. unfold tf_only. cbn [filter fst].
    fold (tf_only files). simpl in Hf.
    destruct (endswith file (lit ".tf")).
    + rewrite result_bind.
      rewrite (module_name_of_file r c file Hc Hf).
      assert (E : result (PA.analyze_terraform_file
                            (path_join (r ++ [c]) file) load)
                  = Ok (config_of (file, load)))
        by (destruct load; reflexivity).
      rewrite E. cbn [obind]. rewrite result_ret. cbn [obind].
      rewrite dict_append_grouped, IH.
      cbn [map]. rewrite <- app_assoc. reflexivity.
    + rewrite result_ret. cbn [obind]. apply IH.
Qed.

(** X10. In [update_readme.py] the module a [.tf] file belongs to is named
    by the last component of the directory it lies in: for a directory
    path that does not end in a slash and a file name without a slash,
    [basename(dirname(join(root, file)))] is [basename(root)]. *)
Theorem module_name_is_directory (r : pystr) (c : N) (file : pystr) :
  c <> SLASH -> ~ In SLASH file ->
  basename (dirname (path_join (r ++ [c]) file)) = basename (r ++ [c]).
Proof. apply module_name_of_file. Qed.

Lemma module_name_is_directory_witness :
  basename (dirname (path_join (lit "/repo/modules/network") (lit "main.tf")))
  = lit "network"
  /\ basename (dirname (path_join (lit "/repo/modules") (lit "main.tf")))
     = lit "modules".
Proof.
  split.
  - apply (module_name_is_directory (lit "/repo/modules/networ") 107%N
             (lit "main.tf")); [discriminate|].
    simpl. intuition discriminate.
  - apply (module_name_is_directory (lit "/repo/module") 115%N
             (lit "main.tf")); [discriminate|].
    simpl. intuition discriminate.
Defined.

(** X11. The scan of one directory in [update_readme.py] files every
    [.tf] file of the directory under one module, the directory's name,
    in listing order, a file that failed to load as [{}]; without any
    [.tf] file the directory is no module. Files in the modules directory
    itself thus make a module called [modules]. *)
Theorem directory_is_one_module (p : PA.project) (r : pystr) (c : N)
    (files : list (pystr * hcl_load)) :
  PA.modules_walk p = [(r ++ [c], files)] ->
  c <> SLASH ->
  Forall (fun f => ~ In SLASH (fst f)) files ->
  result (PA.analyze_modules p)
  = Ok (grouped (basename (r ++ [c])) (map config_of (tf_only files))).
Proof.
  intros Hw Hc Hfiles. unfold PA.analyze_modules. rewrite Hw.
  cbn [for_eachM]. rewrite result_bind.
  pose proof (pa_directory_grouped r c files [] Hc Hfiles) as H.
  change (grouped (basename (r ++ [c])) [])
    with (@nil (pystr * list dict)) in H.
  rewrite H. reflexivity.
Qed.

Lemma directory_is_one_module_witness :
  result (PA.analyze_modules pa_top_level)
  = Ok [(lit "modules", [network_tf; []])].
Proof.
  apply (directory_is_one_module pa_top_level (lit "/repo/module") 115%N
           [ (lit "main.tf", Parsed network_tf);
             (lit "notes.md", ParseFails (lit "not HCL"));
             (lit "broken.tf", ParseFails (lit "unexpected token")) ]).
  - reflexivity.
  - discriminate.
  - repeat constructor; simpl; intuition discriminate.
Defined.

End Grouping.

(* ===================================================================== *)
(** ** The scans, entry by entry *)
(* ===================================================================== *)

Module Scans.
Import Py Data Readme Spec Behaviour PyFacts RunFacts.
Import Examples.

Lemma dict_get_app {V : Type} (a b : list (pystr * V)) (k : pystr) :
  dict_get (a ++ b) k
  = match dict_get a k with Some v => Some v | None => dict_get b k end.
Proof.
  induction a as [|[k' v'] a IH]; simpl; [reflexivity|].
  destruct (str_eqb k' k); [reflexivity | exact IH].
Qed.

Lemma dict_get_absent {V : Type} (l : list (pystr * V)) (k : pystr) :
  (forall kv, In kv l -> fst kv <> k) -> dict_get l k = None.
Proof.
  induction l as [|[k' v'] l IH]; intros H; simpl; [reflexivity|].
  rewrite Grouping.str_eqb_neq by (apply (H (k', v')); left; reflexivity).
  apply IH. intros kv Hkv. apply H. right; exact Hkv.
Qed.

Lemma dict_set_new {V : Type} (d : list (pystr * V)) (k : pystr) (v : V) :
  dict_get d k = None -> dict_set d k v = d ++ [(k, v)].
Proof.
  induction d as [|[k' v'] d IH]; simpl; intros H; [reflexivity|].
  destruct (str_eqb k' k); [discriminate|].
  rewrite IH by exact H. reflexivity.
Qed.

(** A scan that gives every listed name at most one entry, under its own
    name, gathers the entries in listing order when the names differ. *)
Lemma scan_collects {A V : Type} (key : A -> pystr)
    (entry : A -> list (pystr * V))
    (body : A -> list (pystr * V) -> M (list (pystr * V))) (xs : list A) :
  (forall x kv, In kv (entry x) -> fst kv = key x) ->
  (forall x acc,
      In x xs -> dict_get acc (key x) = None ->
      result (body x acc) = Ok (acc ++ entry x)) ->
  NoDup (map key xs) ->
  forall acc,
    (forall x, In x xs -> dict_get acc (key x) = None) ->
    result (for_eachM xs body acc) = Ok (acc ++ flat_map entry xs).
Proof.
  intros Hkey. induction xs as [|x xs IH]; intros Hbody Hnd acc Hacc.
  - simpl. rewrite app_nil_r. reflexivity.
  - cbn [for_eachM]. rewrite result_bind.
    rewrite (Hbody x acc (or_introl eq_refl) (Hacc x (or_introl eq_refl))).
    cbn [obind]. inversion Hnd as [|? ? Hnotin Hnd']; subst.
    rewrite IH.
    + simpl. rewrite app_assoc. reflexivity.
    + intros y acc' Hy. apply Hbody. right; exact Hy.
    + exact Hnd'.
    + intros y Hy. rewrite dict_get_app.
      rewrite (Hacc y (or_intror Hy)).
      apply dict_get_absent. intros kv Hkv.
      rewrite (Hkey x kv Hkv). intros E. apply Hnotin.
      rewrite E. apply in_map. exact Hy.
Qed.

Lemma scan_collects_nil {A V : Type} (key : A -> pystr)
    (entry : A -> list (pystr * V))
    (body : A -> list (pystr * V) -> M (list (pystr * V))) (xs : list A) :
  (forall x kv, In kv (entry x) -> fst kv = key x) ->
  (forall x acc,
      In x xs -> dict_get acc (key x) = None ->
      result (body x acc) = Ok (acc ++ entry x)) ->
  NoDup (map key xs) ->
  result (for_eachM xs body []) = Ok (flat_map entry xs).
Proof.
  intros Hkey Hbody Hnd.
  apply (scan_collects key entry body xs Hkey Hbody Hnd []).
  intros; reflexivity.
Qed.



Lemma result_for_eachM_app {A S : Type} (body : A -> S -> M S)
    (xs ys : list A) (s : S) :
  result (for_eachM (xs ++ ys) body s)
  = obind (result (for_eachM xs body s))
      (fun s' => result (for_eachM ys body s')).
Proof.
  revert s. induction xs as [|x xs IH]; intros s; [reflexivity|].
  cbn [app for_eachM]. rewrite !result_bind.
  destruct (result (body x s)); cbn [obind]; [apply IH | reflexivity].
Qed.

Lemma for_eachM_total_in {A S : Type} (body : A -> S -> M S) (xs : list A) :
  (forall x s, In x xs -> exists s', result (body x s) = Ok s') ->
  forall s, exists s', result (for_eachM xs body s) = Ok s'.
Proof.
  induction xs as [|x xs IH]; intros H s.
  - exists s; reflexivity.
  - cbn [for_eachM]. rewrite result_bind.
    destruct (H x s (or_introl eq_refl)) as [s1 ->]. cbn [obind].
    apply IH. intros y s' Hy. apply H. right; exact Hy.
Qed.

(** The body of the manifest loop of [generate_diagrams.py]. *)
Lemma idg_manifest_body (f : pystr * yaml_load)
    (acc : list (pystr * list IDG.k8s_resource)) :
  opens f -> dict_get acc (fst f) = None ->
  result
    ((fun '(file, load) (kubernetes_resources :
                           list (pystr * list IDG.k8s_resource)) =>
        if IDG.is_manifest_name file then
          match load with
          | OpenFails e _ => raise e
          | LoadFails e =>
              bind (print (Warning_kubernetes file (Message e)))
                (fun _ => ret kubernetes_resources)
          | Docs docs =>
              match IDG.manifest_records docs with
              | Ok records => ret (dict_set kubernetes_resources file records)
              | Raise e =>
                  bind (print (Warning_kubernetes file (Exception e)))
                    (fun _ => ret kubernetes_resources)
              end
          end
        else ret kubernetes_resources) f acc)
  = Ok (acc ++ idg_manifest_entry f).
Proof.
  destruct f as [file load]. unfold opens, idg_manifest_entry.
  cbn [fst snd]. intros Ho Hacc.
  destruct (IDG.is_manifest_name file) eqn:E.
  - destruct load as [docs|e|e t].
    + destruct (IDG.manifest_records docs) as [records|e].
      * rewrite result_ret, dict_set_new by exact Hacc. reflexivity.
      * cbn. rewrite app_nil_r. reflexivity.
    + cbn. rewrite app_nil_r. reflexivity.
    + discriminate Ho.
  - rewrite result_ret, app_nil_r. reflexivity.
Qed.



(** X14. A manifest file that cannot be opened stops the scan of
    [generate_diagrams.py] with the error of [open], since the file is
    opened outside the [try]: the first such file in the listing decides. *)
Theorem idg_manifest_open_error (p : IDG.project)
    (before after : list (pystr * yaml_load)) (file text : pystr) (e : exn) :
  IDG.k8s_dir p = Some (before ++ (file, OpenFails e text) :: after) ->
  IDG.is_manifest_name file = true ->
  Forall opens before ->
  result (IDG.analyze_kubernetes_resources p) = Raise e.
Proof.
  intros Hk Hm Ho. unfold IDG.analyze_kubernetes_resources. rewrite Hk.
  rewrite result_for_eachM_app.
  match goal with
  | |- obind (result (for_eachM before ?b ?s0)) _ = _ =>
      assert (Htot : forall s, exists s',
                       result (for_eachM before b s) = Ok s');
        [apply for_eachM_total_in | destruct (Htot s0) as [s' ->]]
  end.
  - intros [f load] s Hin.
    assert (Hf : opens (f, load))
      by (rewrite Forall_forall in Ho; apply Ho; exact Hin).
    unfold opens in Hf. cbn [fst snd] in Hf.
    destruct (IDG.is_manifest_name f).
    + destruct load as [docs|e'|e' t'].
      * destruct (IDG.manifest_records docs); eexists; reflexivity.
      * eexists; reflexivity.
      * discriminate Hf.
    + eexists; reflexivity.
  - cbn [obind for_eachM]. rewrite result_bind, Hm. reflexivity.
Qed.

Lemma idg_manifest_open_error_witness :
  result (IDG.analyze_kubernetes_resources
            {| IDG.project_root := lit "/repo";
               IDG.modules_dir := Some [];
               IDG.k8s_dir :=
                 Some ([(lit "bad.yaml", LoadFails (lit "no"))]
                       ++ (lit "locked.yaml",
                           OpenFails PermissionError (lit "denied"))
                       :: [(lit "web.yml", Docs [VDict pod_doc])]);
               IDG.readme := ReadOk old_readme;
               IDG.terraform_visual := ToolOk;
               IDG.now := stamp1 |})
  = Raise PermissionError.
Proof.
  eapply idg_manifest_open_error.
  - reflexivity.
  - reflexivity.
  - repeat constructor.
Defined.

(** X15. When extraction raises in no module, the module scan of
    [generate_diagrams.py] gives every directory listed under the modules
    directory one record, in listing order, a directory without [.tf]
    files included, and passes over plain files. *)
Theorem idg_module_entries (p : IDG.project)
    (listing : list (pystr * IDG.dir_entry)) :
  IDG.modules_dir p = Some listing ->
  NoDup (map fst listing) ->
  Forall (module_extracts (path_join (IDG.project_root p) (lit "modules")))
    listing ->
  result (IDG.analyze_terraform_modules p)
  = Ok (flat_map
          (idg_module_entry (path_join (IDG.project_root p) (lit "modules")))
          listing).
Proof.
  intros Hm Hnd Hok. unfold IDG.analyze_terraform_modules. rewrite Hm.
  apply (scan_collects_nil fst
           (idg_module_entry
              (path_join (IDG.project_root p) (lit "modules")))).
  - intros [name entry] kv. unfold idg_module_entry. cbn [fst snd].
    destruct entry as [|files]; [contradiction|].
    destruct (result _); [|contradiction].
    intros [<-|[]]. reflexivity.
  - intros [name entry] acc Hin Hacc.
    rewrite Forall_forall in Hok. specialize (Hok _ Hin).
    unfold module_extracts, idg_module_entry in *. cbn [fst snd] in *.
    destruct entry as [|files].
    + rewrite result_ret, app_nil_r. reflexivity.
    + destruct Hok as [details Hd]. rewrite result_bind, Hd.
      cbn [obind]. rewrite result_ret, dict_set_new by exact Hacc.
      reflexivity.
  - exact Hnd.
Qed.

Lemma idg_module_entries_witness :
  result (IDG.analyze_terraform_modules idg_mixed)
  = Ok [ (lit "network",
          {| IDG.resources := [lit "vpc_network.main"];
             IDG.variables := [lit "region"];
             IDG.outputs := [lit "network_id"] |});
         (lit "empty", IDG.empty_details) ].
Proof.
  apply (idg_module_entries idg_mixed
           [ (lit "README.md", IDG.IsFile);
             (lit "network", IDG.IsDir [(lit "main.tf", Parsed network_tf)]);
             (lit "empty", IDG.IsDir []) ]).
  - reflexivity.
  - repeat constructor; simpl; intuition discriminate.
  - repeat constructor; eexists; reflexivity.
Defined.

(** X16. A missing modules directory ends a run of [generate_diagrams.py]
    at once with [FileNotFoundError], before anything is printed or read.
    In [update_readme.py] an empty walk is no error: without modules and
    manifests the run writes the headers of both sections, empty, after
    the diagram text. *)
Theorem missing_modules_directory :
  (forall repr p,
      IDG.modules_dir p = None ->
      IDG.update_readme repr p = ([], Raise FileNotFoundError))
  /\ (forall repr p,
        PA.modules_walk p = [] ->
        PA.k8s_dir p = None ->
        result (PA.update_readme repr p)
        = obind (read_existing (PA.readme p)) (fun content =>
            Ok (replace_section content (PA.now p)
                  (PA.diagram_text p ++ PA.modules_header
                   ++ PA.kubernetes_header)))).
Proof.
  split.
  - intros repr p H. unfold IDG.update_readme, IDG.analyze_terraform_modules.
    rewrite H. reflexivity.
  - intros repr p Hw Hk.
    rewrite (PipelineFacts.pa_update_readme_result repr p [] []).
    + reflexivity.
    + unfold PA.analyze_project, PA.analyze_modules, PA.analyze_manifests.
      rewrite Hw, Hk. reflexivity.
Qed.

Lemma missing_modules_directory_witness :
  IDG.update_readme no_repr
    {| IDG.project_root := lit "/repo";
       IDG.modules_dir := None;
       IDG.k8s_dir := Some mixed_manifests;
       IDG.readme := ReadOk old_readme;
       IDG.terraform_visual := ToolOk;
       IDG.now := stamp1 |}
  = ([], Raise FileNotFoundError)
  /\ result (PA.update_readme no_repr
               {| PA.project_root := lit "/repo";
                  PA.modules_walk := [];
                  PA.k8s_dir := None;
                  PA.readme := ReadFails FileNotFoundError;
                  PA.terraform_visual := ToolFails (lit "missing");
                  PA.now := stamp1 |})
     = Ok (replace_section DEFAULT_TITLE stamp1
             (PA.modules_header ++ PA.kubernetes_header)).
Proof.
  destruct missing_modules_directory as [H1 H2]. split.
  - apply H1. reflexivity.
  - apply (H2 no_repr); reflexivity.
Defined.

(** *** Records of a manifest file *)

Lemma idg_manifest_record_cases (d : dict) :
  IDG.manifest_record d
  = if bad_metadata (VDict d) then Raise AttributeError
    else Ok (record_of d).
Proof.
  unfold IDG.manifest_record, bad_metadata, record_of, kind_of, name_of,
    dict_get_default.
  destruct (dict_get d (lit "metadata")) as [[| | | | |m]|]; reflexivity.
Qed.

Lemma pa_document_resource_cases (repr : pyval -> pystr) (d : dict)
    (doc : pystr) :
  PA.document_resource repr (VDict d) doc
  = if bad_metadata (VDict d) then Raise AttributeError
    else Ok (doc ++ PA.k8s_bullet repr (kind_of d) (name_of d)).
Proof.
  unfold PA.document_resource, PA.manifest_name, PA.manifest_kind,
    bad_metadata, kind_of, name_of, dict_get_default.
  destruct (dict_get d (lit "metadata")) as [[| | | | |m]|]; reflexivity.
Qed.

Lemma idg_manifest_records_from (docs : list pyval)
    (acc : list IDG.k8s_resource) :
  for_each docs (fun r acc =>
    match r with
    | VDict d => obind (IDG.manifest_record d) (fun rec => Ok (acc ++ [rec]))
    | _ => Ok acc
    end) acc
  = if existsb bad_metadata docs then Raise AttributeError
    else Ok (acc ++ map record_of (mapping_docs docs)).
Proof.
  revert acc. induction docs as [|v docs IH]; intros acc.
  - simpl. rewrite app_nil_r. reflexivity.
  - cbn [for_each existsb]. destruct v as [| | | | |d];
      try (cbn [obind bad_metadata orb mapping_docs flat_map app]; apply IH).
    rewrite idg_manifest_record_cases.
    destruct (bad_metadata (VDict d)); [reflexivity|].
    cbn [obind orb]. rewrite IH.
    destruct (existsb bad_metadata docs); [reflexivity|].
    cbn [mapping_docs flat_map app map]. rewrite <- app_assoc. reflexivity.
Qed.

Lemma pa_documents_from (repr : pyval -> pystr) (docs : list pyval)
    (doc : pystr) :
  for_each docs (PA.document_resource repr) doc
  = if existsb bad_metadata docs then Raise AttributeError
    else Ok (doc ++ concat (map (fun d =>
                PA.k8s_bullet repr (kind_of d) (name_of d))
                (mapping_docs docs))).
Proof.
  revert doc. induction docs as [|v docs IH]; intros doc.
  - simpl. rewrite app_nil_r. reflexivity.
  - cbn [for_each existsb]. destruct v as [| | | | |d];
      try (cbn [PA.document_resource obind bad_metadata orb mapping_docs
                flat_map app]; apply IH).
    rewrite pa_document_resource_cases.
    destruct (bad_metadata (VDict d)); [reflexivity|].
    cbn [obind orb]. rewrite IH.
    destruct (existsb bad_metadata docs); [reflexivity|].
    cbn [mapping_docs flat_map app map concat]. rewrite <- app_assoc.
    reflexivity.
Qed.

(** X17. The documents of one manifest file: when some document is a
    mapping whose [metadata] is there and is not a mapping, both scripts
    raise [AttributeError] and nothing else; otherwise there is one record
    (in [update_readme.py] one bullet) for every document that is a
    mapping, in order, with the defaults ["Unknown"] and ["unnamed"], and
    nothing for the other documents. *)
Theorem manifest_documents (repr : pyval -> pystr) (docs : list pyval)
    (doc : pystr) :
  IDG.manifest_records docs
    = (if existsb bad_metadata docs then Raise AttributeError
       else Ok (map record_of (mapping_docs docs)))
  /\ for_each docs (PA.document_resource repr) doc
    = (if existsb bad_metadata docs then Raise AttributeError
       else Ok (doc ++ concat (map (fun d =>
                   PA.k8s_bullet repr (kind_of d) (name_of d))
                   (mapping_docs docs)))).
Proof.
  split.
  - unfold IDG.manifest_records. apply idg_manifest_records_from.
  - apply pa_documents_from.
Qed.

End Scans.

(* ===================================================================== *)
(** ** What is rendered, printed and raised *)
(* ===================================================================== *)

Module Runs.
Import Py Data Readme Spec Behaviour PyFacts RunFacts PipelineFacts.
Import Examples.

(** *** The headers of [update_readme.py] *)

Lemma for_each_extends {A : Type} (body : A -> pystr -> outcome pystr)
    (xs : list A) :
  (forall x d d', body x d = Ok d' -> exists t, d' = d ++ t) ->
  forall doc r, for_each xs body doc = Ok r -> exists t, r = doc ++ t.
Proof.
  intros Hbody. induction xs as [|x xs IH]; intros doc r H.
  - injection H as <-. exists []. rewrite app_nil_r. reflexivity.
  - cbn [for_each] in H. destruct (body x doc) as [d'|] eqn:E; [|discriminate].
    cbn [obind] in H. destruct (Hbody _ _ _ E) as [t1 ->].
    destruct (IH _ _ H) as [t2 ->]. exists (t1 ++ t2).
    rewrite app_assoc. reflexivity.
Qed.

Lemma pa_module_doc_starts (repr : pyval -> pystr)
    (tm : list (pystr * list dict)) (md : pystr) :
  PA.generate_module_documentation repr tm = Ok md ->
  exists t, md = PA.modules_header ++ t.
Proof.
  unfold PA.generate_module_documentation. apply for_each_extends.
  intros [module configs] d d' H.
  destruct (PA.module_extract repr configs); [|discriminate].
  injection H as <-. eexists; reflexivity.
Qed.

Lemma pa_kubernetes_doc_starts (repr : pyval -> pystr)
    (kr : list (pystr * list pyval)) (kd : pystr) :
  PA.generate_kubernetes_documentation repr kr = Ok kd ->
  exists t, kd = PA.kubernetes_header ++ t.
Proof.
  unfold PA.generate_kubernetes_documentation. apply for_each_extends.
  intros [file resources] d d' H.
  destruct (for_each resources (PA.document_resource repr) _) as [d1|] eqn:E;
    [|discriminate].
  injection H as <-.
  apply for_each_extends in E.
  - destruct E as [t ->]. eexists. rewrite <- !app_assoc. reflexivity.
  - intros v x x' Hx. destruct v; try (injection Hx as <-; exists [];
      rewrite app_nil_r; reflexivity).
    unfold PA.document_resource in Hx.
    destruct (PA.manifest_name d0); [|discriminate].
    injection Hx as <-. eexists; reflexivity.
Qed.

(** X18. Whenever [update_readme.py] completes, what it writes holds the
    Terraform Modules header and, after it, the Kubernetes Resources
    header, whatever was found in the project. *)
Theorem pa_headers_always (repr : pyval -> pystr) (p : PA.project)
    (written : pystr) :
  result (PA.update_readme repr p) = Ok written ->
  exists a b c,
    written = a ++ PA.modules_header ++ b ++ PA.kubernetes_header ++ c.
Proof.
  intros H.
  destruct (pa_analyze_project_total p) as (tm & kr & Han & _).
  rewrite (pa_update_readme_result repr p tm kr Han) in H.
  destruct (read_existing (PA.readme p)) as [content|]; [|discriminate].
  cbn [obind] in H.
  destruct (PA.generate_module_documentation repr tm) as [md|] eqn:Emd;
    [|discriminate].
  destruct (PA.generate_kubernetes_documentation repr kr) as [kd|] eqn:Ekd;
    [|discriminate].
  cbn [obind] in H. injection H as <-.
  destruct (pa_module_doc_starts _ _ _ Emd) as [b ->].
  destruct (pa_kubernetes_doc_starts _ _ _ Ekd) as [c ->].
  exists (new_content_head content (PA.now p) ++ PA.diagram_text p), b, c.
  unfold replace_section. rewrite <- !app_assoc. reflexivity.
Qed.

Lemma pa_headers_always_witness :
  exists written,
    result (PA.update_readme no_repr (pa_with_manifest [VDict pod_doc]))
    = Ok written
    /\ exists a b c,
         written = a ++ PA.modules_header ++ b ++ PA.kubernetes_header ++ c.
Proof.
  eexists. split; [vm_compute; reflexivity|].
  apply (pa_headers_always no_repr (pa_with_manifest [VDict pod_doc])).
  vm_compute; reflexivity.
Defined.

(** *** The end and the size of the Mermaid diagram *)

Lemma join_snoc2 (sep a b : pystr) (l : list pystr) :
  l <> [] ->
  join sep (l ++ [a; b]) = join sep l ++ sep ++ a ++ sep ++ b.
Proof.
  induction l as [|x l IH]; intros H; [contradiction|].
  destruct l as [|y l].
  - reflexivity.
  - change ((x :: y :: l) ++ [a; b]) with (x :: ((y :: l) ++ [a; b])).
    rewrite Mermaid.join_cons_nonempty by (simpl; discriminate).
    rewrite IH by discriminate.
    rewrite (Mermaid.join_cons_nonempty sep x (y :: l)) by discriminate.
    rewrite <- !app_assoc. reflexivity.
Qed.

Lemma endswith_app (x suffix : pystr) : endswith (x ++ suffix) suffix = true.
Proof. unfold endswith. rewrite rev_app_distr. apply startswith_app. Qed.

Lemma length_mermaid_modules (tm : list (pystr * IDG.module_details)) :
  length (IDG.mermaid_modules tm)
  = 2 * length tm
    + list_sum (map (fun m => length (IDG.resources (snd m))) tm).
Proof.
  induction tm as [|[module details] tm IH]; [reflexivity|].
  unfold IDG.mermaid_modules in *. cbn [flat_map].
  unfold pystr in *.
  rewrite length_app, IH, !length_app, length_map. simpl. lia.
Qed.

Lemma length_k8s_nodes (repr : pyval -> pystr)
    (kr : list (pystr * list IDG.k8s_resource)) :
  length (flat_map (fun '(_, resources) =>
            map (IDG.k8s_node repr) resources) kr)
  = list_sum (map (fun f => length (snd f)) kr).
Proof.
  induction kr as [|[file records] kr IH]; [reflexivity|].
  cbn [flat_map]. unfold pystr in *.
  rewrite length_app, IH, length_map. reflexivity.
Qed.

Lemma newlines_app (a b : pystr) :
  newlines (a ++ b) = newlines a + newlines b.
Proof. unfold newlines. rewrite filter_app, length_app. reflexivity. Qed.

Lemma newlines_replace (s : pystr) (old : N) :
  newlines s = 0 -> newlines (replace s old 95%N) = 0.
Proof.
  unfold newlines, replace.
  induction s as [|c s IH]; [reflexivity|]. cbn [map filter].
  destruct (char_eqb NL c) eqn:Ec; [discriminate|]. intros H.
  destruct (char_eqb c old); [exact (IH H)|]. rewrite Ec. exact (IH H).
Qed.

(** The newlines of joined lines: one between two lines, and those the
    lines hold. *)
Lemma newlines_join (lines : list pystr) :
  lines <> [] ->
  line_count (join [NL] lines)
  = length lines + list_sum (map newlines lines).
Proof.
  unfold line_count.
  induction lines as [|x lines IH]; intros H; [contradiction|].
  destruct lines as [|y lines].
  - simpl. lia.
  - rewrite Mermaid.join_cons_nonempty by discriminate.
    rewrite !newlines_app.
    change (newlines [NL]) with 1.
    specialize (IH ltac:(discriminate)).
    cbn [length map] in *. unfold list_sum in *. cbn [fold_right] in *. lia.
Qed.

Lemma list_sum_zero {A : Type} (f : A -> nat) (xs : list A) :
  (forall x, In x xs -> f x = 0) -> list_sum (map f xs) = 0.
Proof.
  induction xs as [|x xs IH]; intros H; [reflexivity|].
  cbn [map]. change (list_sum (f x :: map f xs))
    with (f x + list_sum (map f xs)).
  rewrite (H x (or_introl eq_refl)), IH; [reflexivity|].
  intros y Hy. apply H. right. exact Hy.
Qed.

Lemma one_line_zero (s : pystr) : one_line s = true -> newlines s = 0.
Proof. unfold one_line. apply Nat.eqb_eq. Qed.

Lemma node_line_one_line (node_id label : pystr) :
  newlines node_id = 0 -> newlines label = 0 ->
  newlines (IDG.node_line node_id label) = 0.
Proof.
  intros Hi Hl. unfold IDG.node_line.
  rewrite !newlines_app, Hi, Hl. reflexivity.
Qed.

(** Every line of the diagram of one-line names is one line. *)
Lemma mermaid_lines_one_line (repr : pyval -> pystr)
    (tm : list (pystr * IDG.module_details))
    (kr : list (pystr * list IDG.k8s_resource)) :
  forallb one_line_module tm = true ->
  forallb (fun f => forallb (one_line_record repr) (snd f)) kr = true ->
  forall line, In line (IDG.mermaid_lines repr tm kr) -> newlines line = 0.
Proof.
  intros Htm Hkr line. unfold IDG.mermaid_lines.
  rewrite forallb_forall in Htm. rewrite forallb_forall in Hkr.
  intros H. apply in_app_or in H as [H|H].
  { unfold IDG.mermaid_preamble in H.
    repeat (destruct H as [<-|H]; [reflexivity|]). destruct H. }
  apply in_app_or in H as [H|H].
  { unfold IDG.mermaid_modules in H. apply in_flat_map in H.
    destruct H as ([module details] & Hin & H).
    specialize (Htm _ Hin). unfold one_line_module in Htm.
    apply andb_prop in Htm as [Hm Hr]. cbn [fst snd] in *.
    apply one_line_zero in Hm. rewrite forallb_forall in Hr.
    cbn [app] in H.
    destruct H as [<-|H]; [rewrite newlines_app, Hm; reflexivity|].
    apply in_app_or in H as [H|H].
    - apply in_map_iff in H as (resource & <- & Hres).
      pose proof (one_line_zero _ (Hr _ Hres)) as Hz.
      unfold IDG.terraform_node. apply node_line_one_line; [|exact Hz].
      unfold IDG.terraform_node_id. apply newlines_replace.
      apply newlines_replace. rewrite !newlines_app, Hm, Hz. reflexivity.
    - destruct H as [<-|[]]. reflexivity. }
  apply in_app_or in H as [H|H].
  { unfold IDG.mermaid_kubernetes in H. destruct kr as [|k kr]; [destruct H|].
    cbn [app] in H. destruct H as [<-|H]; [reflexivity|].
    apply in_app_or in H as [H|H].
    - apply in_flat_map in H. destruct H as ([file records] & Hin & H).
      specialize (Hkr _ Hin). cbn [snd] in Hkr.
      rewrite forallb_forall in Hkr.
      apply in_map_iff in H as (r & <- & Hr).
      specialize (Hkr _ Hr). unfold one_line_record in Hkr.
      apply andb_prop in Hkr as [Hk Hn].
      apply one_line_zero in Hk. apply one_line_zero in Hn.
      unfold IDG.k8s_node. apply node_line_one_line.
      + unfold IDG.k8s_node_id. apply newlines_replace.
        rewrite !newlines_app, Hk, Hn. reflexivity.
      + rewrite !newlines_app, Hk, Hn. reflexivity.
    - destruct H as [<-|[]]. reflexivity. }
  repeat (destruct H as [<-|H]; [reflexivity|]). destruct H.
Qed.

(** X19. The Mermaid diagram always ends with the line [end] and the
    closing fence.  It is joined from six fixed lines, two lines and one
    node line per resource for every module, and, when there is any
    manifest entry, two lines and one node line per record for the
    Kubernetes subgraph; the text returned has at least that many lines,
    and exactly that many when no module name, resource identifier or
    formatted kind or name of a record holds a newline. *)
Theorem mermaid_shape (repr : pyval -> pystr)
    (tm : list (pystr * IDG.module_details))
    (kr : list (pystr * list IDG.k8s_resource)) :
  endswith (IDG.generate_mermaid_diagram repr tm kr)
    ([NL] ++ lit "end" ++ [NL] ++ lit "```") = true
  /\ length (IDG.mermaid_lines repr tm kr) = mermaid_line_count tm kr
  /\ line_count (IDG.generate_mermaid_diagram repr tm kr)
     = mermaid_line_count tm kr
       + list_sum (map newlines (IDG.mermaid_lines repr tm kr))
  /\ (forallb one_line_module tm = true ->
      forallb (fun f => forallb (one_line_record repr) (snd f)) kr = true ->
      line_count (IDG.generate_mermaid_diagram repr tm kr)
      = mermaid_line_count tm kr).
Proof.
  assert (Hlen : length (IDG.mermaid_lines repr tm kr)
                 = mermaid_line_count tm kr).
  { unfold IDG.mermaid_lines, mermaid_line_count.
    rewrite !length_app, length_mermaid_modules.
    unfold IDG.mermaid_kubernetes, IDG.mermaid_preamble.
    destruct kr as [|k kr].
    + simpl. lia.
    + rewrite !length_app, length_k8s_nodes. simpl length. lia. }
  assert (Hcount : line_count (IDG.generate_mermaid_diagram repr tm kr)
     = mermaid_line_count tm kr
       + list_sum (map newlines (IDG.mermaid_lines repr tm kr))).
  { unfold IDG.generate_mermaid_diagram. rewrite newlines_join, Hlen.
    - reflexivity.
    - unfold IDG.mermaid_lines, IDG.mermaid_preamble. discriminate. }
  split; [|split; [exact Hlen | split; [exact Hcount|]]].
  - unfold IDG.generate_mermaid_diagram, IDG.mermaid_lines.
    rewrite !app_assoc. rewrite join_snoc2.
    + apply endswith_app.
    + unfold IDG.mermaid_preamble. discriminate.
  - intros Htm Hkr. rewrite Hcount.
    rewrite (list_sum_zero newlines);
      [lia | apply (mermaid_lines_one_line repr tm kr Htm Hkr)].
Qed.

(** One module with one resource and one manifest with one record: twelve
    lines. *)
Lemma mermaid_shape_witness :
  line_count
    (IDG.generate_mermaid_diagram no_repr
       [(lit "network",
         {| IDG.resources := [lit "vpc_network.main"];
            IDG.variables := [lit "region"];
            IDG.outputs := [lit "network_id"] |})]
       [(lit "pod.yaml",
         [{| IDG.kind := VStr (lit "Pod"); IDG.name := VStr (lit "web") |}])])
  = 12.
Proof.
  destruct (mermaid_shape no_repr
       [(lit "network",
         {| IDG.resources := [lit "vpc_network.main"];
            IDG.variables := [lit "region"];
            IDG.outputs := [lit "network_id"] |})]
       [(lit "pod.yaml",
         [{| IDG.kind := VStr (lit "Pod"); IDG.name := VStr (lit "web") |}])])
    as (_ & _ & _ & H).
  exact (H eq_refl eq_refl).
Defined.

(** *** What is printed *)

Lemma printed_bind {A B : Type} (c : M A) (k : A -> M B) :
  printed (bind c k)
  = printed c ++ match result c with
                 | Ok a => printed (k a)
                 | Raise _ => []
                 end.
Proof.
  destruct c as [log [a|e]]; simpl.
  - destruct (k a); reflexivity.
  - rewrite app_nil_r. reflexivity.
Qed.

Lemma printed_for_eachM {A S : Type} (P : event -> Prop)
    (body : A -> S -> M S) (xs : list A) :
  (forall x s ev, In ev (printed (body x s)) -> P ev) ->
  forall s ev, In ev (printed (for_eachM xs body s)) -> P ev.
Proof.
  intros Hbody. induction xs as [|x xs IH]; intros s ev H.
  - destruct H.
  - cbn [for_eachM] in H. rewrite printed_bind in H.
    apply in_app_or in H as [H|H]; [exact (Hbody _ _ _ H)|].
    destruct (result (body x s)); [exact (IH _ _ H) | destruct H].
Qed.

Lemma idg_modules_quiet (p : IDG.project) (ev : event) :
  In ev (printed (IDG.analyze_terraform_modules p)) -> ev <> Readme_updated.
Proof.
  unfold IDG.analyze_terraform_modules.
  destruct (IDG.modules_dir p) as [listing|]; [|intros []].
  apply (printed_for_eachM (fun ev => ev <> Readme_updated)).
  intros [module entry] s ev' H. destruct entry as [|files]; [destruct H|].
  rewrite printed_bind in H. apply in_app_or in H as [H|H].
  - revert H. unfold IDG.analyze_module.
    apply (printed_for_eachM (fun ev => ev <> Readme_updated)).
    intros [file load] d ev'' H. unfold IDG.analyze_file in H.
    destruct (endswith file (lit ".tf")); [|destruct H].
    rewrite printed_bind in H. apply in_app_or in H as [H|H].
    + destruct load; [destruct H|]. destruct H as [<-|[]]. discriminate.
    + destruct (result _); destruct H.
  - destruct (result _); destruct H.
Qed.

Lemma idg_manifests_quiet (p : IDG.project) (ev : event) :
  In ev (printed (IDG.analyze_kubernetes_resources p)) ->
  ev <> Readme_updated.
Proof.
  unfold IDG.analyze_kubernetes_resources.
  destruct (IDG.k8s_dir p) as [listing|]; [|intros []].
  apply (printed_for_eachM (fun ev => ev <> Readme_updated)).
  intros [file load] s ev' H.
  destruct (IDG.is_manifest_name file); [|destruct H].
  destruct load as [docs|e|e t].
  - destruct (IDG.manifest_records docs); [destruct H|].
    destruct H as [<-|[]]. discriminate.
  - destruct H as [<-|[]]. discriminate.
  - destruct H.
Qed.

(** X20. [generate_diagrams.py] prints its success message exactly when
    the run completes, and then as the last thing printed: a run that
    raises never prints it. *)
Theorem success_message_last (repr : pyval -> pystr) (p : IDG.project) :
  match result (IDG.update_readme repr p) with
  | Ok _ =>
      exists log,
        printed (IDG.update_readme repr p) = log ++ [Readme_updated]
        /\ ~ In Readme_updated log
  | Raise _ => ~ In Readme_updated (printed (IDG.update_readme repr p))
  end.
Proof.
  pose proof (idg_modules_quiet p) as HA.
  pose proof (idg_manifests_quiet p) as HB.
  unfold IDG.update_readme, IDG.generate_terraform_visual_diagram.
  destruct (IDG.analyze_terraform_modules p) as [lA [tm|e]]; cbn in HA.
  - destruct (IDG.analyze_kubernetes_resources p) as [lB [kr|e]]; cbn in HB.
    + destruct (read_existing (IDG.readme p)) as [content|e].
      * destruct (IDG.terraform_visual p) as [|msg].
        -- cbn. exists (lA ++ lB). split.
           ++ rewrite <- app_assoc. reflexivity.
           ++ intros H. apply in_app_or in H as [H|H];
                [exact (HA _ H eq_refl) | exact (HB _ H eq_refl)].
        -- cbn. exists (lA ++ lB ++ [Warning_diagram msg]). split.
           ++ rewrite <- !app_assoc. reflexivity.
           ++ intros H. apply in_app_or in H as [H|H];
                [exact (HA _ H eq_refl)|].
              apply in_app_or in H as [H|H]; [exact (HB _ H eq_refl)|].
              destruct H as [H|[]]. discriminate H.
      * cbn. rewrite app_nil_r. intros H.
        apply in_app_or in H as [H|H];
          [exact (HA _ H eq_refl) | exact (HB _ H eq_refl)].
    + cbn. intros H. apply in_app_or in H as [H|H];
        [exact (HA _ H eq_refl) | exact (HB _ H eq_refl)].
  - cbn. intros H. exact (HA _ H eq_refl).
Qed.

(** *** What can be raised *)

Lemma for_each_raises {A S : Type} (P : exn -> Prop)
    (body : A -> S -> outcome S) (xs : list A) :
  (forall x s e, body x s = Raise e -> P e) ->
  forall s e, for_each xs body s = Raise e -> P e.
Proof.
  intros Hbody. induction xs as [|x xs IH]; intros s e H; [discriminate|].
  cbn [for_each] in H. destruct (body x s) as [s'|e'] eqn:E.
  - exact (IH _ _ H).
  - injection H as <-. exact (Hbody _ _ _ E).
Qed.

Lemma first_key_raises (v : pyval) (e : exn) :
  first_key v = Raise e -> shape_error e.
Proof.
  unfold shape_error.
  destruct v as [| | | | |[|[k b] d]]; intros H; try discriminate;
    injection H as <-; auto.
Qed.

Lemma iterate_raises (v : pyval) (e : exn) :
  iterate v = Raise e -> shape_error e.
Proof.
  unfold shape_error. destruct v; intros H; try discriminate;
    injection H as <-; auto.
Qed.

Lemma resources_raise (mk : pystr -> pystr -> pystr) (v : option pyval)
    (acc : list pystr) (e : exn) :
  match v with
  | None => Ok acc
  | Some (VDict d) =>
      for_each d (fun '(resource_type, instances) acc =>
        obind (iterate instances) (fun insts =>
          for_each insts (fun instance acc =>
            obind (first_key instance) (fun instance_name =>
              Ok (acc ++ [mk resource_type instance_name]))) acc)) acc
  | Some (VList l) =>
      for_each l (fun resource_item acc =>
        match resource_item with
        | VDict d =>
            obind (first_key resource_item) (fun resource_type =>
              match dict_get d resource_type with
              | None => Raise KeyError
              | Some (VList insts) =>
                  for_each insts (fun instance acc =>
                    match instance with
                    | VDict _ =>
                        obind (first_key instance) (fun instance_name =>
                          Ok (acc ++ [mk resource_type instance_name]))
                    | _ => Ok acc
                    end) acc
              | Some _ => Ok acc
              end)
        | _ => Ok acc
        end) acc
  | Some _ => Ok acc
  end = Raise e ->
  shape_error e.
Proof.
  destruct v as [[| | | |l|d]|]; try discriminate.
  - apply for_each_raises. intros x s e' H.
    destruct x as [| | | | |[|[t b] d]]; try discriminate.
    + injection H as <-. unfold shape_error; auto.
    + cbn [first_key obind dict_get] in H. rewrite str_eqb_refl in H.
      destruct b as [| | | |insts|]; try discriminate.
      revert H. apply for_each_raises. intros i s' e'' H.
      destruct i; try discriminate.
      destruct (first_key (VDict d0)) eqn:E; [discriminate|].
      injection H as <-. exact (first_key_raises _ _ E).
  - apply for_each_raises. intros [t instances] s e' H.
    destruct (iterate instances) as [insts|] eqn:E.
    + cbn [obind] in H. revert H. apply for_each_raises. intros i s' e'' H.
      destruct (first_key i) eqn:E'; [discriminate|].
      injection H as <-. exact (first_key_raises _ _ E').
    + injection H as <-. exact (iterate_raises _ _ E).
Qed.

Lemma names_raise (mk : pystr -> pystr) (v : option pyval)
    (acc : list pystr) (e : exn) :
  match v with
  | None => Ok acc
  | Some (VDict d) =>
      for_each d (fun '(item_name, _) acc => Ok (acc ++ [mk item_name])) acc
  | Some (VList l) =>
      for_each l (fun item acc =>
        match item with
        | VDict _ =>
            obind (first_key item) (fun item_name =>
              Ok (acc ++ [mk item_name]))
        | _ => Ok acc
        end) acc
  | Some _ => Ok acc
  end = Raise e ->
  shape_error e.
Proof.
  destruct v as [[| | | |l|d]|]; try discriminate.
  - apply for_each_raises. intros x s e' H.
    destruct x; try discriminate.
    destruct (first_key (VDict d)) eqn:E; [discriminate|].
    injection H as <-. exact (first_key_raises _ _ E).
  - apply for_each_raises. intros [n b] s e' H. discriminate.
Qed.

Lemma pa_variable_type_raises (c : pyval) (e : exn) :
  PA.variable_type c = Raise e -> shape_error e.
Proof.
  unfold shape_error. destruct c; intros H; try discriminate;
    injection H as <-; auto.
Qed.

Lemma pa_variables_raise (repr : pyval -> pystr) (config : dict)
    (acc : list pystr) (e : exn) :
  PA.extract_variables repr config acc = Raise e -> shape_error e.
Proof.
  unfold PA.extract_variables.
  destruct (dict_get config (lit "variable")) as [[| | | |l|d]|];
    try discriminate.
  - apply for_each_raises. intros x s e' H.
    destruct x as [| | | | |[|[n c] d]]; try discriminate.
    + injection H as <-. unfold shape_error; auto.
    + cbn [first_key obind dict_get] in H. rewrite str_eqb_refl in H.
      destruct (PA.variable_type c) eqn:E; [discriminate|].
      injection H as <-. exact (pa_variable_type_raises _ _ E).
  - apply for_each_raises. intros [n c] s e' H.
    destruct (PA.variable_type c) eqn:E; [discriminate|].
    injection H as <-. exact (pa_variable_type_raises _ _ E).
Qed.

Lemma idg_extract_raises (config : dict) (d : IDG.module_details) (e : exn) :
  IDG.extract config d = Raise e -> shape_error e.
Proof.
  unfold IDG.extract. intros H.
  destruct (IDG.extract_resources config (IDG.resources d)) eqn:E1;
    [|injection H as <-; exact (resources_raise _ _ _ _ E1)].
  cbn [obind] in H.
  destruct (IDG.extract_variables config (IDG.variables d)) eqn:E2;
    [|injection H as <-; exact (names_raise (fun n => n) _ _ _ E2)].
  cbn [obind] in H.
  destruct (IDG.extract_outputs config (IDG.outputs d)) eqn:E3;
    [discriminate|].
  injection H as <-. exact (names_raise (fun n => n) _ _ _ E3).
Qed.

Lemma pa_extract_raises (repr : pyval -> pystr) (config : dict)
    (l : PA.module_lists) (e : exn) :
  PA.extract repr config l = Raise e -> shape_error e.
Proof.
  unfold PA.extract. intros H.
  destruct (PA.extract_resources config (PA.resources l)) eqn:E1;
    [|injection H as <-; exact (resources_raise _ _ _ _ E1)].
  cbn [obind] in H.
  destruct (PA.extract_variables repr config (PA.variables l)) eqn:E2;
    [|injection H as <-; exact (pa_variables_raise _ _ _ _ E2)].
  cbn [obind] in H.
  destruct (PA.extract_outputs config (PA.outputs l)) eqn:E3;
    [discriminate|].
  injection H as <-. exact (names_raise PA.bullet _ _ _ E3).
Qed.

(** X21. Extraction from a parsed file can fail in three ways only, all
    of them caused by the shape of the data: [AttributeError],
    [IndexError] and [TypeError]. In particular the lookup
    [resource_item[resource_type]] never raises [KeyError]. *)
Theorem extraction_errors (repr : pyval -> pystr) (config : dict) (e : exn) :
  (forall d, IDG.extract config d = Raise e -> shape_error e)
  /\ (forall l, PA.extract repr config l = Raise e -> shape_error e).
Proof.
  split.
  - intros d. apply idg_extract_raises.
  - intros l. apply pa_extract_raises.
Qed.

Lemma extraction_errors_witness :
  IDG.extract [(lit "resource", VDict [(lit "t", VList [VDict []])])]
    IDG.empty_details = Raise IndexError
  /\ shape_error IndexError
  /\ PA.extract no_repr
       [(lit "variable", VDict [(lit "region", VStr (lit "string"))])]
       PA.empty_lists = Raise AttributeError
  /\ shape_error AttributeError.
Proof.
  split; [reflexivity|]. split.
  - apply (proj1 (extraction_errors no_repr
             [(lit "resource", VDict [(lit "t", VList [VDict []])])]
             IndexError) IDG.empty_details).
    reflexivity.
  - split; [reflexivity|].
    apply (proj2 (extraction_errors no_repr
             [(lit "variable", VDict [(lit "region", VStr (lit "string"))])]
             AttributeError) PA.empty_lists).
    reflexivity.
Defined.

Lemma pa_module_doc_raises (repr : pyval -> pystr)
    (tm : list (pystr * list dict)) (e : exn) :
  PA.generate_module_documentation repr tm = Raise e -> shape_error e.
Proof.
  unfold PA.generate_module_documentation. apply for_each_raises.
  intros [module configs] doc e' H.
  destruct (PA.module_extract repr configs) eqn:E; [discriminate|].
  injection H as <-. revert E. unfold PA.module_extract.
  apply for_each_raises. intros c l e''. apply pa_extract_raises.
Qed.

Lemma pa_kubernetes_doc_raises (repr : pyval -> pystr)
    (kr : list (pystr * list pyval)) (e : exn) :
  PA.generate_kubernetes_documentation repr kr = Raise e -> shape_error e.
Proof.
  unfold PA.generate_kubernetes_documentation. apply for_each_raises.
  intros [file resources] doc e' H.
  destruct (for_each resources (PA.document_resource repr) _) eqn:E;
    [discriminate|].
  injection H as <-. revert E. apply for_each_raises.
  intros v d e'' H. destruct v; try discriminate.
  unfold PA.document_resource, PA.manifest_name in H.
  destruct (dict_get_default d0 (lit "metadata") (VDict []));
    try discriminate; injection H as <-; unfold shape_error; auto.
Qed.



Lemma for_each_raises_in {A S : Type} (body : A -> S -> outcome S)
    (xs : list A) (s : S) (e : exn) :
  for_each xs body s = Raise e ->
  exists x s', In x xs /\ body x s' = Raise e.
Proof.
  revert s. induction xs as [|x xs IH]; intros s H; [discriminate|].
  cbn [for_each] in H. destruct (body x s) as [s'|e'] eqn:E.
  - destruct (IH _ H) as (y & s1 & Hy & Hb).
    exists y, s1. split; [right; exact Hy | exact Hb].
  - injection H as <-. exists x, s. split; [left; reflexivity | exact E].
Qed.

Lemma idg_modules_raise (p : IDG.project) (e : exn) :
  result (IDG.analyze_terraform_modules p) = Raise e ->
  (IDG.modules_dir p = None /\ e = FileNotFoundError) \/ shape_error e.
Proof.
  unfold IDG.analyze_terraform_modules.
  destruct (IDG.modules_dir p) as [listing|].
  - intros H. right. rewrite ExtractorMore.result_for_eachM in H.
    revert H. apply for_each_raises. intros [module entry] s e' H.
    destruct entry as [|files]; [discriminate|].
    rewrite result_bind in H.
    destruct (result (IDG.analyze_module _ files)) eqn:E; [discriminate|].
    injection H as <-. revert E. unfold IDG.analyze_module.
    rewrite ExtractorMore.result_for_eachM.
    apply for_each_raises. intros f d e''.
    rewrite ExtractorMore.idg_analyze_file_result.
    destruct (endswith (fst f) (lit ".tf")); [|discriminate].
    apply idg_extract_raises.
  - intros H. left. split; [reflexivity|]. injection H as <-. reflexivity.
Qed.

Lemma idg_manifests_raise (p : IDG.project) (e : exn) :
  result (IDG.analyze_kubernetes_resources p) = Raise e ->
  exists listing file text,
    IDG.k8s_dir p = Some listing
    /\ In (file, OpenFails e text) listing
    /\ IDG.is_manifest_name file = true.
Proof.
  unfold IDG.analyze_kubernetes_resources.
  destruct (IDG.k8s_dir p) as [listing|]; [|discriminate].
  intros H. rewrite ExtractorMore.result_for_eachM in H.
  apply for_each_raises_in in H as ([file load] & s & Hin & Hb).
  exists listing. destruct (IDG.is_manifest_name file) eqn:E;
    [|discriminate].
  destruct load as [docs|e1|e1 text].
  - destruct (IDG.manifest_records docs); discriminate.
  - discriminate.
  - injection Hb as <-. exists file, text. auto.
Qed.



End Runs.
